(* ===== verification/_CoqProject ===== *)
-Q . S2P
Prelude.v
Types.v
Api.v
Registry.v
Samples.v
FileUtils.v
Signing.v
Settings.v
Validation.v
Redemption.v
AddAccount.v
Hook.v
Import.v
Stats.v
StatusView.v
Alert.v
Persistence.v
Autosave.v
Refinement.v
AppShell.v
Roster.v
AppView.v
