(* ===== verification/Prelude.v ===== *)
(** * gift-code: verification of the account registry and batch engines

    The program (src/src) is a React application that keeps a roster of
    game accounts, looks up each account's public profile on a remote
    service, and redeems one gift code for every validated account, one
    account at a time with a configurable delay.  Its logic lives in the
    hook [useAccountActions] (src/src/hooks/useAccountActions.ts) and the
    two API modules (src/src/utils/playerApi.ts, giftCodeApi.ts); the
    components call the hook's operations and render its state.

    ** How the program is modelled

    - The hook's state ([useState] accounts, [isProcessing],
      [processingRemaining], the ref [cancelledIdsRef], and the calls made
      to [onShowAlert]) is the record [Registry.HookState].  A React
      functional update [setAccounts(prev => f prev)] is
      [Registry.setAccounts f]; updates are applied in the order they are
      issued, which is React's semantics for functional updaters.
    - Text shown to the user is symbolic ([Types.Text]): [t(key, vars)] is
      [Tr key vars], so messages are compared by catalogue key; the
      locale catalogues are not part of the sources.
    - A remote call is given by its outcome ([Api.FetchOutcome]: network
      failure, HTTP response with a parsed or unparsable body).  What the
      code does with the outcome (status check, [code], [err_code], the
      error-code tables, which exceptions are thrown) is modelled in Api.v.
    - Each async function of the hook is modelled by its suspension points
      (its [await]s): a program counter ([Validation.VPc],
      [Redemption.RPc], [AddAccount.APc]) and one Rocq function per stretch
      of synchronous code between two suspensions.  The engines'
      transition relations ([Validation.v_step], [Redemption.r_step]) let
      the user delete accounts at every suspension, which is the only
      interleaving the code has to tolerate; the executable runners
      ([validateRun], [redeemRun]) take the outcome of each call and the
      deletions made at each suspension, and evaluate with [vm_compute].

    ** Files

    - Prelude.v (this file): notation scope, tactics, hint databases
      [gc]/[gc_rw], list and string lemmas, and [star], the closure of a
      step relation.
    - Types.v: [Account], [PlayerInfo], [AccountStatus], [AlertType],
      [PersistedAccount], error codes, thrown values ([Exn]).
    - Api.v: [fetchPlayerInfo], [submitGiftCode], the gift-code message
      table, and the hook's error classification ([lookupErrorMessage],
      [redeemErrorMessage]).
    - Registry.v: the update primitive [updateAccountStatus] (the only way
      statuses change), its batch form ([batchAt] per account), removal,
      append, the round reset ([resetOne] per account), [HookState],
      [deleteAccount], and the invariant [registry_wf].
    - Samples.v: concrete accounts, responses and states for witnesses.
    - FileUtils.v: fileUtils.ts: [parseAccountsFromText] (split, trim,
      comment filter), [validateAccountFormat] (the regular expression as a
      character test), [validateAccountList] (a fold threading the [seen]
      set), the export content and [isTextFile].
    - Signing.v: apiSign.ts ([generateSign] over the sorted keys with the
      salt, [createSignedParams], [verifySign]), the bodies that
      playerApi.ts and giftCodeApi.ts send, and GiftCodeInput's
      [handleSubmit].  MD5 is a section variable [md5]: the theorems hold
      for any hash function.  A form-urlencoded decoder ([formDecode]) is
      the receiving side, written from the encoding's definition.
    - Validation.v: the batch validation engine [validateAccounts].
    - Redemption.v: the gift-code round [submitGiftCodeToAccounts].
    - AddAccount.v: [addAccount] and sequences of awaited additions.
    - Import.v: [handleFileChange] of AccountManager.tsx, with its
      suspension points [IPc] (file read, delay, [onAddAccount]) over the
      shared [HookState] and its own [ImportUI]; [onAddAccount] is App's
      [handleAddAccount], which calls [addAccount] of the render the
      import started in.  [importRun] plays a whole import.
    - Stats.v: the counts of statsUtils.ts and the figures of
      [StatusStats] (processing, progress numerator and denominator).
    - StatusView.v: the tables of statusUtils.ts, AccountManager's
      [getAccountStatusIcon], and what [StatusStats] renders ([statCard],
      [statusPanel]).
    - Alert.v: the banner of useAlert.ts with its pending 3 s callbacks,
      played over timed user events by [alertRun], and what Alert.tsx
      renders of it ([alertBox]).
    - Persistence.v: localStorage as a finite map, [storage] (set, get,
      remove, clear, isAvailable), [accountStorage], and App.tsx's load
      and save effects ([appMount], [autoSave]).
    - Autosave.v: [createAutoSave] of storageUtils.ts: the debounced
      [storage.set] as a pending timer, its cleanup [clearTimeout], and
      [autosaveRun], an effect that returns it as cleanup, played over
      data changes and the passing of time ([fireWhere] runs the due
      timers earliest first).
    - Hook.v: the object [useAccountActions] returns, as a record of
      operations [AccountActions]; the laws its callers rely on as a class
      [AccountActionsLaws], its instance, and a client proved from the
      laws alone.
    - Settings.v: App.tsx's [delayMs] (its initialiser reading
      localStorage with JavaScript's [parseInt], the select storing
      [String(v)]) and LanguageSwitcher.tsx.
    - AppShell.v: App.tsx's handlers, GiftCodeInput's guard and
      AccountManager's delete guard over an [AppSession] holding the hook
      and every pending call; [appRun] plays any list of [AppEvent]s.
    - AppView.v: the tree App.tsx renders, composed from the views above.
    - Roster.v: the rest of AccountManager.tsx: the add field
      ([form_event], [formRun]), the export handler, the rows
      ([accountRow]), the add button's text and the scroll effect.
    - Refinement.v: the interface [RegistryOps] (a type class) of what the
      hook's clients need from the account list, its two instances (the
      list primitives of Registry.v and a [gmap] keyed by id), the
      abstraction function [absR], and a client [reg_run] written once
      against the class.

    ** What is proved

    - Registry (C5, C6, C14): each rewrite keeps account numbers and ids
      unique and keeps "validated implies a profile"; [isValidated] is
      never reset; the batch form equals sequential updates when ids are
      distinct.  Also: the primitive touches exactly the named account,
      and is a no-op for a missing id; the reset clears exactly the
      [success]/[error] results.
    - Roster (C15): the add field holds digits only, so confirming passes
      exactly the shown number to [onAddAccount].  Also: every number
      passed is a non-empty string of digits; a row's delete button is
      disabled exactly while its icon spins; appending scrolls the list.
    - Refinement (C12): the list primitives refine the map specification
      over any sequence of operations whose appended ids are fresh: the
      abstraction commutes with every operation, ids stay unique, lookups
      agree.
    - Api (C19-C21): when a lookup resolves; the not-found code 40004 is
      classified only when sent as a number; a redemption the service
      answered fails exactly for a non-zero code and records the
      classified message, every other failure a network error.  Also: the short result messages of
      [getGiftCodeResultMessage] classify a failure as the thrown ones do.
    - Signing (C17, C18, C26): the body of a redemption request decodes to
      the signed fields and the server's re-signing gives the sent
      signature; the signature does not depend on the order of the keys;
      for any code [a&b] the server decodes [cdk = a] and a stray field
      [b], and the query it signs again is one character longer than the
      signed one.
      [createSignedParams] followed by [verifySign] accepts whenever the
      parameters have no [sign] key.
    - Validation (C2, C7, C8, C16): a cancelled account is never
      written or looked up; a deleted account stays deleted for the rest of
      the batch; the batch terminates within [2 * n] resumptions and clears
      the cancellation set; without deletions its result in closed form:
      each account of the batch gets the progress [(j+1)/n] and the outcome
      of its own lookup.  Also: the invariant holds in every state of any
      interleaving; the progress message can read "3/2".
    - Redemption (C1, C4, C9, C10, C22): the remaining counter equals the
      number of unsettled accounts at every suspension and is 0 at the end;
      every round starts with no [success]/[error] left; the round
      terminates within [3 * n + 2] resumptions; without validated accounts
      it is rejected with one warning and no change; its course (which
      account is looked up or submitted next) does not depend on the hook
      state, so deletions never change it.
    - AddAccount (C3, C11, C24, C25): the outcome of one addition; no two
      accounts share a number over any sequence of awaited additions with
      fresh ids; any snapshot lacking a number the registry holds lets a
      duplicate in (import race); two additions in the same millisecond
      share an id, and a failed second one removes the first account.
    - Stats (C28, C29): the counts partition the registry with remaining
      <= validated <= total; at the start of a round the figures show no
      success or error and progress 0 of n.  Also: grouping by status
      equals filtering by status, "all processed" is the negation of
      "active operations", and the ceiling-division bounds of the time
      estimate.
    - Settings (C27): the interval chosen in the select is read back after
      a reload, [parseInt] inverting [String(v)] on every integer and on
      NaN.  Also: the five options are the delays the timers wait; a
      corrupted stored value gives NaN and no wait; exactly one language
      button is highlighted, and a click makes its language current.
    - AppShell (C13, C32): over any interleaving of the user's events with the
      resumptions of pending calls, at most one gift-code round is in its
      loop, [isProcessing] says whether one is, and the form refuses a
      submission meanwhile; in every state a round reaches on its own the
      button's "processing" label and the spinner of the processing card
      agree.  Also (AppView): the account
      list, the statistics and the gift-code button agree on an empty
      registry.  [stale_tick_race]: the zeroing tick of a finished round
      that fires after a second submission zeroes the new round's counter,
      so the button reads "processing" while no processing card shows:
      C32 holds for a round on its own, not across two rounds, and C13
      still holds.
    - StatusView (C30): the hint is shown exactly for an empty registry;
      otherwise the four cards carry the registry's counts, none falls to
      the default branch of the tables, and only the processing card
      spins.
    - FileUtils (C31, C33): export then import gives back the account
      numbers; [validateAccountList] splits the distinct inputs by format
      and counts every repeat.  Also: parsing is idempotent.
    - Import (C34-C36): every import terminates with its [finally] reset;
      the summary alert counts exactly the successful lookups; the
      [silent] option is dropped: the alert log of any import is one
      [accountAddFailed] per failed lookup, in order, then the summary.
    - Alert (C37, C38): the banner is hidden 3 s after the last event (and
      its text is the last one shown); for any two alerts less than 3 s
      apart, the second is hidden 3 s after the first.  Also: Alert.tsx then renders nothing, and its box has
      the colour of its icon.
    - Persistence (C39, C40): reopening the page restores the saved
      registry; the sanitized registry keeps the invariant, every account
      [idle].  Also: [accountStorage.addAccount] keeps stored numbers
      distinct; [isAvailable] leaves the storage as it was except that it
      erases the key "__test__".
    - Autosave (C23): with the cleanup run before each new effect, at most
      one save is pending, for the last data, and once it is due the
      storage holds the last data; a burst of changes makes a single
      write.
    - Hook: the returned object satisfies [AccountActionsLaws]; against
      those laws, a status write that arrives after a deletion does not
      bring the account back.

    ** Bounds and fuel

    The runners take fuel counted in resumptions.  Validation needs at most
    two per account (lookup and delay), which [Validation.v_measure]
    decreases at each one, so [2 * length accountsToValidate] suffices
    (C8).  Redemption needs at most three per account (lookup,
    redemption, delay) plus the final tick, and [Redemption.r_measure]
    gives [3 * n + 2] (C9).  The import needs four per new account (delay,
    call, lookup, counters), and [Import.i_measure] gives [4 * n] (C34).
    The counters [processingRemaining] and [importRemaining] are
    JavaScript numbers, modelled as [Z] with [Math.max] written out.
    [alertRun] recurses on the event list and [fireDue] on the pending
    callbacks, [formUnescape] and [splitPair] on the string, [autosaveRun]
    on its event list, all structurally.

    ** Not modelled

    Rendering beyond the parts listed above (JSX layout of the
    components, the [onError] fallbacks of the row images, which rewrite
    the DOM), styling (tailwind.config.js), i18n set-up (i18n/index.ts),
    the MD5 digest itself (a parameter of Signing.v), the HTTP exchange
    itself, the FileReader and Blob download I/O, JSON encoding
    ([JSON.stringify] of an object value of a signed parameter is an
    opaque string), floating point (the percentages of statsUtils.ts and
    StatusStats, [formatFileSize], a section parameter of Import.v), the
    [try]/[catch] of the storage helpers (the browser calls are taken to
    succeed, so [isAvailable] returns [true]), the usage example in a comment of apiSign.ts, and
    Unicode whitespace in [trim] (strings are byte strings; [trim]
    removes ASCII whitespace), and the exponent form JavaScript's
    [String(v)] uses for numbers from 1e21 on (Settings.v prints every
    integer in decimal). *)

From Stdlib Require Import List ZArith String Bool Lia.
From stdpp Require Import base gmap strings list pretty.
From Hammer Require Import Tactics.
Import ListNotations.

(** Notation scope of the development. *)
Declare Scope gc_scope.
Delimit Scope gc_scope with gc.

Create HintDb gc.
Create Rewrite HintDb gc_rw.

(** ** Tactics *)

(** Case on every boolean [if] of the goal, remembering the equation. *)
Ltac destruct_ifs :=
  repeat match goal with
         | |- context [if ?b then _ else _] =>
             lazymatch b with
             | true => fail
             | false => fail
             | _ => destruct b eqn:?
             end
         end.

(** Turn the boolean string and nat tests of the hypotheses into
    propositions. *)
Ltac gc_refl :=
  repeat match goal with
         | H : String.eqb _ _ = true |- _ => apply String.eqb_eq in H
         | H : String.eqb _ _ = false |- _ => apply String.eqb_neq in H
         | H : Nat.ltb _ _ = true |- _ => apply Nat.ltb_lt in H
         | H : Nat.ltb _ _ = false |- _ => apply Nat.ltb_ge in H
         | H : negb _ = true |- _ => apply negb_true_iff in H
         | H : negb _ = false |- _ => apply negb_false_iff in H
         end.

(** ** Generic lemmas on lists *)

Section ListFacts.
Context {A B : Type}.

Lemma map_map_proj (f : A -> A) (g : A -> B) (l : list A) :
  (forall x, In x l -> g (f x) = g x) -> List.map g (List.map f l) = List.map g l.
Proof.
  induction l as [|x l IH]; intros H; simpl; [done|].
  rewrite H by (left; done). f_equal. apply IH. intros y Hy. apply H. by right.
Qed.

Lemma map_id_in (f : A -> A) (l : list A) :
  (forall x, In x l -> f x = x) -> List.map f l = l.
Proof.
  induction l as [|x l IH]; intros H; simpl; [done|].
  rewrite H by (left; done). f_equal. apply IH. intros y Hy. apply H. by right.
Qed.

Lemma NoDup_map_filter (g : A -> B) (p : A -> bool) (l : list A) :
  NoDup (List.map g l) -> NoDup (List.map g (List.filter p l)).
Proof.
  induction l as [|x l IH]; simpl; [done|].
  intros Hnd. apply NoDup_cons in Hnd as [Hx Hnd].
  destruct (p x); simpl; [|by apply IH].
  apply NoDup_cons; split; [|by apply IH].
  intros Hin. apply Hx. apply list_elem_of_In in Hin. apply list_elem_of_In.
  apply in_map_iff in Hin as (y & Hy & Hin).
  apply filter_In in Hin as [Hin _]. rewrite <- Hy. by apply in_map.
Qed.

Lemma NoDup_map_snoc (g : A -> B) (l : list A) (x : A) :
  NoDup (List.map g l) -> g x ∉ List.map g l ->
  NoDup (List.map g (l ++ [x])).
Proof.
  intros Hnd Hx. rewrite map_app. simpl.
  apply NoDup_app; split; [done|split].
  - intros y Hy Hy'. apply list_elem_of_singleton in Hy'. subst. contradiction.
  - apply NoDup_singleton.
Qed.

Lemma existsb_filter_length (p : A -> bool) (l : list A) :
  existsb p l = false <-> length (List.filter p l) = 0.
Proof.
  induction l as [|x l IH]; simpl; [done|].
  destruct (p x); simpl; [split; discriminate|done].
Qed.
End ListFacts.

#[export] Hint Resolve NoDup_map_filter NoDup_map_snoc : gc.

Section MoreListFacts.
Context {A B : Type}.

(** Two members of a list with the same key are equal when the keys are
    unique. *)
Lemma NoDup_map_inj_in (g : A -> B) (l : list A) (x y : A) :
  NoDup (List.map g l) -> In x l -> In y l -> g x = g y -> x = y.
Proof.
  induction l as [|z l IH]; simpl; [done|].
  intros Hnd. apply NoDup_cons in Hnd as [Hz Hnd].
  intros [<-|Hx] [<-|Hy] Heq; try done; try (by apply IH).
  - exfalso. apply Hz. apply list_elem_of_In. rewrite Heq. by apply in_map.
  - exfalso. apply Hz. apply list_elem_of_In. rewrite <- Heq. by apply in_map.
Qed.

Lemma find_none_intro (p : A -> bool) (l : list A) :
  (forall x, In x l -> p x = false) -> List.find p l = None.
Proof.
  induction l as [|x l IH]; intros H; simpl; [done|].
  rewrite H by (by left). apply IH. intros y Hy. apply H. by right.
Qed.
End MoreListFacts.

(** ** Reflexive-transitive closure of a transition relation *)

Inductive star {A} (R : A -> A -> Prop) : A -> A -> Prop :=
| star_refl a : star R a a
| star_step a b c : R a b -> star R b c -> star R a c.

(** An invariant of every step is an invariant of every run. *)
Lemma star_invariant {A} (R : A -> A -> Prop) (P : A -> Prop) :
  (forall a b, R a b -> P a -> P b) -> forall a b, star R a b -> P a -> P b.
Proof. intros Hstep a b Hs. induction Hs; eauto. Qed.

Lemma star_trans {A} (R : A -> A -> Prop) a b c :
  star R a b -> star R b c -> star R a c.
Proof. induction 1; eauto using star. Qed.

(** ** Strings *)

Lemma string_app_assoc (a b c : string) :
  String.append (String.append a b) c = String.append a (String.append b c).
Proof.
  induction a as [|x a IH]; [done|].
  change (String x (String.append (String.append a b) c) =
          String x (String.append a (String.append b c))). by rewrite IH.
Qed.

Lemma string_app_nil_r (a : string) : String.append a EmptyString = a.
Proof.
  induction a as [|x a IH]; [done|].
  change (String x (String.append a EmptyString) = String x a). by rewrite IH.
Qed.

Lemma string_length_app (a b : string) :
  String.length (String.append a b) = String.length a + String.length b.
Proof.
  induction a as [|x a IH]; [done|].
  change (S (String.length (String.append a b)) = S (String.length a) + String.length b).
  by rewrite IH.
Qed.
#[export] Hint Rewrite string_length_app : gc_rw.

Lemma string_cons_app c (a b : string) : String.append (String c a) b = String c (String.append a b).
Proof. reflexivity. Qed.

Lemma take_S_nth_error {A} (l : list A) i x :
  nth_error l i = Some x -> take (S i) l = take i l ++ [x].
Proof.
  revert i. induction l as [|y l IH]; intros [|i] E; simpl in *; try discriminate.
  - by injection E as ->.
  - by rewrite (IH i E).
Qed.

Lemma skipn_nth_error {A} (l : list A) k x :
  nth_error l k = Some x -> skipn k l = x :: skipn (S k) l.
Proof.
  revert k. induction l as [|y l IH]; intros [|k] E; simpl in *; try discriminate.
  - by injection E as ->.
  - by apply IH.
Qed.
