(* ===== verification/Types.v ===== *)
(** * Types: the data model of the application

    The records and enumerations of [src/src/types/index.ts], the error
    codes of [src/src/constants/index.ts], the two error classes of the
    API modules ([ApiError] of [utils/playerApi.ts], [GiftCodeApiError]
    of [utils/giftCodeApi.ts]) and the user-visible text produced through
    i18next.  Text is kept symbolic: a call [t(key, vars)] is the value
    [Tr key vars], so two messages are equal exactly when they come from
    the same catalogue key with the same interpolation; the catalogue
    itself (JSON locale files) is not part of the sources. *)

From Stdlib Require Import List ZArith String Bool.
From stdpp Require Import base strings list.
From S2P Require Import Prelude.
Import ListNotations.
Open Scope string_scope.

(** ** Account status ([type AccountStatus], types/index.ts) *)

Inductive AccountStatus := idle | processing | success | error | validating.

#[export] Instance AccountStatus_eq_dec : EqDecision AccountStatus.
Proof. solve_decision. Defined.

Definition status_eqb (a b : AccountStatus) : bool := bool_decide (a = b).

(** ** Player profile ([interface PlayerInfo]) *)

Record PlayerInfo := mkPlayerInfo {
  fid : Z;
  nickname : string;
  kid : Z;
  stove_lv : Z;
  stove_lv_content : string;
  avatar_image : string;
  total_recharge_amount : Z;
}.

(** ** User-visible text

    [Tr key vars] is [t(key, vars)]; [Lit s] is a literal string (a
    message coming verbatim from the remote service or from an exception);
    [Num n] is an interpolated number; [Cat a b] is the template literal
    [`${a}${b}`]. *)

#[warnings="-register-all"]
Inductive Text :=
| Tr (key : string) (vars : list (string * Text))
| Lit (s : string)
| Num (n : Z)
| Cat (a b : Text).

(** [tApi(key, fallback, vars)] of giftCodeApi.ts: [i18n.t(key,
    { defaultValue: fallback, ...vars })]. *)
Definition tApi (key : string) (fallback : Text) (vars : list (string * Text)) : Text :=
  Tr key (("defaultValue", fallback) :: vars).

(** ** Accounts ([interface Account]) *)

Record Account := mkAccount {
  id : string;
  accountNumber : string;
  status : AccountStatus;
  lastResult : option Text;
  playerInfo : option PlayerInfo;
  isValidated : bool;
}.

(** [PersistedAccount]: the projection saved to localStorage. *)
Record PersistedAccount := mkPersisted {
  p_id : string;
  p_accountNumber : string;
  p_status : AccountStatus;
  p_isValidated : bool;
  p_playerInfo : option PlayerInfo;
}.

(** ** Alerts ([type AlertType]) *)

Inductive AlertType := alert_error | alert_warning | alert_info | alert_success.

#[export] Instance AlertType_eq_dec : EqDecision AlertType.
Proof. solve_decision. Defined.

(** ** Error codes ([API_ERROR_CODES], constants/index.ts) *)

Definition ACCOUNT_NOT_EXISTS : Z := 40004.
Definition GIFT_CODE_ALREADY_CLAIMED : Z := 40008.
Definition GIFT_CODE_NOT_EXISTS : Z := 40014.
Definition GIFT_CODE_QUOTA_EXCEEDED : Z := 40005.
Definition GIFT_CODE_EXPIRED : Z := 40007.

(** The service's [err_code] field has TypeScript type [string | number]. *)
Inductive ErrCode := ECNum (n : Z) | ECStr (s : string).

(** [e === n] for a numeric constant [n]: JavaScript's strict equality
    never equates a string with a number. *)
Definition errcode_is (e : ErrCode) (n : Z) : bool :=
  match e with
  | ECNum m => Z.eqb m n
  | ECStr _ => false
  end.

(** ** Thrown values

    What a [catch (error)] clause of the hook can receive. *)
Inductive Exn :=
| ApiError (code : Z) (message : Text) (errorCode : ErrCode)
    (** [class ApiError] of playerApi.ts *)
| GiftCodeApiError (message : Text) (errorCode : ErrCode) (responseCode : Z)
    (** [class GiftCodeApiError] of giftCodeApi.ts *)
| PlainError (message : Text)
    (** any other [Error] instance ([TypeError] of fetch, [SyntaxError] of
        [response.json()], [new Error(...)]) *)
| NonError.
    (** a thrown value that is not an [Error] *)

(** [error.message] for the values that are [instanceof Error]. *)
Definition exn_message (e : Exn) : option Text :=
  match e with
  | ApiError _ m _ | GiftCodeApiError m _ _ | PlainError m => Some m
  | NonError => None
  end.

(** A result of an awaited call: [inl] is the resolved value, [inr] the
    rejection. *)
Abbreviation Result A := (A + Exn)%type.
