(* ===== verification/Api.v ===== *)
(** * Api: how the two remote calls turn a response into a result

    [fetchPlayerInfo] (src/src/utils/playerApi.ts) and [submitGiftCode]
    (src/src/utils/giftCodeApi.ts) after the network exchange: the HTTP
    status check, the JSON body's [code]/[err_code]/[data] checks and the
    mapping of the gift-code error codes to messages.  The exchange itself
    (request signing with MD5, [fetch], the request body) is outside the
    model: a call is given by its [FetchOutcome].  The file also holds the
    hook's classification of a caught error into the message shown for an
    account ([useAccountActions.ts]), which is what the engines consume. *)

From Stdlib Require Import List ZArith String Bool Lia.
From stdpp Require Import base strings list pretty.
From S2P Require Import Prelude Types.
Import ListNotations.
Open Scope string_scope.

(** ** What a [fetch] produces *)

Record HttpResponse := mkResponse {
  ok : bool;
  http_status : Z;
  statusText : string;
}.

(** [NetworkFailure m]: [fetch] rejected ([TypeError] with message [m]);
    [Responded r (inl j)]: the body parsed to [j]; [Responded r (inr m)]:
    [response.json()] threw with message [m]. *)
Inductive FetchOutcome (J : Type) :=
| NetworkFailure (msg : string)
| Responded (r : HttpResponse) (body : J + string).
Arguments NetworkFailure {J} msg.
Arguments Responded {J} r body.

(** [s || d] on strings: the empty string is falsy. *)
Definition or_default (s d : string) : string :=
  if String.eqb s "" then d else s.

(** ** playerApi.ts *)

(** [data: PlayerInfo | []] *)
Inductive PlayerData := PDArray | PDObject (p : PlayerInfo).

Record PlayerInfoResponse := mkPlayerInfoResponse {
  pr_code : Z;
  pr_msg : string;
  pr_err_code : ErrCode;
  pr_data : PlayerData;
}.

Definition fetchPlayerInfo (o : FetchOutcome PlayerInfoResponse) : Result PlayerInfo :=
  match o with
  | NetworkFailure m => inr (PlainError (Lit m))
  | Responded r body =>
      if negb (ok r) then
        inr (ApiError (http_status r)
               (Lit ("HTTP Error: " ++ pretty (http_status r) ++ " " ++ statusText r))
               (ECNum (http_status r)))
      else
        match body with
        | inr m => inr (PlainError (Lit m))
        | inl data =>
            if negb (Z.eqb (pr_code data) 0) then
              inr (ApiError (pr_code data) (Lit (or_default (pr_msg data) "Unknown error"))
                     (pr_err_code data))
            else
              match pr_data data with
              | PDArray =>
                  inr (ApiError (pr_code data)
                         (Lit (or_default (pr_msg data) "Player not found"))
                         (pr_err_code data))
              | PDObject p => inl p
              end
        end
  end.

(** ** giftCodeApi.ts *)

Record GiftCodeResponse := mkGiftCodeResponse {
  gr_code : Z;
  gr_msg : string;
  gr_err_code : ErrCode;
}.

(** The [switch (data.err_code)] of [submitGiftCode]. *)
Definition giftCodeErrorMessage (data : GiftCodeResponse) : Text :=
  let e := gr_err_code data in
  if errcode_is e GIFT_CODE_ALREADY_CLAIMED then
    tApi "giftCode.alreadyClaimed" (Lit "已經領過此禮包碼") []
  else if errcode_is e GIFT_CODE_NOT_EXISTS then
    tApi "giftCode.notExists" (Lit "禮包碼不存在") []
  else if errcode_is e GIFT_CODE_QUOTA_EXCEEDED then
    tApi "giftCode.quotaExceeded" (Lit "禮包碼超過領取次數") []
  else if errcode_is e GIFT_CODE_EXPIRED then
    tApi "giftCode.expired" (Lit "超出領取時間") []
  else
    tApi "giftCode.failed" (Lit (or_default (gr_msg data) "領取失敗")) [].

(** The outer [catch] of [submitGiftCode]: a [GiftCodeApiError] is
    rethrown, anything else becomes a network error. *)
Definition networkError (m : string) : Exn :=
  PlainError (tApi "giftCode.networkError" (Lit ("網路請求失敗: " ++ m)) [("error", Lit m)]).

Definition submitGiftCode (o : FetchOutcome GiftCodeResponse) : Result GiftCodeResponse :=
  match o with
  | NetworkFailure m => inr (networkError m)
  | Responded r body =>
      if negb (ok r) then
        inr (networkError ("HTTP " ++ pretty (http_status r) ++ ": " ++ statusText r))
      else
        match body with
        | inr m => inr (networkError m)
        | inl data =>
            if negb (Z.eqb (gr_code data) 0) then
              inr (GiftCodeApiError (giftCodeErrorMessage data) (gr_err_code data) (gr_code data))
            else inl data
        end
  end.

(** [getGiftCodeResultMessage]: the short message for a response. *)
Definition getGiftCodeResultMessage (response : GiftCodeResponse) : Text :=
  if Z.eqb (gr_code response) 0 then tApi "giftCode.successShort" (Lit "領取成功！") []
  else
    let e := gr_err_code response in
    if errcode_is e GIFT_CODE_ALREADY_CLAIMED then
      tApi "giftCode.alreadyClaimedShort" (Lit "已經領過") []
    else if errcode_is e GIFT_CODE_NOT_EXISTS then
      tApi "giftCode.notExistsShort" (Lit "禮包碼不存在") []
    else if errcode_is e GIFT_CODE_QUOTA_EXCEEDED then
      tApi "giftCode.quotaExceededShort" (Lit "超過領取次數") []
    else if errcode_is e GIFT_CODE_EXPIRED then
      tApi "giftCode.expiredShort" (Lit "超出領取時間") []
    else
      tApi "giftCode.failed" (Lit (or_default (gr_msg response) "領取失敗")) [].

(** ** The hook's classification of caught errors *)

(** A failed profile lookup ([catch] blocks of [addAccount],
    [validateAccounts] and [submitGiftCodeToAccounts]): the not-found code
    has its own message, another [ApiError] shows its own message, anything
    else shows [fallback]. *)
Definition lookupErrorMessage (fallback : Text) (e : Exn) : Text :=
  match e with
  | ApiError _ m ec =>
      if errcode_is ec ACCOUNT_NOT_EXISTS then Tr "messages.accountNotExists" [] else m
  | _ => fallback
  end.

(** A failed redemption: the [GiftCodeApiError]'s message, else any
    [Error]'s message, else [messages.redeemFailed]. *)
Definition redeemErrorMessage (e : Exn) : Text :=
  match e with
  | GiftCodeApiError m _ _ => m
  | _ => match exn_message e with
         | Some m => m
         | None => Tr "messages.redeemFailed" []
         end
  end.

(** ** Theorems *)

(** C19: [fetchPlayerInfo] resolves exactly when the HTTP status is OK, the
    body parses, its [code] is 0 and its [data] is an object; the resolved
    value is that object. *)
Theorem fetchPlayerInfo_resolves o p :
  fetchPlayerInfo o = inl p <->
  exists r d, o = Responded r (inl d) /\ ok r = true /\ pr_code d = 0%Z /\
              pr_data d = PDObject p.
Proof.
  split.
  - destruct o as [m|r [d|m]]; simpl; [discriminate| |destruct (ok r); discriminate].
    destruct (ok r) eqn:Hok; simpl; [|discriminate].
    destruct (Z.eqb_spec (pr_code d) 0); simpl; [|discriminate].
    destruct (pr_data d) eqn:Hd; [discriminate|]. intros [= ->]. eauto 10.
  - intros (r & d & -> & Hok & Hc & Hd). simpl. by rewrite Hok, Hc, Hd.
Qed.

(** C20: a lookup the service rejects with the numeric error code 40004 is
    reported by the hook as "account does not exist", whatever fallback
    message the calling site uses; the same code sent as a string is not
    recognised and the service's own message is shown. *)
Theorem lookup_not_found_classified r d fallback :
  ok r = true -> pr_code d <> 0%Z ->
  (pr_err_code d = ECNum ACCOUNT_NOT_EXISTS ->
   exists e, fetchPlayerInfo (Responded r (inl d)) = inr e /\
             lookupErrorMessage fallback e = Tr "messages.accountNotExists" []) /\
  (pr_err_code d = ECStr "40004" ->
   exists e, fetchPlayerInfo (Responded r (inl d)) = inr e /\
             lookupErrorMessage fallback e = Lit (or_default (pr_msg d) "Unknown error")).
Proof.
  intros Hok Hc. simpl. rewrite Hok. simpl.
  destruct (Z.eqb_spec (pr_code d) 0) as [|_]; [contradiction|]. simpl.
  split; intros He; eexists; split; try reflexivity; simpl; by rewrite He.
Qed.

(** Every rejection of [submitGiftCode] is an [Error] instance, so the
    hook's last-resort message [messages.redeemFailed] is never shown for
    it. *)
Lemma submitGiftCode_rejects_with_Error o e :
  submitGiftCode o = inr e -> exn_message e <> None.
Proof.
  destruct o as [m|r [d|m]]; simpl.
  - by intros [= <-].
  - destruct (ok r); simpl; [|by intros [= <-]].
    destruct (negb _); by intros [= <-].
  - destruct (ok r); by intros [= <-].
Qed.

(** The four known gift-code error codes, sent as numbers, select their
    own messages. *)
Lemma giftCodeErrorMessage_known data :
  (gr_err_code data = ECNum GIFT_CODE_ALREADY_CLAIMED ->
   giftCodeErrorMessage data = tApi "giftCode.alreadyClaimed" (Lit "已經領過此禮包碼") []) /\
  (gr_err_code data = ECNum GIFT_CODE_NOT_EXISTS ->
   giftCodeErrorMessage data = tApi "giftCode.notExists" (Lit "禮包碼不存在") []) /\
  (gr_err_code data = ECNum GIFT_CODE_QUOTA_EXCEEDED ->
   giftCodeErrorMessage data = tApi "giftCode.quotaExceeded" (Lit "禮包碼超過領取次數") []) /\
  (gr_err_code data = ECNum GIFT_CODE_EXPIRED ->
   giftCodeErrorMessage data = tApi "giftCode.expired" (Lit "超出領取時間") []).
Proof. unfold giftCodeErrorMessage. repeat split; intros ->; reflexivity. Qed.

(** The short and the long message tables classify a failed response
    alike: either both fall to the same [giftCode.failed] message, or the
    short key is the long key with the suffix [Short]. *)
Lemma giftCode_messages_agree data :
  gr_code data <> 0%Z ->
  getGiftCodeResultMessage data = giftCodeErrorMessage data \/
  exists k f f', giftCodeErrorMessage data = tApi k f [] /\
                 getGiftCodeResultMessage data = tApi (k ++ "Short") f' [].
Proof.
  intros Hc. unfold getGiftCodeResultMessage, giftCodeErrorMessage.
  rewrite (proj2 (Z.eqb_neq _ _) Hc).
  repeat (destruct (errcode_is _ _); [right; do 3 eexists; split; reflexivity|]). by left.
Qed.


(** ** Witnesses *)

Definition sample_not_found : PlayerInfoResponse :=
  mkPlayerInfoResponse 1 "role not exist" (ECNum ACCOUNT_NOT_EXISTS) PDArray.

Lemma lookup_not_found_classified_witness :
  ok (mkResponse true 200 "OK") = true /\ pr_code sample_not_found <> 0%Z /\
  exists e, fetchPlayerInfo (Responded (mkResponse true 200 "OK") (inl sample_not_found)) = inr e /\
            lookupErrorMessage (Tr "messages.validationFailed" []) e =
            Tr "messages.accountNotExists" [].
Proof.
  assert (H1 : ok (mkResponse true 200 "OK") = true) by reflexivity.
  assert (H2 : pr_code sample_not_found <> 0%Z) by discriminate.
  split; [exact H1|split; [exact H2|]].
  exact (proj1 (lookup_not_found_classified _ _ (Tr "messages.validationFailed" []) H1 H2)
           eq_refl).
Defined.

