(* ===== verification/Registry.v ===== *)
(** * Registry: the account collection of [useAccountActions]

    The state of the hook [useAccountActions] (src/src/hooks/
    useAccountActions.ts) as a record [HookState], and the list rewrites
    that every operation of the hook is built from: the merge primitive
    [updateAccountStatus] and its batch form, removal by id, appending a
    new account, and the per-round reset of the redemption engine.  A
    React functional update [setAccounts(prev => f prev)] is [setAccounts f].

    The invariant [registry_wf] (unique account numbers, unique ids, a
    validated account has a profile) is preserved by each rewrite, and
    [validated_persists] states that an account keeps [isValidated].
    The class [StatusPrimitive] is the interface the engines rely on: what
    the update primitive promises to its callers. *)

From Stdlib Require Import List ZArith String Bool Lia.
From stdpp Require Import base gmap strings list.
From S2P Require Import Prelude Types.
Import ListNotations.
Open Scope string_scope.

(** ** The merge primitive *)

(** [!!x] for an optional object: every object is truthy. *)
Definition is_present {A} (o : option A) : bool :=
  match o with Some _ => true | None => false end.

(** The body shared by [updateAccountStatus] and [updateAccountStatusBatch]:
    the profile is replaced only when one is given ([undefined] keeps the
    old one) and [isValidated] is latched. *)
Definition applyStatusUpdate (acc : Account) (st : AccountStatus)
    (lr : option Text) (pi : option PlayerInfo) : Account :=
  let resolvedPlayerInfo :=
    match pi with Some p => Some p | None => playerInfo acc end in
  let wasValidated := isValidated acc in
  let nowValidated :=
    wasValidated || (status_eqb st idle && is_present resolvedPlayerInfo) in
  {| id := id acc; accountNumber := accountNumber acc; status := st;
     lastResult := lr; playerInfo := resolvedPlayerInfo;
     isValidated := nowValidated |}.

Definition updateAccountStatus (accountId : string) (st : AccountStatus)
    (lr : option Text) (pi : option PlayerInfo) (prev : list Account) : list Account :=
  List.map (fun acc =>
    if negb (String.eqb (id acc) accountId) then acc
    else applyStatusUpdate acc st lr pi) prev.

(** One element of the [updates] array of the batch form. *)
Record StatusUpdate := mkStatusUpdate {
  u_accountId : string;
  u_status : AccountStatus;
  u_lastResult : option Text;
  u_playerInfo : option PlayerInfo;
}.

(** The update of the batch that applies to the account [acc] with id [k]:
    the first one naming [k] ([updates.find]). *)
Definition batchAt (updates : list StatusUpdate) (k : string) (acc : Account) : Account :=
  match List.find (fun u => String.eqb (u_accountId u) k) updates with
  | None => acc
  | Some u => applyStatusUpdate acc (u_status u) (u_lastResult u) (u_playerInfo u)
  end.

Definition updateAccountStatusBatch (updates : list StatusUpdate)
    (prev : list Account) : list Account :=
  List.map (fun acc => batchAt updates (id acc) acc) prev.

(** [prev.filter((acc) => acc.id !== accountId)]: used by [deleteAccount]
    and by a failed [addAccount]. *)
Definition removeAccount (accountId : string) (prev : list Account) : list Account :=
  List.filter (fun acc => negb (String.eqb (id acc) accountId)) prev.

(** [[...prev, tempAccount]] *)
Definition appendAccount (a : Account) (prev : list Account) : list Account :=
  prev ++ [a].

(** Step 0 of [submitGiftCodeToAccounts]: clear the last round's results. *)
Definition resetOne (acc : Account) : Account :=
  if status_eqb (status acc) success || status_eqb (status acc) error
  then {| id := id acc; accountNumber := accountNumber acc; status := idle;
          lastResult := None; playerInfo := playerInfo acc;
          isValidated := isValidated acc |}
  else acc.

Definition resetRoundResults (prev : list Account) : list Account :=
  List.map resetOne prev.

(** ** The hook's state *)

(** [accounts] is the [useState<Account[]>]; [isProcessing] and
    [processingRemaining] ([number | null]) the two other states;
    [cancelledIds] the [cancelledIdsRef] set; [alerts] records the calls
    of [onShowAlert], oldest first. *)
Record HookState := mkHook {
  accounts : list Account;
  isProcessing : bool;
  processingRemaining : option Z;
  cancelledIds : gset string;
  alerts : list (Text * AlertType);
}.

Definition setAccounts (f : list Account -> list Account) (s : HookState) : HookState :=
  {| accounts := f (accounts s); isProcessing := isProcessing s;
     processingRemaining := processingRemaining s; cancelledIds := cancelledIds s;
     alerts := alerts s |}.

Definition setCancelledIds (c : gset string) (s : HookState) : HookState :=
  {| accounts := accounts s; isProcessing := isProcessing s;
     processingRemaining := processingRemaining s; cancelledIds := c;
     alerts := alerts s |}.

Definition setIsProcessing (b : bool) (s : HookState) : HookState :=
  {| accounts := accounts s; isProcessing := b;
     processingRemaining := processingRemaining s; cancelledIds := cancelledIds s;
     alerts := alerts s |}.

Definition setProcessingRemaining (f : option Z -> option Z) (s : HookState) : HookState :=
  {| accounts := accounts s; isProcessing := isProcessing s;
     processingRemaining := f (processingRemaining s); cancelledIds := cancelledIds s;
     alerts := alerts s |}.

(** [onShowAlert(message, type)] *)
Definition onShowAlert (m : Text) (ty : AlertType) (s : HookState) : HookState :=
  {| accounts := accounts s; isProcessing := isProcessing s;
     processingRemaining := processingRemaining s; cancelledIds := cancelledIds s;
     alerts := alerts s ++ [(m, ty)] |}.

(** [cancelledIdsRef.current.has(id)] *)
Definition isCancelled (s : HookState) (accountId : string) : bool :=
  bool_decide (accountId ∈ cancelledIds s).

(** [deleteAccount]: mark as cancelled, then remove. *)
Definition deleteAccount (accountId : string) (s : HookState) : HookState :=
  setAccounts (removeAccount accountId)
    (setCancelledIds ({[accountId]} ∪ cancelledIds s) s).

Definition round_result (st : AccountStatus) : bool :=
  status_eqb st success || status_eqb st error.

(** ** Invariant of the registry *)

Definition ids (l : list Account) : list string := List.map id l.
Definition numbers (l : list Account) : list string := List.map accountNumber l.

Definition acc_ok (a : Account) : Prop := isValidated a = true -> is_Some (playerInfo a).

Definition registry_wf (l : list Account) : Prop :=
  NoDup (numbers l) /\ NoDup (ids l) /\ Forall acc_ok l.

(** An account keeps [isValidated] from [l] to [l']. *)
Definition validated_persists (l l' : list Account) : Prop :=
  forall a a', In a l -> In a' l' -> id a = id a' ->
  isValidated a = true -> isValidated a' = true.

(** A rewrite of one account that keeps its identity, keeps its
    [isValidated] and its profile, and keeps [acc_ok]. *)
Definition acc_rewrite (f : Account -> Account) : Prop :=
  forall a, id (f a) = id a /\ accountNumber (f a) = accountNumber a /\
            (isValidated a = true -> isValidated (f a) = true) /\
            (acc_ok a -> acc_ok (f a)).

(** ** Lemmas on the rewrites *)

Lemma applyStatusUpdate_rewrite st lr pi :
  acc_rewrite (fun a => applyStatusUpdate a st lr pi).
Proof.
  intros [i n s r p v]; unfold applyStatusUpdate, acc_ok; simpl.
  repeat split; [by intros ->|].
  intros Hok Hv. destruct pi as [q|]; [by eexists|].
  destruct v; [by apply Hok|].
  destruct p; [by eexists|]. simpl in Hv. by rewrite andb_false_r in Hv.
Qed.

Lemma acc_rewrite_id : acc_rewrite (fun a => a).
Proof. intros a. auto. Qed.

Lemma acc_rewrite_update aid st lr pi :
  acc_rewrite (fun acc => if negb (String.eqb (id acc) aid) then acc
                          else applyStatusUpdate acc st lr pi).
Proof.
  intros a. destruct (negb _); [apply acc_rewrite_id|apply applyStatusUpdate_rewrite].
Qed.

Lemma acc_rewrite_batch us : acc_rewrite (fun acc => batchAt us (id acc) acc).
Proof.
  intros a. unfold batchAt.
  destruct (List.find _ _); [apply applyStatusUpdate_rewrite|apply acc_rewrite_id].
Qed.

Lemma acc_rewrite_reset : acc_rewrite resetOne.
Proof.
  intros a. unfold resetOne.
  destruct (_ || _); [unfold acc_ok; simpl; auto|apply acc_rewrite_id].
Qed.

#[export] Hint Resolve applyStatusUpdate_rewrite acc_rewrite_id acc_rewrite_update
  acc_rewrite_batch acc_rewrite_reset : gc.

Lemma map_rewrite_ids f l : acc_rewrite f -> ids (List.map f l) = ids l.
Proof. intros Hf. apply map_map_proj. intros x _. apply Hf. Qed.

Lemma map_rewrite_numbers f l : acc_rewrite f -> numbers (List.map f l) = numbers l.
Proof. intros Hf. apply map_map_proj. intros x _. apply Hf. Qed.

Lemma map_rewrite_wf f l : acc_rewrite f -> registry_wf l -> registry_wf (List.map f l).
Proof.
  intros Hf (Hn & Hi & Hok). unfold registry_wf.
  rewrite map_rewrite_ids, map_rewrite_numbers by done.
  split; [done|split; [done|]].
  apply Forall_map. eapply Forall_impl; [exact Hok|]. intros a. apply Hf.
Qed.

Lemma map_rewrite_persists f l :
  acc_rewrite f -> NoDup (ids l) -> validated_persists l (List.map f l).
Proof.
  intros Hf Hnd a a' Ha Ha' Hid Hv.
  apply in_map_iff in Ha' as (b & <- & Hb).
  destruct (Hf b) as (Hidb & _ & Hvb & _).
  assert (b = a) as ->; [|by apply Hvb].
  eapply (NoDup_map_inj_in id); [exact Hnd|exact Hb|exact Ha|congruence].
Qed.

Lemma filter_persists p l :
  NoDup (ids l) -> validated_persists l (List.filter p l).
Proof.
  intros Hnd a a' Ha Ha' Hid Hv. apply filter_In in Ha' as [Ha' _].
  assert (a' = a) as -> by (eapply (NoDup_map_inj_in id); eauto). done.
Qed.

Lemma filter_wf p l : registry_wf l -> registry_wf (List.filter p l).
Proof.
  intros (Hn & Hi & Hok). split; [by apply NoDup_map_filter|split; [by apply NoDup_map_filter|]].
  apply List.Forall_forall. intros a Ha. apply filter_In in Ha as [Ha _].
  eapply List.Forall_forall in Hok; eauto.
Qed.

Lemma updateAccountStatus_as_map aid st lr pi l :
  updateAccountStatus aid st lr pi l =
  List.map (fun acc => if negb (String.eqb (id acc) aid) then acc
                       else applyStatusUpdate acc st lr pi) l.
Proof. reflexivity. Qed.

Lemma updateAccountStatus_ids aid st lr pi l :
  ids (updateAccountStatus aid st lr pi l) = ids l.
Proof. apply map_rewrite_ids. auto with gc. Qed.

Lemma updateAccountStatus_numbers aid st lr pi l :
  numbers (updateAccountStatus aid st lr pi l) = numbers l.
Proof. apply map_rewrite_numbers. auto with gc. Qed.

Lemma updateAccountStatus_length aid st lr pi l :
  length (updateAccountStatus aid st lr pi l) = length l.
Proof. apply length_map. Qed.

#[export] Hint Rewrite updateAccountStatus_ids updateAccountStatus_numbers
  updateAccountStatus_length : gc_rw.

Lemma findAccount_map_rewrite (f : Account -> Account) aid l :
  acc_rewrite f ->
  List.find (fun a => String.eqb (id a) aid) (List.map f l) =
  option_map f (List.find (fun a => String.eqb (id a) aid) l).
Proof.
  intros Hf. induction l as [|a l IH]; simpl; [done|].
  destruct (Hf a) as [-> _]. by destruct (String.eqb (id a) aid).
Qed.

(** [findAccount aid l]: the account with id [aid], the first one if
    several share it (the rewrites act on all of them alike). *)
Definition findAccount (aid : string) (l : list Account) : option Account :=
  List.find (fun a => String.eqb (id a) aid) l.

Lemma notin_ids_neq aid l a : aid ∉ ids l -> In a l -> String.eqb (id a) aid = false.
Proof.
  intros Hni Ha. apply String.eqb_neq. intros E. apply Hni, list_elem_of_In.
  rewrite <- E. by apply in_map.
Qed.

Lemma updateAccountStatus_find_other aid aid' st lr pi l :
  String.eqb aid' aid = false ->
  findAccount aid' (updateAccountStatus aid st lr pi l) = findAccount aid' l.
Proof.
  intros Hne. unfold findAccount. rewrite updateAccountStatus_as_map,
    findAccount_map_rewrite by auto with gc.
  destruct (List.find _ l) as [a|] eqn:E; simpl; [|done].
  apply find_some in E as [_ E]. apply String.eqb_eq in E. subst aid'. by rewrite Hne.
Qed.

Lemma updateAccountStatus_wf aid st lr pi l :
  registry_wf l -> registry_wf (updateAccountStatus aid st lr pi l).
Proof. apply map_rewrite_wf. auto with gc. Qed.

Lemma resetRoundResults_clean l :
  Forall (fun a => round_result (status a) = false) (resetRoundResults l).
Proof. apply Forall_map, List.Forall_forall. intros [? ? [] ? ? ?] _; reflexivity. Qed.

(** ** Theorems of the registry *)

(** C5: the registry invariant -- unique account numbers, unique ids, and a
    validated account always has a profile -- is preserved by each list
    rewrite of the hook: the update primitive, its batch form, the
    redemption reset, and removal by id. *)
Theorem registry_rewrites_preserve_wf l aid st lr pi us :
  registry_wf l ->
  registry_wf (updateAccountStatus aid st lr pi l) /\
  registry_wf (updateAccountStatusBatch us l) /\
  registry_wf (resetRoundResults l) /\
  registry_wf (removeAccount aid l).
Proof.
  intros Hwf. repeat split; try (apply map_rewrite_wf; auto with gc);
    apply filter_wf; done.
Qed.

(** Appending a fresh account keeps the invariant. *)
Lemma appendAccount_wf a l :
  registry_wf l -> accountNumber a ∉ numbers l -> id a ∉ ids l -> acc_ok a ->
  registry_wf (appendAccount a l).
Proof.
  intros (Hn & Hi & Hok) Hna Hia Ha. unfold appendAccount, registry_wf, numbers, ids.
  split; [by apply NoDup_map_snoc|split; [by apply NoDup_map_snoc|]].
  apply Forall_app; split; [done|by constructor].
Qed.

(** C6: [isValidated] is monotone: once an account is validated, no rewrite
    of the registry makes the account with that id unvalidated (ids being
    unique, as [registry_wf] guarantees). *)
Theorem registry_rewrites_keep_validated l aid st lr pi us :
  NoDup (ids l) ->
  validated_persists l (updateAccountStatus aid st lr pi l) /\
  validated_persists l (updateAccountStatusBatch us l) /\
  validated_persists l (resetRoundResults l) /\
  validated_persists l (removeAccount aid l).
Proof.
  intros Hnd. repeat split; try (apply map_rewrite_persists; auto with gc);
    apply filter_persists; done.
Qed.

(** The update primitive rewrites exactly the account it names: the
    account with id [aid] becomes [applyStatusUpdate] of itself, any other
    account is found unchanged. *)
Theorem updateAccountStatus_find aid aid' st lr pi l :
  findAccount aid' (updateAccountStatus aid st lr pi l) =
  if String.eqb aid' aid
  then option_map (fun a => applyStatusUpdate a st lr pi) (findAccount aid' l)
  else findAccount aid' l.
Proof.
  unfold findAccount. rewrite updateAccountStatus_as_map,
    findAccount_map_rewrite by auto with gc.
  destruct (List.find _ l) as [a|] eqn:E; simpl; [|by destruct (String.eqb _ _)].
  apply find_some in E as [_ E]. apply String.eqb_eq in E. subst aid'.
  by destruct (String.eqb (id a) aid).
Qed.

(** Updating an id that is not in the registry (an account deleted
    while a call for it was in flight) leaves the registry unchanged. *)
Theorem updateAccountStatus_missing aid st lr pi l :
  aid ∉ ids l -> updateAccountStatus aid st lr pi l = l.
Proof.
  intros Hni. apply map_id_in. intros a Ha. by rewrite (notin_ids_neq aid l a Hni Ha).
Qed.

(** The sequential reference for the batch form: one call of the update
    primitive per element of [updates], in order. *)
Definition updateSequential (updates : list StatusUpdate) (l : list Account) : list Account :=
  fold_left (fun acc u => updateAccountStatus (u_accountId u) (u_status u)
                            (u_lastResult u) (u_playerInfo u) acc) updates l.

(** C14: when the updates name distinct accounts, the batch form is the
    same as applying the update primitive once per update, in order. *)
Theorem updateAccountStatusBatch_sequential us l :
  NoDup (List.map u_accountId us) ->
  updateAccountStatusBatch us l = updateSequential us l.
Proof.
  revert l. induction us as [|u us IH]; intros l Hnd; simpl.
  - apply map_id_in. intros x _. reflexivity.
  - apply NoDup_cons in Hnd as [Hu Hnd]. unfold updateSequential in *; simpl.
    rewrite <- IH by done. unfold updateAccountStatusBatch, updateAccountStatus.
    rewrite map_map. apply map_ext. intros a. unfold batchAt.
    cbn [List.find]. rewrite (String.eqb_sym (u_accountId u) (id a)).
    destruct (String.eqb (id a) (u_accountId u)) eqn:E; simpl; [|done].
    apply String.eqb_eq in E. rewrite find_none_intro; [done|].
    intros v Hv. apply String.eqb_neq. intros Heq. apply Hu.
    apply list_elem_of_In. rewrite <- E, <- Heq. by apply in_map.
Qed.

(** With two updates for one account the batch form keeps the first and the
    sequential form the last. *)
Lemma updateAccountStatusBatch_first_wins a u1 u2 :
  u_accountId u1 = id a -> u_accountId u2 = id a ->
  updateAccountStatusBatch [u1; u2] [a] =
  [applyStatusUpdate a (u_status u1) (u_lastResult u1) (u_playerInfo u1)].
Proof.
  intros H1 _. unfold updateAccountStatusBatch, batchAt. simpl. by rewrite H1, String.eqb_refl.
Qed.


(** The reset step of a redemption round leaves no account in
    [success] or [error]; it rewrites exactly those accounts to [idle] with
    no [lastResult], and keeps every other field and every other account. *)
Theorem resetRoundResults_spec l :
  Forall (fun a => round_result (status a) = false) (resetRoundResults l) /\
  List.map (fun a => (id a, accountNumber a, playerInfo a, isValidated a)) (resetRoundResults l) =
  List.map (fun a => (id a, accountNumber a, playerInfo a, isValidated a)) l /\
  Forall2 (fun a a' => round_result (status a) = false -> a' = a) l (resetRoundResults l).
Proof.
  split; [apply resetRoundResults_clean|split].
  - unfold resetRoundResults. apply map_map_proj. intros [? ? [] ? ? ?] _; reflexivity.
  - unfold resetRoundResults, resetOne, round_result.
    induction l as [|a l IH]; simpl; constructor; [|done].
    destruct a as [? ? [] ? ? ?]; simpl; done.
Qed.

(** The reset is idempotent. *)
Lemma resetRoundResults_idem l : resetRoundResults (resetRoundResults l) = resetRoundResults l.
Proof.
  unfold resetRoundResults, resetOne. rewrite map_map. apply map_ext.
  intros [? ? [] ? ? ?]; reflexivity.
Qed.

Lemma removeAccount_ids x aid l :
  x ∈ ids (removeAccount aid l) -> x ∈ ids l /\ x <> aid.
Proof.
  unfold ids, removeAccount. rewrite !list_elem_of_In, !in_map_iff.
  intros (a & <- & Ha). apply filter_In in Ha as [Ha Hne].
  apply negb_true_iff, String.eqb_neq in Hne. eauto.
Qed.

Lemma deleteAccount_wf aid s :
  registry_wf (accounts s) -> registry_wf (accounts (deleteAccount aid s)).
Proof. apply filter_wf. Qed.


Lemma removeAccount_missing aid l : aid ∉ ids l -> removeAccount aid l = l.
Proof.
  intros Hni. apply forallb_filter_id, forallb_forall. intros a Ha.
  by rewrite (notin_ids_neq aid l a Hni Ha).
Qed.

(** A failed first add leaves no trace: removing the fresh account just
    appended gives back the registry. *)
Lemma removeAccount_snoc aid l a :
  aid ∉ ids l -> id a = aid -> removeAccount aid (appendAccount a l) = l.
Proof.
  intros Hni Ha. unfold appendAccount. rewrite <- (removeAccount_missing aid l) at 2 by done.
  unfold removeAccount. rewrite List.filter_app. simpl. by rewrite Ha, String.eqb_refl, app_nil_r.
Qed.

Lemma updateAccountStatus_snoc aid st lr pi l a :
  aid ∉ ids l -> id a = aid ->
  updateAccountStatus aid st lr pi (appendAccount a l) =
  appendAccount (applyStatusUpdate a st lr pi) l.
Proof.
  intros Hni Ha. unfold appendAccount, updateAccountStatus. rewrite map_app. simpl.
  rewrite Ha, String.eqb_refl. f_equal. apply map_id_in. intros b Hb.
  by rewrite (notin_ids_neq aid l b Hni Hb).
Qed.

(** ** Witnesses *)

Definition sample_registry : list Account :=
  [mkAccount "1" "1001" idle None None false; mkAccount "2" "1002" error None None false].

Lemma sample_registry_wf : registry_wf sample_registry.
Proof.
  split; [apply NoDup_ListNoDup; repeat constructor; simpl; intuition discriminate|].
  split; [apply NoDup_ListNoDup; repeat constructor; simpl; intuition discriminate|].
  repeat constructor; discriminate.
Qed.

Lemma registry_rewrites_preserve_wf_witness :
  registry_wf sample_registry /\ registry_wf (resetRoundResults sample_registry).
Proof.
  split; [exact sample_registry_wf|].
  exact (proj1 (proj2 (proj2 (registry_rewrites_preserve_wf sample_registry "2" idle None None []
                                 sample_registry_wf)))).
Defined.

Lemma registry_rewrites_keep_validated_witness :
  NoDup (ids sample_registry) /\
  validated_persists sample_registry (updateAccountStatus "2" error None None sample_registry).
Proof.
  assert (H : NoDup (ids sample_registry)) by apply sample_registry_wf.
  split; [exact H|].
  exact (proj1 (registry_rewrites_keep_validated sample_registry "2" error None None [] H)).
Defined.

Lemma updateAccountStatus_missing_witness :
  ("3" ∉ ids sample_registry) /\
  updateAccountStatus "3" success None None sample_registry = sample_registry.
Proof.
  assert (H : "3" ∉ ids sample_registry) by (simpl; set_solver).
  split; [exact H|exact (updateAccountStatus_missing "3" success None None sample_registry H)].
Defined.

Lemma updateAccountStatusBatch_sequential_witness :
  let us := [mkStatusUpdate "1" processing None None; mkStatusUpdate "2" idle None None] in
  NoDup (List.map u_accountId us) /\
  updateAccountStatusBatch us sample_registry = updateSequential us sample_registry.
Proof.
  intros us.
  assert (H : NoDup (List.map u_accountId us))
    by (apply NoDup_ListNoDup; repeat constructor; simpl; intuition discriminate).
  split; [exact H|exact (updateAccountStatusBatch_sequential us sample_registry H)].
Defined.
