(* ===== verification/Samples.v ===== *)
(** * Samples: concrete accounts, responses and states

    Fixtures for the witnesses and for the scenarios of the specification
    (section 8): three accounts "1001", "1002", "1003" with ids "1", "2",
    "3", and service responses for a found profile, a missing account
    (40004), a gift code already claimed (40008) and a successful
    redemption. *)

From Stdlib Require Import List ZArith String.
From stdpp Require Import base gmap strings list.
From S2P Require Import Prelude Types Api Registry.
Import ListNotations.
Open Scope string_scope.

Definition sampleInfo (n : Z) : PlayerInfo := mkPlayerInfo n "nick" 1 10 "" "" 0.

Definition freshAccount (i n : string) : Account := mkAccount i n idle None None false.

Definition validatedAccount (i n : string) (p : PlayerInfo) : Account :=
  mkAccount i n idle None (Some p) true.

Definition httpOk : HttpResponse := mkResponse true 200 "OK".

Definition profileFound (p : PlayerInfo) : FetchOutcome PlayerInfoResponse :=
  Responded httpOk (inl (mkPlayerInfoResponse 0 "" (ECNum 0) (PDObject p))).

Definition profileMissing : FetchOutcome PlayerInfoResponse :=
  Responded httpOk (inl (mkPlayerInfoResponse 1 "role not exist" (ECNum ACCOUNT_NOT_EXISTS) PDArray)).

Definition redeemOk : FetchOutcome GiftCodeResponse :=
  Responded httpOk (inl (mkGiftCodeResponse 0 "SUCCESS" (ECNum 20000))).

Definition redeemClaimed : FetchOutcome GiftCodeResponse :=
  Responded httpOk (inl (mkGiftCodeResponse 1 "RECEIVED." (ECNum GIFT_CODE_ALREADY_CLAIMED))).

Definition emptyHook (l : list Account) : HookState := mkHook l false None ∅ [].

Definition acc1 := freshAccount "1" "1001".
Definition acc2 := freshAccount "2" "1002".
Definition acc3 := freshAccount "3" "1003".
Definition three := [acc1; acc2; acc3].

(** Registry invariants of concrete lists are decided by computation. *)
Ltac solve_wf :=
  split; [apply NoDup_ListNoDup; repeat constructor; simpl; intuition discriminate|];
  split; [apply NoDup_ListNoDup; repeat constructor; simpl; intuition discriminate|];
  repeat constructor; unfold acc_ok; simpl; try discriminate; eauto.

Lemma three_wf : registry_wf three.
Proof. solve_wf. Qed.

Definition val1 := validatedAccount "1" "1001" (sampleInfo 1).
Definition val2 := validatedAccount "2" "1002" (sampleInfo 2).
Definition twoValidated := [val1; val2].
