(* ===== verification/FileUtils.v ===== *)
(** * FileUtils: the text-file helpers of src/src/utils/fileUtils.ts

    Strings are modelled as Rocq [string]s, i.e. byte sequences; the
    account numbers the code handles are ASCII, and [trim] is modelled on
    the ASCII whitespace (tab, line feed, vertical tab, form feed, carriage
    return, space).  [String.split("\n")] is [split_on], [Array.join] is
    [String.concat], the regular expression of [validateAccountFormat] is
    the character test [accountChar].  [readTextFile], the [Blob] download
    of [exportAccountsToFile] and [formatFileSize] (floating point
    logarithms) are I/O or floating point and are not modelled; the
    content the export writes is. *)

From Stdlib Require Import List ZArith String Ascii Bool Lia.
From stdpp Require Import base gmap strings list.
From S2P Require Import Prelude Types Registry Samples.
Import ListNotations.
Open Scope string_scope.

Definition newline : ascii := "010".

(** [text.split(sep)] for a one-character separator: the pieces between
    the separators, [[""]] for the empty string. *)
Fixpoint split_on (sep : ascii) (s : string) : list string :=
  match s with
  | EmptyString => [EmptyString]
  | String c rest =>
      let parts := split_on sep rest in
      if Ascii.eqb c sep then EmptyString :: parts
      else match parts with
           | p :: ps => String c p :: ps
           | [] => [String c EmptyString]
           end
  end.

(** The ASCII characters of the ECMAScript WhiteSpace and LineTerminator
    productions. *)
Definition is_ws (c : ascii) : bool :=
  existsb (Ascii.eqb c) ["009"; "010"; "011"; "012"; "013"; " "]%char.

Fixpoint ltrim (s : string) : string :=
  match s with
  | EmptyString => EmptyString
  | String c rest => if is_ws c then ltrim rest else s
  end.

Fixpoint rtrim (s : string) : string :=
  match s with
  | EmptyString => EmptyString
  | String c rest =>
      let r := rtrim rest in
      if is_ws c && String.eqb r EmptyString then EmptyString else String c r
  end.

(** [line.trim()] *)
Definition trim (s : string) : string := rtrim (ltrim s).

(** [line.startsWith("#")] *)
Definition startsWithHash (s : string) : bool :=
  match s with
  | String c _ => Ascii.eqb c "#"
  | EmptyString => false
  end.

Definition parseAccountsFromText (text : string) : list string :=
  List.filter (fun line => negb (String.eqb line EmptyString) && negb (startsWithHash line))
    (List.map trim (split_on newline text)).

Definition in_range (lo hi : nat) (c : ascii) : bool :=
  Nat.leb lo (nat_of_ascii c) && Nat.leb (nat_of_ascii c) hi.

(** The character class [[a-zA-Z0-9_\-@.]]. *)
Definition accountChar (c : ascii) : bool :=
  in_range 97 122 c || in_range 65 90 c || in_range 48 57 c ||
  existsb (Ascii.eqb c) ["_"; "-"; "@"; "."]%char.

(** [/^[a-zA-Z0-9_\-@.]+$/.test(account)] *)
Definition accountRegexTest (account : string) : bool :=
  negb (String.eqb account EmptyString) && forallb accountChar (list_ascii_of_string account).

Definition validateAccountFormat (account : string) : bool :=
  accountRegexTest account && Nat.leb 3 (String.length account) && Nat.leb (String.length account) 50.

(** The file content of [exportAccountsToFile]. *)
Definition exportLine (a : Account) : string :=
  let status := if isValidated a then "✓" else "✗" in
  let playerName :=
    match playerInfo a with
    | Some p => if String.eqb (nickname p) "" then "Unknown" else nickname p
    | None => "Unknown"
    end in
  accountNumber a ++ " [" ++ status ++ "] " ++ playerName.

Definition exportContent (accounts : list Account) (includeStatus : bool) : string :=
  if includeStatus then String.concat (String newline EmptyString) (List.map exportLine accounts)
  else String.concat (String newline EmptyString) (List.map accountNumber accounts).

(** The three arrays [validateAccountList] returns. *)
Record ListCheck := mkListCheck {
  valid : list string;
  invalid : list string;
  duplicates : list string;
}.

(** One iteration of [accounts.forEach]; the [Set] [seen] is threaded. *)
Definition checkOne (acc : ListCheck * gset string) (account : string) : ListCheck * gset string :=
  let '(r, seen) := acc in
  if bool_decide (account ∈ seen) then
    (mkListCheck (valid r) (invalid r) (duplicates r ++ [account]), seen)
  else
    let seen' := {[account]} ∪ seen in
    if validateAccountFormat account then
      (mkListCheck (valid r ++ [account]) (invalid r) (duplicates r), seen')
    else (mkListCheck (valid r) (invalid r ++ [account]) (duplicates r), seen').

Definition validateAccountList (accounts : list string) : ListCheck :=
  fst (fold_left checkOne accounts (mkListCheck [] [] [], ∅)).

Fixpoint lowerAscii (s : string) : string :=
  match s with
  | EmptyString => EmptyString
  | String c rest =>
      String (if in_range 65 90 c then ascii_of_nat (nat_of_ascii c + 32) else c) (lowerAscii rest)
  end.

Fixpoint endsWith (suffix s : string) : bool :=
  String.eqb s suffix ||
  match s with
  | EmptyString => false
  | String _ rest => endsWith suffix rest
  end.

(** The two fields of [File] the checks read. *)
Record FileInfo := mkFileInfo { fname : string; ftype : string; fsize : Z }.

Definition isTextFile (file : FileInfo) : bool :=
  existsb (String.eqb (ftype file))
    ["text/plain"; "text/csv"; "application/csv"; "text/tab-separated-values"] ||
  existsb (fun ext => endsWith ext (lowerAscii (fname file))) [".txt"; ".csv"; ".tsv"].

(** ** Lemmas on the string helpers *)

(** [s] contains no [sep] character. *)
Definition no_char (sep : ascii) (s : string) : bool :=
  forallb (fun c => negb (Ascii.eqb c sep)) (list_ascii_of_string s).

Lemma no_char_cons sep c x :
  no_char sep (String c x) = negb (Ascii.eqb c sep) && no_char sep x.
Proof. reflexivity. Qed.

Lemma split_on_nosep sep x : no_char sep x = true -> split_on sep x = [x].
Proof.
  induction x as [|c x IH]; [done|]. rewrite no_char_cons, andb_true_iff, negb_true_iff.
  intros [E H]. simpl. by rewrite E, IH.
Qed.

Lemma split_on_app_sep sep x y :
  no_char sep x = true -> split_on sep (x ++ String sep y) = x :: split_on sep y.
Proof.
  induction x as [|c x IH]; simpl.
  - by rewrite Ascii.eqb_refl.
  - rewrite no_char_cons, andb_true_iff, negb_true_iff. intros [-> H]. by rewrite IH.
Qed.

Lemma split_on_concat sep xs :
  xs <> [] -> Forall (fun x => no_char sep x = true) xs ->
  split_on sep (String.concat (String sep EmptyString) xs) = xs.
Proof.
  induction xs as [|x [|y xs] IH]; intros Hne Hf; [done| |].
  - apply split_on_nosep. by inversion Hf.
  - inversion Hf as [|? ? Hx Hf']; subst. change (String.concat _ (x :: y :: xs))
      with (x ++ String sep (String.concat (String sep EmptyString) (y :: xs))).
    rewrite split_on_app_sep by done. by rewrite IH.
Qed.

Lemma split_on_nochar sep s : Forall (fun x => no_char sep x = true) (split_on sep s).
Proof.
  induction s as [|c s IH]; simpl; [by repeat constructor|].
  destruct (Ascii.eqb c sep) eqn:E; [by constructor|].
  destruct (split_on sep s) as [|p ps]; [constructor; [by rewrite no_char_cons, E|constructor]|].
  inversion IH; subst. constructor; [|done]. by rewrite no_char_cons, E.
Qed.

Lemma ltrim_nochar sep s : no_char sep s = true -> no_char sep (ltrim s) = true.
Proof.
  induction s as [|c s IH]; [done|]. simpl. rewrite no_char_cons. intros H.
  destruct (is_ws c); [apply IH; by apply andb_true_iff in H as [_ ?]|by rewrite no_char_cons].
Qed.

Lemma rtrim_nochar sep s : no_char sep s = true -> no_char sep (rtrim s) = true.
Proof.
  induction s as [|c s IH]; [done|]. rewrite no_char_cons, andb_true_iff. intros [Hc H].
  simpl. destruct (is_ws c && _); [done|]. rewrite no_char_cons, Hc, IH; done.
Qed.

Lemma rtrim_idem s : rtrim (rtrim s) = rtrim s.
Proof.
  induction s as [|c s IH]; [done|]. simpl.
  destruct (is_ws c && String.eqb (rtrim s) "") eqn:E; [done|]. simpl. by rewrite IH, E.
Qed.

(** After [ltrim] the string is empty or starts with a non-blank. *)
Lemma ltrim_head s : ltrim s = EmptyString \/ exists c r, ltrim s = String c r /\ is_ws c = false.
Proof.
  induction s as [|c s IH]; [by left|]. simpl. destruct (is_ws c) eqn:E; [done|]. right. eauto.
Qed.

Lemma ltrim_rtrim_head c r : is_ws c = false -> ltrim (rtrim (String c r)) = rtrim (String c r).
Proof. intros E. simpl. rewrite E. simpl. by rewrite E. Qed.

Lemma trim_idem s : trim (trim s) = trim s.
Proof.
  unfold trim. destruct (ltrim_head s) as [->|(c & r & -> & E)]; [done|].
  by rewrite ltrim_rtrim_head, rtrim_idem.
Qed.

Lemma trim_nochar sep s : no_char sep s = true -> no_char sep (trim s) = true.
Proof. intros H. by apply rtrim_nochar, ltrim_nochar. Qed.

(** The account characters are neither blanks, line feeds nor [#]. *)
Lemma accountChar_plain c :
  accountChar c = true -> is_ws c = false /\ Ascii.eqb c newline = false /\ Ascii.eqb c "#" = false.
Proof. destruct c as [[] [] [] [] [] [] [] []]; vm_compute; intros; by try discriminate. Qed.

Lemma accountChars_trim s : forallb accountChar (list_ascii_of_string s) = true ->
  ltrim s = s /\ rtrim s = s /\ no_char newline s = true.
Proof.
  induction s as [|c s IH]; [done|]. simpl. rewrite andb_true_iff. intros [Hc H].
  destruct (accountChar_plain c Hc) as (Hws & Hnl & _). destruct (IH H) as (_ & Hr & Hn).
  rewrite no_char_cons, Hws, Hr, Hnl, Hn. done.
Qed.

Lemma validateAccountFormat_plain s : validateAccountFormat s = true ->
  trim s = s /\ no_char newline s = true /\ s <> EmptyString /\ startsWithHash s = false.
Proof.
  unfold validateAccountFormat, accountRegexTest. rewrite !andb_true_iff, negb_true_iff.
  intros [[[Hne Hall] _] _]. destruct (accountChars_trim s Hall) as (Hl & Hr & Hn).
  unfold trim. rewrite Hl, Hr. split; [done|split; [done|]].
  apply String.eqb_neq in Hne. split; [done|].
  destruct s as [|c s]; [done|]. simpl in *. apply andb_true_iff in Hall as [Hc _].
  apply accountChar_plain in Hc as (_ & _ & ?). done.
Qed.

(** A line [parseAccountsFromText] keeps unchanged: trimmed, on one line,
    non-empty and not a comment. *)
Definition plain_line (x : string) : Prop :=
  no_char newline x = true /\ trim x = x /\ x <> EmptyString /\ startsWithHash x = false.

Lemma parse_keep_plain xs :
  Forall plain_line xs ->
  List.filter (fun line => negb (String.eqb line EmptyString) && negb (startsWithHash line))
    (List.map trim xs) = xs.
Proof.
  induction 1 as [|x xs (_ & Ht & Hne & Hh) _ IH]; [done|]. simpl.
  rewrite Ht, Hh, IH. apply String.eqb_neq in Hne. by rewrite Hne.
Qed.

Lemma parse_concat xs :
  Forall plain_line xs ->
  parseAccountsFromText (String.concat (String newline EmptyString) xs) = xs.
Proof.
  intros Hf. destruct xs as [|x xs]; [reflexivity|]. unfold parseAccountsFromText.
  rewrite split_on_concat; [by apply parse_keep_plain|done|].
  eapply Forall_impl; [exact Hf|]. by intros ? [? _].
Qed.

Lemma parse_plain text : Forall plain_line (parseAccountsFromText text).
Proof.
  unfold parseAccountsFromText. apply List.Forall_forall. intros x Hx.
  apply filter_In in Hx as [Hx Hk]. apply in_map_iff in Hx as (l & <- & Hl).
  apply andb_true_iff in Hk as [Hne Hh]. apply negb_true_iff in Hne, Hh.
  split; [|split; [apply trim_idem|split; [by apply String.eqb_neq|done]]].
  apply trim_nochar. by apply (proj1 (List.Forall_forall _ _) (split_on_nochar newline text)).
Qed.

Definition lc_inv (p : list string) (st : ListCheck * gset string) : Prop :=
  let '(r, seen) := st in
  (forall x, x ∈ seen <-> x ∈ (valid r ++ invalid r)%list) /\
  (forall x, x ∈ (valid r ++ invalid r)%list <-> x ∈ p) /\
  NoDup ((valid r ++ invalid r)%list) /\
  Forall (fun x => validateAccountFormat x = true) (valid r) /\
  Forall (fun x => validateAccountFormat x = false) (invalid r) /\
  length (valid r) + length (invalid r) + length (duplicates r) = length p.

Lemma checkOne_inv p st a : lc_inv p st -> lc_inv (p ++ [a])%list (checkOne st a).
Proof.
  destruct st as [[v i d] seen]. intros (Hs & Hm & Hnd & Hv & Hi & Hl). simpl in *.
  unfold checkOne. case_bool_decide as Ha; cycle 1.
  { assert (a ∉ (v ++ i)%list) by (by rewrite <- Hs).
    destruct (validateAccountFormat a) eqn:Ef; simpl; rewrite !length_app; simpl length;
      [assert (Hp : ((v ++ [a]) ++ i ≡ₚ a :: v ++ i)%list) by solve_Permutation
      |assert (Hp : (v ++ i ++ [a] ≡ₚ a :: v ++ i)%list) by solve_Permutation]; rewrite Hp;
    (split; [|split; [|split; [by constructor|split; [|split; [|lia]]]]]);
    try (by apply Forall_app; split; [|constructor]); try done;
    intros x; rewrite ?Hp, elem_of_cons, ?elem_of_union, ?elem_of_singleton, ?Hs, ?Hm,
      ?elem_of_app, ?list_elem_of_singleton; tauto. }
  simpl. rewrite !length_app. simpl length.
  split; [done|split; [|split; [done|split; [done|split; [done|lia]]]]].
  intros x. rewrite Hm, elem_of_app, list_elem_of_singleton.
  split; [tauto|]. intros [?| ->]; [done|]. by apply Hm, Hs.
Qed.

Lemma fold_checkOne_inv l p st :
  lc_inv p st -> lc_inv (p ++ l)%list (fold_left checkOne l st).
Proof.
  revert p st. induction l as [|a l IH]; intros p st H; simpl; [by rewrite app_nil_r|].
  replace (p ++ a :: l)%list with ((p ++ [a]) ++ l)%list by (by rewrite <- app_assoc).
  by apply IH, checkOne_inv.
Qed.

(** ** Theorems *)

(** C31: exporting the registry without status and importing the file
    gives back the account numbers in order, when every number passes
    [validateAccountFormat]. *)
Theorem parse_export_roundtrip l :
  Forall (fun a => validateAccountFormat (accountNumber a) = true) l ->
  parseAccountsFromText (exportContent l false) = numbers l.
Proof.
  intros Hf. apply parse_concat. apply Forall_map.
  eapply Forall_impl; [exact Hf|]. intros a Ha.
  destruct (validateAccountFormat_plain _ Ha) as (? & ? & ? & ?). done.
Qed.

(** Parsing is idempotent: joining the parsed lines with line feeds
    and parsing again gives the same list (every kept line is trimmed, on
    one line, non-empty and not a comment). *)
Theorem parseAccountsFromText_idem text :
  parseAccountsFromText (String.concat (String newline EmptyString) (parseAccountsFromText text)) =
  parseAccountsFromText text.
Proof. apply parse_concat, parse_plain. Qed.

(** C33: [validateAccountList] sorts the first occurrence of every input
    into [valid] (passing the format check) or [invalid] (failing it),
    with no repetition, and every later occurrence into [duplicates]: the
    three lengths add up to the input's length. *)
Theorem validateAccountList_spec l :
  let r := validateAccountList l in
  NoDup (valid r ++ invalid r) /\
  (forall x, x ∈ (valid r ++ invalid r)%list <-> x ∈ l) /\
  Forall (fun x => validateAccountFormat x = true) (valid r) /\
  Forall (fun x => validateAccountFormat x = false) (invalid r) /\
  length (valid r) + length (invalid r) + length (duplicates r) = length l.
Proof.
  unfold validateAccountList.
  assert (H : lc_inv [] (mkListCheck [] [] [], ∅)).
  { repeat split; try set_solver. all: try constructor. }
  pose proof (fold_checkOne_inv l [] _ H) as Hl.
  destruct (fold_left checkOne l _) as [r seen]. simpl in Hl |- *.
  destruct Hl as (_ & Hm & Hnd & Hl).
  done.
Qed.

Lemma parse_export_roundtrip_witness :
  Forall (fun a => validateAccountFormat (accountNumber a) = true) twoValidated /\
  parseAccountsFromText (exportContent twoValidated false) = ["1001"; "1002"].
Proof.
  assert (H : Forall (fun a => validateAccountFormat (accountNumber a) = true) twoValidated)
    by (repeat constructor).
  split; [exact H|]. exact (parse_export_roundtrip twoValidated H).
Defined.

(** The export with status; the import does not read this format back. *)
Example export_with_status :
  exportContent [val1; mkAccount "3" "1003" idle None None false] true =
  "1001 [✓] nick" ++ String newline EmptyString ++ "1003 [✗] Unknown".
Proof. reflexivity. Qed.

Example isTextFile_cases :
  isTextFile (mkFileInfo "LIST.TXT" "" 10) = true /\
  isTextFile (mkFileInfo "list.txt.exe" "application/octet-stream" 10) = false /\
  isTextFile (mkFileInfo "data" "text/csv" 10) = true.
Proof. split; [|split]; reflexivity. Qed.
