(* ===== verification/Signing.v ===== *)
(** * Signing: request signatures and request bodies

    [generateSign] (src/src/utils/apiSign.ts) sorts the keys of the
    parameter object, writes [key=value] for each, joins them with [&],
    appends the salt and hashes the result with MD5.  The two API modules
    sign [{ fid, time }] (playerApi.ts) and [{ fid, time, cdk,
    captcha_code: "" }] (giftCodeApi.ts) and send a body they write by hand
    as [application/x-www-form-urlencoded].

    A parameter object is the list of its own entries; [Object.keys(...)
    .sort()] is stdpp's [merge_sort] on [String.le] (the code-unit order of
    [Array.prototype.sort], byte order on the ASCII keys used here).  MD5
    is the section parameter [md5]: nothing proved depends on what it
    computes.  [formDecode] is the receiving side: the
    [application/x-www-form-urlencoded] parser of the URL standard (split at
    [&], then at the first [=], [+] as space, percent-decoding); it is a
    specification of the protocol, not code of the repository. *)

From Stdlib Require Import List ZArith String Ascii Bool Lia.
From stdpp Require Import base list sets strings sorting pretty.
From S2P Require Import Prelude Types FileUtils.
Import ListNotations.
Open Scope string_scope.

(** [string | number | boolean | object | null | undefined] *)
Inductive SignValue :=
| SStr (s : string)
| SNum (n : Z)
| SBool (b : bool)
| SNull
| SUndef
| SObj (json : string).  (* an object, with the text [JSON.stringify] gives it *)

Definition Params := list (string * SignValue).

(** [typeof v === "object" ? JSON.stringify(v) : v] inside a template
    literal ([typeof null] is ["object"]). *)
Definition renderValue (v : SignValue) : string :=
  match v with
  | SStr s => s
  | SNum n => pretty n
  | SBool b => if b then "true" else "false"
  | SNull => "null"
  | SUndef => "undefined"
  | SObj j => j
  end.

(** [params[key]] *)
Definition lookupParam (params : Params) (key : string) : SignValue :=
  match List.find (fun kv => String.eqb (fst kv) key) params with
  | Some (_, v) => v
  | None => SUndef
  end.

Definition amp : string := "&".

(** [Object.keys(params).sort().map(key => `${key}=${value}`).join("&")] *)
Definition signQuery (params : Params) : string :=
  String.concat amp
    (List.map (fun key => key ++ "=" ++ renderValue (lookupParam params key))
       (merge_sort String.le (List.map fst params))).

Definition DEFAULT_SALT : string := "mN4!pQs6JrYwV9".

Section Sign.

Variable md5 : string -> string.

Definition generateSign (params : Params) (salt : string) : string :=
  md5 (signQuery params ++ salt).

(** [{ ...params, sign }]: an existing [sign] entry keeps its place. *)
Definition setParam (params : Params) (key : string) (v : SignValue) : Params :=
  if existsb (fun kv => String.eqb (fst kv) key) params
  then List.map (fun kv => if String.eqb (fst kv) key then (key, v) else kv) params
  else (params ++ [(key, v)])%list.

Definition createSignedParams (params : Params) (salt : string) : Params :=
  setParam params "sign" (SStr (generateSign params salt)).

(** [const { sign, ...rest } = params; return sign === generateSign(rest)] *)
Definition verifySign (params : Params) (salt : string) : bool :=
  let rest := List.filter (fun kv => negb (String.eqb (fst kv) "sign")) params in
  match lookupParam params "sign" with
  | SStr s => String.eqb s (generateSign rest salt)
  | _ => false
  end.

(** The body of [fetchPlayerInfo], signed over [{ fid, time }]. *)
Definition playerInfoBody (fid_ : string) (time : Z) : string :=
  let sign := generateSign [("fid", SStr fid_); ("time", SNum time)] DEFAULT_SALT in
  "sign=" ++ sign ++ "&fid=" ++ fid_ ++ "&time=" ++ pretty time.

Definition giftCodeParams (accountNumber_ giftCode : string) (time : Z) : Params :=
  [("fid", SStr accountNumber_); ("time", SNum time); ("cdk", SStr giftCode);
   ("captcha_code", SStr "")].

(** The body of [submitGiftCode]. *)
Definition giftCodeBody (accountNumber_ giftCode : string) (time : Z) : string :=
  let sign := generateSign (giftCodeParams accountNumber_ giftCode time) DEFAULT_SALT in
  "sign=" ++ sign ++ "&fid=" ++ accountNumber_ ++ "&cdk=" ++ giftCode ++
  "&captcha_code=&time=" ++ pretty time.

End Sign.

(** [handleSubmit] of GiftCodeInput.tsx: the code passed to [onSubmit]. *)
Definition handleGiftCodeSubmit (giftCode : string) : option string :=
  if String.eqb (trim giftCode) "" then None else Some (trim giftCode).

(** ** The receiving side *)

Definition hexVal (c : ascii) : option nat :=
  let n := nat_of_ascii c in
  if in_range 48 57 c then Some (n - 48)
  else if in_range 65 70 c then Some (n - 55)
  else if in_range 97 102 c then Some (n - 87)
  else None.

(** Percent-decoding, with [+] read as a space. *)
Fixpoint formUnescape (s : string) : string :=
  match s with
  | EmptyString => EmptyString
  | String c tl =>
      if Ascii.eqb c "+" then String " " (formUnescape tl)
      else if Ascii.eqb c "%" then
        match tl with
        | String h (String l rest) =>
            match hexVal h, hexVal l with
            | Some x, Some y => String (ascii_of_nat (16 * x + y)) (formUnescape rest)
            | _, _ => String c (formUnescape tl)
            end
        | _ => String c (formUnescape tl)
        end
      else String c (formUnescape tl)
  end.

(** The name and value of one [&]-separated piece: split at its first [=]. *)
Fixpoint splitPair (s : string) : string * string :=
  match s with
  | EmptyString => (EmptyString, EmptyString)
  | String c rest =>
      if Ascii.eqb c "=" then (EmptyString, rest)
      else let '(k, v) := splitPair rest in (String c k, v)
  end.

Definition formDecode (body : string) : list (string * string) :=
  List.map (fun p => let '(k, v) := splitPair p in (formUnescape k, formUnescape v))
    (List.filter (fun p => negb (String.eqb p EmptyString)) (split_on "&" body)).

(** What the server signs again: the received pairs but [sign], as strings. *)
Definition receivedParams (pairs : list (string * string)) : Params :=
  List.map (fun kv => (fst kv, SStr (snd kv)))
    (List.filter (fun kv => negb (String.eqb (fst kv) "sign")) pairs).

(** [URLSearchParams.get(key)]: the first value received for [key]. *)
Definition lookupStr (key : string) (pairs : list (string * string)) : option string :=
  option_map snd (List.find (fun kv => String.eqb (fst kv) key) pairs).

(** No character the form encoding treats specially. *)
Definition formPlain (s : string) : bool :=
  no_char "&" s && no_char "=" s && no_char "+" s && no_char "%" s.

(** ** Lemmas *)

Lemma merge_sort_keys_perm (l1 l2 : list string) :
  l1 ≡ₚ l2 -> merge_sort String.le l1 = merge_sort String.le l2.
Proof.
  intros H. apply (Sorted_unique String.le);
    [apply (Sorted_merge_sort String.le); exact String.le_total..|].
  by rewrite !merge_sort_Permutation.
Qed.

Lemma lookupParam_in p k v :
  NoDup (List.map fst p) -> (k, v) ∈ p -> lookupParam p k = v.
Proof.
  induction p as [|[k' v'] p IH]; intros Hnd Hin; [by apply elem_of_nil in Hin|].
  simpl in Hnd. apply NoDup_cons in Hnd as [Hk' Hnd].
  unfold lookupParam. simpl. apply elem_of_cons in Hin as [E|Hin].
  - simplify_eq. by rewrite String.eqb_refl.
  - assert (k <> k').
    { intros ->. apply Hk'. apply list_elem_of_In, in_map_iff. exists (k', v).
      split; [done|by apply list_elem_of_In]. }
    assert (String.eqb k' k = false) as -> by (apply String.eqb_neq; congruence).
    by apply IH.
Qed.

Lemma lookupParam_perm p q k :
  NoDup (List.map fst p) -> p ≡ₚ q -> lookupParam p k = lookupParam q k.
Proof.
  intros Hnd Hpq.
  assert (Hnd' : NoDup (List.map fst q)) by (by rewrite <- (Permutation_map fst Hpq)).
  destruct (List.find (fun kv => String.eqb (fst kv) k) p) as [[k' v]|] eqn:E.
  - apply find_some in E as [Hin Hk]. simpl in Hk. apply String.eqb_eq in Hk. subst k'.
    rewrite (lookupParam_in p k v Hnd) by (by apply list_elem_of_In).
    symmetry. apply lookupParam_in; [done|]. rewrite <- Hpq. by apply list_elem_of_In.
  - unfold lookupParam at 1. rewrite E. unfold lookupParam.
    destruct (List.find _ q) as [[k' v]|] eqn:E'; [|done].
    apply find_some in E' as [Hin Hk]. simpl in Hk. apply String.eqb_eq in Hk. subst k'.
    assert (Hp : In (k, v) p) by (apply list_elem_of_In; rewrite Hpq; by apply list_elem_of_In).
    pose proof (find_none _ _ E (k, v) Hp) as Hf. simpl in Hf. by rewrite String.eqb_refl in Hf.
Qed.

(** The query depends on the keys up to order and on the rendered values. *)
Lemma signQuery_ext p q :
  List.map fst p ≡ₚ List.map fst q ->
  (forall k, k ∈ List.map fst q -> renderValue (lookupParam p k) = renderValue (lookupParam q k)) ->
  signQuery p = signQuery q.
Proof.
  intros Hk Hv. unfold signQuery. rewrite (merge_sort_keys_perm _ _ Hk). f_equal.
  apply List.map_ext_in. intros k Hin. f_equal. f_equal. apply Hv.
  apply list_elem_of_In in Hin. by rewrite merge_sort_Permutation in Hin.
Qed.

(** Two objects with the same entries, the first with distinct keys. *)
Definition same_entries (p q : Params) : Prop := NoDup (List.map fst p) /\ p ≡ₚ q.

#[export] Instance signQuery_proper : Proper (same_entries ==> eq) signQuery.
Proof.
  intros p q [Hnd Hpq]. apply signQuery_ext; [by apply Permutation_map|].
  intros k _. by rewrite (lookupParam_perm p q k Hnd Hpq).
Qed.

Lemma no_char_app sep a b : no_char sep (a ++ b) = no_char sep a && no_char sep b.
Proof.
  induction a as [|c a IH]; [done|].
  change (no_char sep (String c (a ++ b)) = no_char sep (String c a) && no_char sep b).
  rewrite !no_char_cons, IH. apply andb_assoc.
Qed.

Lemma formUnescape_plain s : no_char "+" s = true -> no_char "%" s = true -> formUnescape s = s.
Proof.
  induction s as [|c s IH]; [done|]. rewrite !no_char_cons, !andb_true_iff, !negb_true_iff.
  intros [Hp Hs] [Hq Hs']. simpl. rewrite Hp, Hq. by rewrite IH.
Qed.

(** Decoding a body written as [&]-joined non-empty pieces without [&]. *)
Lemma formDecode_concat pieces :
  pieces <> [] -> Forall (fun p => no_char "&" p = true /\ p <> EmptyString) pieces ->
  formDecode (String.concat amp pieces) =
  List.map (fun p => let '(k, v) := splitPair p in (formUnescape k, formUnescape v)) pieces.
Proof.
  intros Hne Hf. unfold formDecode, amp. rewrite (split_on_concat "&" pieces Hne);
    [|eapply Forall_impl; [exact Hf|]; by intros ? [? _]].
  f_equal. clear Hne. induction Hf as [|p ps [_ Hp] _ IH]; [done|]. simpl.
  apply String.eqb_neq in Hp. by rewrite Hp, IH.
Qed.

Lemma giftCodeBody_pieces md5 acc code time :
  giftCodeBody md5 acc code time =
  String.concat amp
    ["sign" ++ String "=" (generateSign md5 (giftCodeParams acc code time) DEFAULT_SALT);
     "fid" ++ String "=" acc; "cdk" ++ String "=" code; "captcha_code" ++ String "=" "";
     "time" ++ String "=" (pretty time)].
Proof. unfold giftCodeBody. simpl. rewrite !string_app_assoc. reflexivity. Qed.

Lemma formPlain_spec s : formPlain s = true ->
  no_char "&" s = true /\ no_char "=" s = true /\ no_char "+" s = true /\ no_char "%" s = true.
Proof. unfold formPlain. rewrite !andb_true_iff. tauto. Qed.

Lemma splitPair_key k v : no_char "=" k = true -> splitPair (k ++ String "=" v) = (k, v).
Proof.
  induction k as [|c k IH]; [done|]. rewrite no_char_cons, andb_true_iff, negb_true_iff.
  intros [Hc Hk]. change (splitPair (String c (k ++ String "=" v)) = (String c k, v)).
  simpl. rewrite Hc, IH by done. reflexivity.
Qed.

(** One [name=value] piece decodes to its name and value. *)
Lemma decode_piece k v :
  no_char "=" k = true -> no_char "+" k = true -> no_char "%" k = true ->
  no_char "+" v = true -> no_char "%" v = true ->
  (let '(k', v') := splitPair (k ++ String "=" v) in (formUnescape k', formUnescape v')) = (k, v).
Proof.
  intros Hk Hp Hq Hv Hw. rewrite splitPair_key by done.
  by rewrite !formUnescape_plain.
Qed.

Lemma piece_ok k v :
  no_char "&" k = true -> no_char "&" v = true ->
  no_char "&" (k ++ String "=" v) = true /\ k ++ String "=" v <> EmptyString.
Proof.
  intros Hk Hv. rewrite no_char_app, no_char_cons, Hk, Hv. split; [done|].
  destruct k; discriminate.
Qed.

Lemma existsb_key_fresh {V} k (p : list (string * V)) :
  k ∉ List.map fst p -> existsb (fun kv => String.eqb (fst kv) k) p = false.
Proof.
  intros Hk. apply not_true_iff_false. intros (kv & Hin & E)%existsb_exists.
  apply String.eqb_eq in E. apply Hk, list_elem_of_In, in_map_iff. by exists kv.
Qed.

Lemma lookupParam_snoc_fresh p k v :
  k ∉ List.map fst p -> lookupParam (p ++ [(k, v)])%list k = v.
Proof.
  induction p as [|[k' v'] p IH]; intros Hk; unfold lookupParam; simpl.
  - by rewrite String.eqb_refl.
  - assert (String.eqb k' k = false) as -> by (apply String.eqb_neq; set_solver).
    apply IH. set_solver.
Qed.

Lemma filter_key_fresh (p : Params) k v :
  k ∉ List.map fst p ->
  List.filter (fun kv => negb (String.eqb (fst kv) k)) (p ++ [(k, v)])%list = p.
Proof.
  induction p as [|[k' v'] p IH]; intros Hk; simpl.
  - by rewrite String.eqb_refl.
  - assert (String.eqb k' k = false) as -> by (apply String.eqb_neq; set_solver).
    simpl. rewrite IH; [done|set_solver].
Qed.

(** ** Theorems *)

(** C18: the signature does not depend on the order of the object's
    entries: [Object.keys(...).sort()] makes two objects with the same
    entries sign the same string. *)
Theorem generateSign_order_independent md5 p q salt :
  NoDup (List.map fst p) -> p ≡ₚ q -> generateSign md5 p salt = generateSign md5 q salt.
Proof. intros Hnd Hpq. unfold generateSign. by rewrite (signQuery_proper p q (conj Hnd Hpq)). Qed.

(** [verifySign] accepts what [createSignedParams] produces, for an
    object without a [sign] entry. *)
Theorem verify_createSignedParams md5 p salt :
  "sign" ∉ List.map fst p -> verifySign md5 (createSignedParams md5 p salt) salt = true.
Proof.
  intros Hs. unfold createSignedParams, setParam. rewrite existsb_key_fresh by done.
  unfold verifySign. rewrite lookupParam_snoc_fresh, filter_key_fresh by done.
  apply String.eqb_refl.
Qed.

(** C17: a gift-code request verifies on the receiving side: decoding
    the body gives back the signature sent, and signing the received
    fields again (all strings now, in the body's order) gives the same
    signature, as long as the account number, the code, the digest and
    the time contain none of [&], [=], [+], [%]. *)
Theorem giftCodeBody_verifies md5 acc code time :
  formPlain acc = true -> formPlain code = true ->
  formPlain (generateSign md5 (giftCodeParams acc code time) DEFAULT_SALT) = true ->
  formPlain (pretty time) = true ->
  let pairs := formDecode (giftCodeBody md5 acc code time) in
  lookupStr "sign" pairs = Some (generateSign md5 (giftCodeParams acc code time) DEFAULT_SALT) /\
  generateSign md5 (receivedParams pairs) DEFAULT_SALT =
  generateSign md5 (giftCodeParams acc code time) DEFAULT_SALT.
Proof.
  intros (Ha1 & Ha2 & Ha3 & Ha4)%formPlain_spec (Hc1 & Hc2 & Hc3 & Hc4)%formPlain_spec
    (Hs1 & Hs2 & Hs3 & Hs4)%formPlain_spec (Ht1 & Ht2 & Ht3 & Ht4)%formPlain_spec.
  cbv zeta. rewrite giftCodeBody_pieces.
  rewrite formDecode_concat; [|discriminate|
    repeat (apply List.Forall_cons; [apply piece_ok; (reflexivity || assumption)|]);
    apply List.Forall_nil].
  cbn [List.map]. rewrite !decode_piece by (reflexivity || assumption).
  (* the received fields sort to the same keys with the same texts *)
  split; reflexivity.
Qed.

(** The length of an [&]-joined text: one separator between pieces. *)
Lemma concat_amp_length l :
  l <> [] -> S (String.length (String.concat amp l)) = sum_list_with (fun x => S (String.length x)) l.
Proof.
  induction l as [|x [|y l] IH]; intros Hne; [done|simpl; lia|].
  change (String.concat amp (x :: y :: l)) with (x ++ amp ++ String.concat amp (y :: l)).
  rewrite !string_length_app. specialize (IH ltac:(discriminate)).
  cbn [sum_list_with] in *. change (String.length amp) with 1. lia.
Qed.

(** The length of the signed query of an object with distinct keys: its
    [key=value] entries, in any order, joined by [&]. *)
Lemma signQuery_length p :
  p <> [] -> NoDup (List.map fst p) ->
  S (String.length (signQuery p)) =
  sum_list_with (fun x => S (String.length x))
    (List.map (fun kv => fst kv ++ "=" ++ renderValue (snd kv)) p).
Proof.
  intros Hne Hnd. unfold signQuery. rewrite concat_amp_length.
  2: { intros E. apply map_eq_nil, (f_equal length) in E.
       rewrite merge_sort_Permutation, length_map in E. by destruct p. }
  rewrite (merge_sort_Permutation String.le), List.map_map. f_equal.
  apply List.map_ext_in. intros [k v] Hin. simpl. do 3 f_equal.
  apply lookupParam_in; [done|by apply list_elem_of_In].
Qed.

(** A piece without [=] is a name with an empty value. *)
Lemma splitPair_noeq k : no_char "=" k = true -> splitPair k = (k, "").
Proof.
  induction k as [|c k IH]; [done|]. rewrite no_char_cons, andb_true_iff, negb_true_iff.
  intros [Hc Hk]. simpl. by rewrite Hc, IH.
Qed.

(** C26: the gift code is written into the body unescaped.  For any code
    [a&b] (the input only trims the surrounding blanks), where [b] is a
    name the request does not otherwise use: the receiving side reads the
    code [a] and a stray field [b] with an empty value, and the query it
    signs again is one character longer than the one that was signed (the
    [&] of the code becomes a separator and [b] gains an [=]), so the two
    never agree. *)
Theorem giftCode_ampersand_breaks md5 acc a b time :
  formPlain acc = true -> formPlain a = true -> formPlain b = true -> b <> "" ->
  b ∉ ["sign"; "fid"; "cdk"; "captcha_code"; "time"] ->
  formPlain (generateSign md5 (giftCodeParams acc (a ++ String "&" b) time) DEFAULT_SALT) = true ->
  formPlain (pretty time) = true ->
  let pairs := formDecode (giftCodeBody md5 acc (a ++ String "&" b) time) in
  lookupStr "cdk" pairs = Some a /\ (b, "") ∈ pairs /\
  signQuery (receivedParams pairs) <> signQuery (giftCodeParams acc (a ++ String "&" b) time).
Proof.
  intros (Ha1 & Ha2 & Ha3 & Ha4)%formPlain_spec (Hc1 & Hc2 & Hc3 & Hc4)%formPlain_spec
    (Hb1 & Hb2 & Hb3 & Hb4)%formPlain_spec Hbne Hbk
    (Hs1 & Hs2 & Hs3 & Hs4)%formPlain_spec (Ht1 & Ht2 & Ht3 & Ht4)%formPlain_spec.
  cbv zeta. rewrite giftCodeBody_pieces.
  set (h := generateSign md5 (giftCodeParams acc (a ++ String "&" b) time) DEFAULT_SALT) in *.
  assert (E : String.concat amp ["sign" ++ String "=" h; "fid" ++ String "=" acc;
                "cdk" ++ String "=" (a ++ String "&" b); "captcha_code" ++ String "=" "";
                "time" ++ String "=" (pretty time)] =
              String.concat amp ["sign" ++ String "=" h; "fid" ++ String "=" acc;
                "cdk" ++ String "=" a; b; "captcha_code" ++ String "=" "";
                "time" ++ String "=" (pretty time)]).
  { cbn [String.concat]. unfold amp. rewrite ?string_app_assoc, ?string_cons_app.
    rewrite ?string_app_assoc, ?string_cons_app. reflexivity. }
  rewrite E, formDecode_concat; [|discriminate|].
  2: { repeat (apply List.Forall_cons; [(apply piece_ok; (reflexivity || assumption))
                                        || (split; assumption)|]). apply List.Forall_nil. }
  cbn [List.map]. rewrite !decode_piece by (reflexivity || assumption).
  rewrite splitPair_noeq, formUnescape_plain by assumption.
  assert (Hbs : String.eqb b "sign" = false) by (apply String.eqb_neq; set_solver).
  split; [reflexivity|split; [set_solver|]].
  unfold receivedParams. cbn [List.filter fst]. rewrite Hbs. cbn [negb List.map fst snd].
  intros Hq. apply (f_equal (fun x => S (String.length x))) in Hq.
  rewrite !signQuery_length in Hq; [|discriminate| |discriminate|].
  - simpl in Hq. rewrite !string_length_app in Hq. simpl in Hq. lia.
  - simpl. apply NoDup_ListNoDup. repeat constructor; simpl; intuition discriminate.
  - simpl. repeat constructor; set_solver.
Qed.


(** ** Witnesses *)

(** A stand-in digest of the shape MD5 returns (32 hexadecimal digits). *)
Definition hexDigest (_ : string) : string := "d41d8cd98f00b204e9800998ecf8427e".

Lemma generateSign_order_independent_witness :
  NoDup (List.map fst (giftCodeParams "1001" "ABC" 17)) /\
  giftCodeParams "1001" "ABC" 17 ≡ₚ
    [("cdk", SStr "ABC"); ("captcha_code", SStr ""); ("fid", SStr "1001"); ("time", SNum 17)] /\
  generateSign hexDigest (giftCodeParams "1001" "ABC" 17) DEFAULT_SALT =
  generateSign hexDigest
    [("cdk", SStr "ABC"); ("captcha_code", SStr ""); ("fid", SStr "1001"); ("time", SNum 17)]
    DEFAULT_SALT.
Proof.
  assert (H1 : NoDup (List.map fst (giftCodeParams "1001" "ABC" 17)))
    by (apply NoDup_ListNoDup; repeat constructor; simpl; intuition discriminate).
  assert (H2 : giftCodeParams "1001" "ABC" 17 ≡ₚ
    [("cdk", SStr "ABC"); ("captcha_code", SStr ""); ("fid", SStr "1001"); ("time", SNum 17)])
    by (unfold giftCodeParams; solve_Permutation).
  split; [exact H1|split; [exact H2|]].
  exact (generateSign_order_independent hexDigest _ _ DEFAULT_SALT H1 H2).
Defined.

Lemma verify_createSignedParams_witness :
  ("sign" ∉ List.map fst [("fid", SStr "1001"); ("time", SNum 17)]) /\
  verifySign hexDigest (createSignedParams hexDigest [("fid", SStr "1001"); ("time", SNum 17)]
                          DEFAULT_SALT) DEFAULT_SALT = true.
Proof.
  assert (H : "sign" ∉ List.map fst [("fid", SStr "1001"); ("time", SNum 17)]) by set_solver.
  split; [exact H|]. exact (verify_createSignedParams hexDigest _ DEFAULT_SALT H).
Defined.

Lemma giftCodeBody_verifies_witness :
  formPlain "1001" = true /\ formPlain "ABC" = true /\
  formPlain (generateSign hexDigest (giftCodeParams "1001" "ABC" 17) DEFAULT_SALT) = true /\
  formPlain (pretty 17%Z) = true /\
  lookupStr "sign" (formDecode (giftCodeBody hexDigest "1001" "ABC" 17)) =
    Some "d41d8cd98f00b204e9800998ecf8427e".
Proof.
  assert (H1 : formPlain "1001" = true) by reflexivity.
  assert (H2 : formPlain "ABC" = true) by reflexivity.
  assert (H3 : formPlain (generateSign hexDigest (giftCodeParams "1001" "ABC" 17) DEFAULT_SALT)
               = true) by reflexivity.
  assert (H4 : formPlain (pretty 17%Z) = true) by reflexivity.
  split; [exact H1|split; [exact H2|split; [exact H3|split; [exact H4|]]]].
  exact (proj1 (giftCodeBody_verifies hexDigest "1001" "ABC" 17 H1 H2 H3 H4)).
Defined.

Lemma giftCode_ampersand_breaks_witness :
  let pairs := formDecode (giftCodeBody hexDigest "1001" ("A" ++ String "&" "B") 17) in
  lookupStr "cdk" pairs = Some "A".
Proof.
  exact (proj1 (giftCode_ampersand_breaks hexDigest "1001" "A" "B" 17 eq_refl eq_refl eq_refl
    ltac:(discriminate) ltac:(vm_compute; set_solver) eq_refl eq_refl)).
Defined.
