(* ===== verification/Settings.v ===== *)
(** * Settings: the request interval and the interface language

    App.tsx keeps the interval between two requests in the state [delayMs].
    Its initialiser reads the raw string under "kingshot-delay-ms" from
    localStorage and parses it with [parseInt(saved, 10)] (2000 when
    nothing, or the empty string, is saved); the [<select>] stores
    [String(v)] of the parsed option value.  The hook and the import loop
    wait with [setTimeout(resolve, delayMs)].

    [parseInt] is JavaScript's (ECMA-262, [parseInt] with radix 10):
    leading white space, one optional sign, the longest run of decimal
    digits, NaN when there is none.  Its result is a [JsInt], an integer
    or NaN.  localStorage is a map from keys to the raw strings stored;
    only the delay key is used here (the account key is Persistence.v's).
    Numbers are unbounded integers and [jsString] prints them in decimal:
    JavaScript's [String(v)] switches to exponent form from 1e21 on, so
    the round trip below is JavaScript's only below that bound, which
    the five options of the select (500 to 3000) are far from.
    [timerDelay] is the delay the browser applies for a [setTimeout]
    argument (HTML: the WebIDL [long] conversion, ToInt32, then negative
    values clamped to 0); it is the library's behaviour, not code of the
    repository.

    LanguageSwitcher.tsx maps i18next's current language to one of the
    three supported ones and highlights its button. *)

From Stdlib Require Import List ZArith String Ascii Bool Lia.
From stdpp Require Import base gmap strings list pretty.
From S2P Require Import Prelude FileUtils.
Import ListNotations.
Open Scope string_scope.

(** ** The request interval *)

(** A JavaScript number as [parseInt] returns it. *)
Inductive JsInt := JInt (z : Z) | JNaN.

(** A decimal digit: a code unit between U+0030 and U+0039. *)
Definition digitVal (c : ascii) : option N :=
  let code := N_of_ascii c in
  if (48 <=? code)%N && (code <=? 57)%N then Some (code - 48)%N else None.

(** The value of the longest prefix of decimal digits, read after [acc]. *)
Fixpoint parseDigits (s : string) (acc : N) : N :=
  match s with
  | String c s' =>
      match digitVal c with
      | Some d => parseDigits s' (acc * 10 + d)%N
      | None => acc
      end
  | EmptyString => acc
  end.

Definition startsWithDigit (s : string) : bool :=
  match s with
  | String c _ => match digitVal c with Some _ => true | None => false end
  | EmptyString => false
  end.

(** [parseInt(s, 10)] *)
Definition parseInt (s : string) : JsInt :=
  let s1 := ltrim s in
  let '(neg, s2) :=
    match s1 with
    | String "-"%char r => (true, r)
    | String "+"%char r => (false, r)
    | _ => (false, s1)
    end in
  if startsWithDigit s2 then
    let m := Z.of_N (parseDigits s2 0) in JInt (if neg then (- m)%Z else m)
  else JNaN.

(** [String(v)] *)
Definition jsString (v : JsInt) : string :=
  match v with JInt z => pretty z | JNaN => "NaN" end.

Definition DELAY_KEY : string := "kingshot-delay-ms".

Abbreviation RawStorage := (gmap string string).

(** The initialiser of [delayMs]: [saved ? parseInt(saved, 10) : 2000]. *)
Definition initialDelay (ls : RawStorage) : JsInt :=
  match ls !! DELAY_KEY with
  | Some saved => if String.eqb saved "" then JInt 2000 else parseInt saved
  | None => JInt 2000
  end.

(** The [onChange] of the [<select>]: parse the option's value, set the
    state, store [String(v)]. *)
Definition onDelayChange (value : string) (ls : RawStorage) : JsInt * RawStorage :=
  let v := parseInt value in
  (v, <[DELAY_KEY := jsString v]> ls).

(** The values of the five [<option>]s. *)
Definition delayOptions : list Z := [500; 1000; 1500; 2000; 3000]%Z.

(** ToInt32, then negative delays clamped to 0; NaN converts to 0. *)
Definition toInt32 (z : Z) : Z :=
  let w := (z mod 2 ^ 32)%Z in if Z.ltb w (2 ^ 31) then w else (w - 2 ^ 32)%Z.

Definition timerDelay (v : JsInt) : Z :=
  match v with JInt z => Z.max (toInt32 z) 0 | JNaN => 0%Z end.

(** ** The interface language *)

Definition supportedLngs : list string := ["zh"; "en"; "ko"].

(** [current] of LanguageSwitcher.tsx. *)
Definition currentLanguage (currentRaw : string) : string :=
  if String.prefix "en" currentRaw then "en"
  else if String.prefix "zh" currentRaw then "zh"
  else if String.prefix "ko" currentRaw then "ko"
  else "zh".

Definition languageButtonClass (current lng : string) : string :=
  if String.eqb current lng then "bg-blue-600 text-white"
  else "bg-gray-700 text-gray-300 hover:bg-gray-600".

(** The three buttons in order, each with its class. *)
Definition languageButtons (currentRaw : string) : list (string * string) :=
  List.map (fun lng => (lng, languageButtonClass (currentLanguage currentRaw) lng))
    supportedLngs.

(** [changeLanguage(lng)]: i18next's language becomes [lng]. *)
Definition changeLanguage (lng : string) (_ : string) : string := lng.

(** ** Printing and parsing integers *)

Lemma digitVal_pretty d : (d < 10)%N -> digitVal (pretty_N_char d) = Some d.
Proof.
  intros Hd. destruct d as [|p]; [reflexivity|].
  do 4 try destruct p as [p|p|]; try reflexivity; lia.
Qed.

(** Reading the digits [pretty_N_go] prepends to [s] gives their value. *)
Lemma parseDigits_pretty_N_go x s : parseDigits (pretty_N_go x s) 0 = parseDigits s x.
Proof.
  revert s. induction (N.lt_wf_0 x) as [x _ IH]; intros s.
  destruct (decide (x = 0%N)) as [->|Hx]; [by rewrite pretty_N_go_0|].
  rewrite pretty_N_go_step by lia.
  rewrite IH by (apply N.div_lt; lia). simpl.
  rewrite digitVal_pretty by (apply N.mod_lt; lia).
  f_equal. pose proof (N.div_mod x 10). lia.
Qed.

Lemma startsWithDigit_pretty_N_go x s :
  (0 < x)%N \/ startsWithDigit s = true -> startsWithDigit (pretty_N_go x s) = true.
Proof.
  revert s. induction (N.lt_wf_0 x) as [x _ IH]; intros s Hs.
  destruct (decide (x = 0%N)) as [->|Hx].
  - rewrite pretty_N_go_0. destruct Hs; [lia|done].
  - rewrite pretty_N_go_step by lia. apply IH; [apply N.div_lt; lia|right].
    simpl. by rewrite digitVal_pretty by (apply N.mod_lt; lia).
Qed.

Lemma parseInt_digits s :
  startsWithDigit s = true -> parseInt s = JInt (Z.of_N (parseDigits s 0)).
Proof.
  intros H. destruct s as [|c s]; [discriminate|].
  destruct c as [[] [] [] [] [] [] [] []]; try discriminate H; reflexivity.
Qed.

Lemma parseInt_neg r :
  startsWithDigit r = true -> parseInt (String "-" r) = JInt (- Z.of_N (parseDigits r 0)).
Proof. intros H. unfold parseInt. simpl. by rewrite H. Qed.

(** [parseInt(String(z), 10) = z]. *)
Lemma parseInt_pretty z : parseInt (pretty z) = JInt z.
Proof.
  destruct z as [|p|p]; [reflexivity|..];
    change (pretty (Z.pos p)) with (pretty (N.pos p));
    change (pretty (Z.neg p)) with (String "-" (pretty (N.pos p)));
    unfold pretty, pretty_N; rewrite decide_False by lia;
    [rewrite parseInt_digits|rewrite parseInt_neg];
    try (apply startsWithDigit_pretty_N_go; lia);
    by rewrite parseDigits_pretty_N_go.
Qed.

Lemma jsString_parse v : parseInt (jsString v) = v.
Proof. destruct v as [z|]; [apply parseInt_pretty|reflexivity]. Qed.

Lemma jsString_nonempty v : jsString v <> "".
Proof. intros E. pose proof (jsString_parse v) as H. rewrite E in H. by destruct v. Qed.

(** ** Theorems *)

(** C27: the interval chosen in the [<select>] is the one restored after a
    reload: whatever the option's value parses to (an integer or NaN),
    the initialiser of [delayMs] reads back the same number from the
    string [String(v)] stored under "kingshot-delay-ms". *)
Theorem delay_roundtrip value ls :
  initialDelay (snd (onDelayChange value ls)) = fst (onDelayChange value ls).
Proof.
  unfold onDelayChange, initialDelay. simpl. rewrite lookup_insert_eq.
  destruct (String.eqb_spec (jsString (parseInt value)) "") as [E|_].
  - by apply jsString_nonempty in E.
  - apply jsString_parse.
Qed.

(** Each of the five options is restored as the delay the timers wait. *)
Lemma delayOptions_restored ls :
  Forall (fun z => timerDelay (initialDelay (snd (onDelayChange (pretty z) ls))) = z)
    delayOptions.
Proof.
  apply List.Forall_forall. intros z Hz.
  unfold onDelayChange, initialDelay. simpl. rewrite lookup_insert_eq.
  repeat destruct Hz as [<-|Hz]; [vm_compute; reflexivity..|done].
Qed.

(** A stored value that is not a number makes [delayMs] NaN, and the
    timers then do not wait at all; a stored value of 2^32 ms or more
    wraps around. *)
Lemma corrupted_delay_no_wait :
  initialDelay (<[DELAY_KEY := "abc"]> ∅) = JNaN /\
  timerDelay (initialDelay (<[DELAY_KEY := "abc"]> ∅)) = 0%Z /\
  timerDelay (initialDelay (<[DELAY_KEY := "4294968296"]> ∅)) = 1000%Z.
Proof. vm_compute. auto. Qed.

(** Exactly the button of the current language is highlighted, the
    current language is a supported one, and clicking a button makes its
    language the current one. *)
Theorem languageButtons_spec raw :
  List.filter (fun b => String.eqb (snd b) "bg-blue-600 text-white") (languageButtons raw) =
    [(currentLanguage raw, "bg-blue-600 text-white")] /\
  In (currentLanguage raw) supportedLngs /\
  (forall lng, In lng supportedLngs -> currentLanguage (changeLanguage lng raw) = lng).
Proof.
  split; [|split].
  - unfold languageButtons, currentLanguage.
    repeat destruct (String.prefix _ _); reflexivity.
  - unfold currentLanguage. repeat destruct (String.prefix _ _); simpl; tauto.
  - intros lng Hin. repeat destruct Hin as [<-|Hin]; [reflexivity..|done].
Qed.
