(* ===== verification/Validation.v ===== *)
(** * Validation: the batch validation engine [validateAccounts]

    [validateAccounts] of src/src/hooks/useAccountActions.ts is an async
    loop.  It is modelled by its suspension points: [VFetch i processed acc]
    is the loop suspended in [await fetchPlayerInfo(acc.accountNumber)] at
    index [i], [VSleep i processed] is the loop suspended in the delay after
    index [i], [VDone] is the finished function.  The synchronous code
    between two suspensions is a function [HookState -> HookState * VPc]:
    [validateAccounts] (from the call to the first suspension), [v_after_fetch]
    (resuming with the outcome of the call) and [v_after_sleep].

    While the loop is suspended the user may delete accounts
    ([deleteAccount]); [v_step] is the transition relation of the engine
    together with those deletions, and [run_validate] is an executable run
    given the outcome of each lookup and the deletions made at each
    suspension.  The section [Uninterrupted] gives the registry a batch
    leaves when nobody deletes anything, account by account. *)

From Stdlib Require Import List ZArith String Bool Lia.
From stdpp Require Import base gmap strings list.
From S2P Require Import Prelude Types Api Registry Samples.
Import ListNotations.
Open Scope string_scope.

Inductive VPc :=
| VFetch (i processed : nat) (acc : Account)
| VSleep (i processed : nat)
| VDone.

(** [cancelledIdsRef.current.clear()] after the loop. *)
Definition finishValidation (s : HookState) : HookState := setCancelledIds ∅ s.

(** [accountsToValidate.filter((a) => !cancelledIdsRef.current.has(a.id)).length] *)
Definition liveCount (s : HookState) (l : list Account) : nat :=
  length (List.filter (fun a => negb (isCancelled s (id a))) l).

Definition progressText (current total : nat) : Text :=
  Tr "messages.playerInfoQueryingProgress"
    [("current", Num (Z.of_nat current)); ("total", Num (Z.of_nat total))].

(** The head of the [for] loop at index [i], [rest] being the accounts from
    index [i] on: skip cancelled accounts, then mark the next one as
    validating and suspend in its lookup; at the end of the list, clear the
    cancellation set. *)
Fixpoint v_scan (all rest : list Account) (i processed : nat) (s : HookState)
    : HookState * VPc :=
  match rest with
  | [] => (finishValidation s, VDone)
  | account :: rest' =>
      if isCancelled s (id account) then v_scan all rest' (S i) processed s
      else
        let processed' := S processed in
        let dynamicTotal := liveCount s all in
        (setAccounts (updateAccountStatus (id account) validating
                        (Some (progressText processed' dynamicTotal)) None) s,
         VFetch i processed' account)
  end.

Definition validateAccounts (accountsToValidate : list Account) (s : HookState)
    : HookState * VPc :=
  v_scan accountsToValidate accountsToValidate 0 0 s.

(** The end of an iteration: wait if a later account is still live, stop
    early if none is, and go round the loop after the last index. *)
Definition v_continue (all : list Account) (i processed : nat) (s : HookState)
    : HookState * VPc :=
  if Nat.ltb i (length all - 1) then
    if existsb (fun a => negb (isCancelled s (id a))) (skipn (S i) all)
    then (s, VSleep i processed)
    else (finishValidation s, VDone)
  else v_scan all (skipn (S i) all) (S i) processed s.

(** Resuming from [await fetchPlayerInfo]: write the outcome unless the
    account was cancelled meanwhile. *)
Definition v_after_fetch (all : list Account) (i processed : nat) (account : Account)
    (o : FetchOutcome PlayerInfoResponse) (s : HookState) : HookState * VPc :=
  let s1 :=
    match fetchPlayerInfo o with
    | inl info =>
        if negb (isCancelled s (id account))
        then setAccounts (updateAccountStatus (id account) idle None (Some info)) s
        else s
    | inr e =>
        let errorMessage := lookupErrorMessage (Tr "messages.validationFailed" []) e in
        if negb (isCancelled s (id account))
        then setAccounts (updateAccountStatus (id account) error (Some errorMessage) None) s
        else s
    end in
  v_continue all i processed s1.

(** Resuming from the delay. *)
Definition v_after_sleep (all : list Account) (i processed : nat) (s : HookState)
    : HookState * VPc :=
  v_scan all (skipn (S i) all) (S i) processed s.

(** Resuming a suspended engine; [o] is the outcome of the lookup it
    awaits (ignored when it awaits the delay). *)
Definition v_resume (all : list Account) (pc : VPc) (o : FetchOutcome PlayerInfoResponse)
    (s : HookState) : HookState * VPc :=
  match pc with
  | VFetch i p acc => v_after_fetch all i p acc o s
  | VSleep i p => v_after_sleep all i p s
  | VDone => (s, VDone)
  end.

(** ** Interleaving with the user's deletions *)

Inductive v_step (all : list Account) : VPc * HookState -> VPc * HookState -> Prop :=
| vs_fetch i p acc o s s' pc' :
    v_after_fetch all i p acc o s = (s', pc') ->
    v_step all (VFetch i p acc, s) (pc', s')
| vs_sleep i p s s' pc' :
    v_after_sleep all i p s = (s', pc') ->
    v_step all (VSleep i p, s) (pc', s')
| vs_delete pc aid s :
    pc <> VDone -> v_step all (pc, s) (pc, deleteAccount aid s).

(** ** Executable runs *)

Definition oracle_at (oracle : nat -> Account -> FetchOutcome PlayerInfoResponse)
    (pc : VPc) : FetchOutcome PlayerInfoResponse :=
  match pc with
  | VFetch i _ acc => oracle i acc
  | _ => NetworkFailure ""
  end.

(** [oracle i acc] is the outcome of the lookup made at index [i];
    [deletes k] the ids the user deletes while the engine is suspended for
    the [k]-th time. *)
Fixpoint run_validate (fuel : nat) (all : list Account)
    (oracle : nat -> Account -> FetchOutcome PlayerInfoResponse)
    (deletes : nat -> list string) (k : nat) (pc : VPc) (s : HookState)
    : option HookState :=
  match pc with
  | VDone => Some s
  | _ =>
      match fuel with
      | 0 => None
      | S fuel' =>
          let s0 := fold_left (fun st aid => deleteAccount aid st) (deletes k) s in
          let '(s1, pc1) := v_resume all pc (oracle_at oracle pc) s0 in
          run_validate fuel' all oracle deletes (S k) pc1 s1
      end
  end.

(** The whole call: run [validateAccounts] to its first suspension, then
    resume it until it returns. *)
Definition validateRun (fuel : nat) (all : list Account)
    (oracle : nat -> Account -> FetchOutcome PlayerInfoResponse)
    (deletes : nat -> list string) (s : HookState) : option HookState :=
  let '(s1, pc1) := validateAccounts all s in
  run_validate fuel all oracle deletes 0 pc1 s1.

Lemma VPc_done_or pc : pc = VDone \/ pc <> VDone.
Proof. destruct pc; [right|right|left]; congruence. Qed.

(** ** What one resumption does *)

(** The shape of the result [(s', pc')] of running the engine from [s] to
    its next suspension: the ids of the registry are kept, the invariant is
    kept, the cancellation set is kept until it is cleared at the end, no
    cancelled account is written, and a lookup is only started for an
    account that is not cancelled. *)
Definition v_out (s : HookState) (r : HookState * VPc) : Prop :=
  let '(s', pc') := r in
  ids (accounts s') = ids (accounts s) /\
  (registry_wf (accounts s) -> registry_wf (accounts s')) /\
  (pc' = VDone -> cancelledIds s' = ∅) /\
  (pc' <> VDone -> cancelledIds s' = cancelledIds s) /\
  (forall x, isCancelled s x = true -> findAccount x (accounts s') = findAccount x (accounts s)) /\
  (forall i p acc, pc' = VFetch i p acc -> isCancelled s (id acc) = false).

Lemma v_out_here s pc :
  pc <> VDone -> (forall i p acc, pc = VFetch i p acc -> isCancelled s (id acc) = false) ->
  v_out s (s, pc).
Proof.
  intros Hd Hf. simpl. split; [done|split; [done|split; [done|split; [done|split]]]]; auto.
Qed.

Lemma v_out_finish s : v_out s (finishValidation s, VDone).
Proof.
  simpl. split; [done|split; [done|split; [done|split; [by intros []|split]]]];
    [done|discriminate].
Qed.

(** A write to a live account, followed by more of the engine. *)
Lemma v_out_write s aid st lr pi r :
  isCancelled s aid = false ->
  v_out (setAccounts (updateAccountStatus aid st lr pi) s) r -> v_out s r.
Proof.
  destruct r as [s' pc']. intros Hc (Hids & Hwf & Hdone & Hkeep & Hfind & Hfetch).
  simpl in *. rewrite updateAccountStatus_ids in Hids.
  split; [done|split; [|split; [done|split; [done|split]]]].
  - intros W. apply Hwf. by apply updateAccountStatus_wf.
  - intros x Hx. rewrite Hfind by done.
    destruct (String.eqb_spec x aid) as [->|Hne]; [congruence|].
    by apply updateAccountStatus_find_other, String.eqb_neq.
  - done.
Qed.

Lemma v_scan_out all rest i p s : v_out s (v_scan all rest i p s).
Proof.
  revert i. induction rest as [|a rest IH]; intros i; simpl; [apply v_out_finish|].
  destruct (isCancelled s (id a)) eqn:Hc; [apply IH|].
  apply (v_out_write _ (id a) validating (Some (progressText (S p) (liveCount s all))) None);
    [done|]. apply v_out_here; [done|]. by intros ? ? ? [= _ _ <-].
Qed.

Lemma v_continue_out all i p s : v_out s (v_continue all i p s).
Proof.
  unfold v_continue. destruct (Nat.ltb _ _); [|apply v_scan_out].
  destruct (existsb _ _); [apply v_out_here; done|apply v_out_finish].
Qed.

Lemma v_resume_out all pc o s : pc <> VDone -> v_out s (v_resume all pc o s).
Proof.
  intros Hd. destruct pc as [i p acc|i p|]; simpl; [|apply v_scan_out|done].
  unfold v_after_fetch.
  destruct (fetchPlayerInfo o); destruct (isCancelled s (id acc)) eqn:Hc; simpl;
    try apply v_continue_out; eapply v_out_write; eauto using v_continue_out.
Qed.

#[export] Hint Resolve v_out_here v_out_finish v_scan_out v_continue_out v_resume_out : gc.

(** ** Progress: a measure that every resumption decreases *)

Definition pc_ok (n : nat) (pc : VPc) : Prop :=
  match pc with
  | VFetch i _ _ => i < n
  | VSleep i _ => S i < n
  | VDone => True
  end.

(** Two units per remaining index: one for the lookup, one for the delay. *)
Definition v_measure (n : nat) (pc : VPc) : nat :=
  match pc with
  | VFetch i _ _ => 2 * (n - i)
  | VSleep i _ => 2 * (n - i) - 1
  | VDone => 0
  end.

Lemma v_scan_index all rest i p s :
  match snd (v_scan all rest i p s) with
  | VFetch j _ _ => i <= j < i + length rest
  | VSleep _ _ => False
  | VDone => True
  end.
Proof.
  revert i. induction rest as [|a rest IH]; intros i; simpl; [done|].
  destruct (isCancelled s (id a)); simpl; [|lia].
  specialize (IH (S i)). destruct (snd _); lia.
Qed.

(** Entering the loop at index [j] leads to a lookup at an index [>= j]. *)
Lemma v_scan_from_measure all j p s :
  let pc := snd (v_scan all (skipn j all) j p s) in
  pc_ok (length all) pc /\ v_measure (length all) pc <= 2 * (length all - j).
Proof.
  pose proof (v_scan_index all (skipn j all) j p s) as H. rewrite length_skipn in H.
  simpl. destruct (snd _); simpl; lia.
Qed.

Lemma v_continue_measure all i p s :
  i < length all ->
  let pc' := snd (v_continue all i p s) in
  pc_ok (length all) pc' /\ v_measure (length all) pc' < 2 * (length all - i).
Proof.
  intros Hi. unfold v_continue. destruct (Nat.ltb_spec i (length all - 1)).
  - destruct (existsb _ _); simpl; lia.
  - destruct (v_scan_from_measure all (S i) p s). split; [done|lia].
Qed.

Lemma v_resume_measure all pc o s :
  pc_ok (length all) pc -> pc <> VDone ->
  let pc' := snd (v_resume all pc o s) in
  pc_ok (length all) pc' /\ v_measure (length all) pc' < v_measure (length all) pc.
Proof.
  intros Hok Hd. destruct pc as [i p acc|i p|]; simpl in *; [|clear Hd|done].
  - unfold v_after_fetch. by apply v_continue_measure.
  - unfold v_after_sleep. destruct (v_scan_from_measure all (S i) p s). split; [done|lia].
Qed.

Lemma deletes_fold_cancelled ds s :
  cancelledIds (fold_left (fun st aid => deleteAccount aid st) ds s) =
  list_to_set ds ∪ cancelledIds s.
Proof.
  revert s. induction ds as [|d ds IH]; intros s; simpl.
  - set_solver.
  - rewrite IH. simpl. set_solver.
Qed.

Lemma run_validate_unfold fuel all oracle deletes k pc s :
  pc <> VDone ->
  run_validate (S fuel) all oracle deletes k pc s =
  let s0 := fold_left (fun st aid => deleteAccount aid st) (deletes k) s in
  let '(s1, pc1) := v_resume all pc (oracle_at oracle pc) s0 in
  run_validate fuel all oracle deletes (S k) pc1 s1.
Proof. by destruct pc. Qed.

Lemma run_validate_some fuel all oracle deletes k pc s :
  pc_ok (length all) pc -> v_measure (length all) pc <= fuel ->
  (pc = VDone -> cancelledIds s = ∅) ->
  exists s', run_validate fuel all oracle deletes k pc s = Some s' /\ cancelledIds s' = ∅.
Proof.
  revert k pc s. induction fuel as [|fuel IH]; intros k pc s Hok Hm Hd.
  - destruct pc as [i|i|]; simpl in *; [lia|lia|eauto].
  - destruct (VPc_done_or pc) as [->|Hnd]; [simpl; eauto|].
    rewrite run_validate_unfold by done. cbv zeta.
    set (s0 := fold_left _ _ _).
    pose proof (v_resume_measure all pc (oracle_at oracle pc) s0 Hok Hnd) as [Hok1 Hlt].
    pose proof (v_resume_out all pc (oracle_at oracle pc) s0 Hnd) as Hout.
    destruct (v_resume all pc (oracle_at oracle pc) s0) as [s1 pc1].
    simpl in Hok1, Hlt. destruct Hout as (_ & _ & Hd1 & _). apply IH; auto. lia.
Qed.

(** ** Theorems of the validation engine *)

(** C2: whenever the engine resumes, an account already marked as
    cancelled is neither written (its entry in the registry is unchanged,
    thanks to the re-check after the lookup) nor looked up next (the loop
    head skips it). *)
Theorem validation_skips_cancelled all pc o s x :
  pc <> VDone -> isCancelled s x = true ->
  findAccount x (accounts (fst (v_resume all pc o s))) = findAccount x (accounts s) /\
  (forall i p acc, snd (v_resume all pc o s) = VFetch i p acc -> id acc <> x).
Proof.
  intros Hd Hx. pose proof (v_resume_out all pc o s Hd) as Hout.
  destruct (v_resume all pc o s) as [s' pc']; simpl in *.
  destruct Hout as (_ & _ & _ & _ & Hfind & Hfetch). split; [by apply Hfind|].
  intros i p acc -> <-. by rewrite (Hfetch i p acc eq_refl) in Hx.
Qed.

(** The same at the start of the batch. *)
Lemma validateAccounts_skips_cancelled all s x :
  isCancelled s x = true ->
  findAccount x (accounts (fst (validateAccounts all s))) = findAccount x (accounts s) /\
  (forall i p acc, snd (validateAccounts all s) = VFetch i p acc -> id acc <> x).
Proof.
  intros Hx. pose proof (v_scan_out all all 0 0 s) as Hout. unfold validateAccounts.
  destruct (v_scan all all 0 0 s) as [s' pc']; simpl in *.
  destruct Hout as (_ & _ & _ & _ & Hfind & Hfetch). split; [by apply Hfind|].
  intros i p acc -> <-. by rewrite (Hfetch i p acc eq_refl) in Hx.
Qed.

Definition deleted_inv (aid : string) (pc0 : VPc) (c : VPc * HookState) : Prop :=
  let '(pc, s) := c in
  (aid ∉ ids (accounts s)) /\
  (pc = VDone \/
   (aid ∈ cancelledIds s /\ forall i p acc, pc = VFetch i p acc -> id acc = aid -> pc = pc0)).

Lemma deleted_inv_resume all aid pc0 pc o s s' pc' :
  pc <> VDone -> v_resume all pc o s = (s', pc') ->
  deleted_inv aid pc0 (pc, s) -> deleted_inv aid pc0 (pc', s').
Proof.
  intros Hd E [Hni [Hdone|[Hin Hfetch]]]; [done|].
  pose proof (v_resume_out all pc o s Hd) as Hout. rewrite E in Hout.
  destruct Hout as (Hids & _ & _ & Hk1 & _ & Hf1).
  split; [by rewrite Hids|].
  destruct (VPc_done_or pc') as [|Hnd]; [by left|right].
  split; [by rewrite Hk1|].
  intros j q a -> Ha. exfalso. specialize (Hf1 _ _ _ eq_refl).
  unfold isCancelled in Hf1. rewrite Ha in Hf1. by rewrite bool_decide_eq_false in Hf1.
Qed.

Lemma deleted_inv_step all aid pc0 c c' :
  v_step all c c' -> deleted_inv aid pc0 c -> deleted_inv aid pc0 c'.
Proof.
  intros Hstep. destruct Hstep as [i p acc o s s' pc' E|i p s s' pc' E|pc aid' s Hd].
  - by apply (deleted_inv_resume all aid pc0 (VFetch i p acc) o).
  - by apply (deleted_inv_resume all aid pc0 (VSleep i p) (NetworkFailure "")).
  - intros [Hni Hrest]. split.
    + intros H. by apply Hni, (removeAccount_ids _ aid'), H.
    + destruct Hrest as [->|[Hin Hf]]; [by left|right]. split; [|done].
      simpl. set_solver.
Qed.

(** C7: an account deleted while the batch is suspended stays deleted:
    in every later state of the run its id is absent from the registry, and
    the only lookup for it that can still be pending is the one that was
    already in flight when it was deleted -- no new lookup is ever started
    for it. *)
Theorem validation_deletion_final all pc s aid pc' s' :
  pc <> VDone ->
  star (v_step all) (pc, deleteAccount aid s) (pc', s') ->
  (aid ∉ ids (accounts s')) /\
  (forall i p acc, pc' = VFetch i p acc -> id acc = aid -> pc' = pc).
Proof.
  intros Hd Hrun.
  assert (Hinv : deleted_inv aid pc (pc', s')).
  { eapply star_invariant; [apply deleted_inv_step|exact Hrun|].
    split; [intros H; by apply (removeAccount_ids _ aid _ H)|right].
    split; [simpl; set_solver|done]. }
  destruct Hinv as [Hni [->|[_ Hf]]]; [split; [done|discriminate]|by split].
Qed.

(** ** A batch nobody interferes with *)

(** The position of [x] in [l]. *)
Fixpoint indexOf (x : string) (l : list string) : option nat :=
  match l with
  | [] => None
  | y :: l' => if String.eqb y x then Some 0 else option_map S (indexOf x l')
  end.

Lemma indexOf_nth x l k : NoDup l -> nth_error l k = Some x -> indexOf x l = Some k.
Proof.
  revert k. induction l as [|y l IH]; intros [|k] Hnd E; simpl in *; try discriminate.
  - injection E as ->. by rewrite String.eqb_refl.
  - apply NoDup_cons in Hnd as [Hy Hnd]. destruct (String.eqb_spec y x) as [->|_].
    + exfalso. apply Hy. apply list_elem_of_In. by eapply nth_error_In.
    + by rewrite (IH k Hnd E).
Qed.

Lemma indexOf_some x l k : indexOf x l = Some k -> nth_error l k = Some x.
Proof.
  revert k. induction l as [|y l IH]; intros k; simpl; [discriminate|].
  destruct (String.eqb_spec y x) as [->|_]; [by intros [= <-]|].
  destruct (indexOf x l) as [j|]; simpl; [intros [= <-]; by apply IH|discriminate].
Qed.

Section Uninterrupted.

Context (all : list Account) (oracle : nat -> Account -> FetchOutcome PlayerInfoResponse).
Hypothesis Hnd : NoDup (ids all).

(** What the batch writes to the account at index [j]: the progress
    [j+1/n], then the outcome of its own lookup. *)
Definition vmark (j : nat) (a : Account) : Account :=
  applyStatusUpdate a validating (Some (progressText (S j) (length all))) None.

Definition vsettle (j : nat) (acc a : Account) : Account :=
  match fetchPlayerInfo (oracle j acc) with
  | inl info => applyStatusUpdate a idle None (Some info)
  | inr e => applyStatusUpdate a error
               (Some (lookupErrorMessage (Tr "messages.validationFailed" []) e)) None
  end.

Definition vfinal (j : nat) (a : Account) : Account :=
  match nth_error all j with Some acc => vsettle j acc (vmark j a) | None => a end.

(** The registry once the accounts before index [k] are done. *)
Definition doneBefore (k : nat) (a : Account) : Account :=
  match indexOf (id a) (ids all) with
  | Some j => if Nat.ltb j k then vfinal j a else a
  | None => a
  end.

Lemma indexOf_id k acc a :
  nth_error all k = Some acc -> (indexOf (id a) (ids all) = Some k <-> id a = id acc).
Proof.
  intros E. assert (Ek : nth_error (ids all) k = Some (id acc))
    by (unfold ids; by rewrite nth_error_map, E).
  split.
  - intros H. apply indexOf_some in H. congruence.
  - intros ->. by apply indexOf_nth.
Qed.

Lemma vsettle_id j acc a : id (vsettle j acc a) = id a.
Proof. unfold vsettle. by destruct (fetchPlayerInfo _). Qed.

Lemma doneBefore_id k a : id (doneBefore k a) = id a.
Proof.
  unfold doneBefore, vfinal. destruct (indexOf _ _) as [j|]; [|done].
  destruct (Nat.ltb j k); [|done]. destruct (nth_error all j); [by rewrite vsettle_id|done].
Qed.

Lemma doneBefore_other k a :
  indexOf (id a) (ids all) <> Some k -> doneBefore (S k) a = doneBefore k a.
Proof.
  intros Hk. unfold doneBefore. destruct (indexOf (id a) (ids all)) as [j|]; [|done].
  assert (j <> k) by congruence.
  destruct (Nat.ltb_spec j k), (Nat.ltb_spec j (S k)); done || lia.
Qed.

(** The two writes of iteration [k] turn [doneBefore k] into
    [doneBefore (S k)]. *)
Lemma iteration_writes k acc l :
  nth_error all k = Some acc ->
  let l1 := updateAccountStatus (id acc) validating
              (Some (progressText (S k) (length all))) None (List.map (doneBefore k) l) in
  List.map (fun a => if negb (String.eqb (id a) (id acc)) then a else vsettle k acc a) l1 =
  List.map (doneBefore (S k)) l.
Proof.
  intros E. unfold updateAccountStatus. rewrite !List.map_map. apply List.map_ext. intros a.
  pose proof (indexOf_id k acc a E) as Hid. pose proof (doneBefore_id k a) as Hb.
  destruct (String.eqb_spec (id a) (id acc)) as [Heq|Hne].
  - assert (Hdb : doneBefore k a = a)
      by (unfold doneBefore; by rewrite (proj2 Hid Heq), Nat.ltb_irrefl).
    assert (Hdb' : doneBefore (S k) a = vsettle k acc (vmark k a)).
    { unfold doneBefore. rewrite (proj2 Hid Heq).
      replace (Nat.ltb k (S k)) with true by (symmetry; apply Nat.ltb_lt; lia).
      unfold vfinal. by rewrite E. }
    rewrite Hdb, Hdb', Heq, String.eqb_refl. simpl. rewrite Heq, String.eqb_refl. reflexivity.
  - rewrite (doneBefore_other k a) by (intros H; by apply Hne, Hid).
    assert (Hne' : String.eqb (id (doneBefore k a)) (id acc) = false)
      by (rewrite Hb; by apply String.eqb_neq).
    rewrite Hne'. simpl. by rewrite Hne'.
Qed.

Lemma liveCount_none s l : cancelledIds s = ∅ -> liveCount s l = length l.
Proof.
  intros E. unfold liveCount, isCancelled. rewrite E.
  rewrite List.filter_ext with (g := fun _ => true) by (intros a; by rewrite bool_decide_eq_false_2 by set_solver).
  by rewrite forallb_filter_id by (apply forallb_forall; done).
Qed.

(** From the head of the loop at index [k], with nothing cancelled and
    the accounts before [k] done, the batch returns with every account
    done. *)
Lemma loop_from k l0 s fuel m :
  k <= length all -> cancelledIds s = ∅ -> 2 * (length all - k) <= fuel ->
  accounts s = List.map (doneBefore k) l0 ->
  (let '(s1, pc1) := v_scan all (skipn k all) k k s in
   run_validate fuel all oracle (fun _ => []) m pc1 s1) =
  Some (finishValidation (setAccounts (fun _ => List.map (doneBefore (length all)) l0) s)).
Proof.
  remember (length all - k) as d eqn:Hd. revert k s fuel m Hd.
  induction d as [|d IH]; intros k s fuel m Hd Hk Hc Hf Ha.
  - assert (k = length all) as -> by lia. rewrite skipn_all. simpl.
    rewrite <- Ha. destruct fuel; simpl; by destruct s.
  - destruct (nth_error all k) as [acc|] eqn:E; [|apply nth_error_None in E; lia].
    rewrite (skipn_nth_error all k acc E). simpl.
    assert (Hcan : forall t x, cancelledIds t = ∅ -> isCancelled t x = false)
      by (intros t x Ht; unfold isCancelled; rewrite Ht; by apply bool_decide_eq_false_2; set_solver).
    rewrite (Hcan s (id acc) Hc), (liveCount_none s all Hc).
    destruct fuel as [|fuel]; [lia|]. rewrite run_validate_unfold by discriminate. simpl.
    unfold v_after_fetch. rewrite (Hcan (setAccounts _ s) (id acc) Hc).
    set (s2 := match fetchPlayerInfo (oracle k acc) with
               | inl info => setAccounts (updateAccountStatus (id acc) idle None (Some info))
                               (setAccounts (updateAccountStatus (id acc) validating
                                  (Some (progressText (S k) (length all))) None) s)
               | inr e => setAccounts (updateAccountStatus (id acc) error
                            (Some (lookupErrorMessage (Tr "messages.validationFailed" []) e)) None)
                            (setAccounts (updateAccountStatus (id acc) validating
                               (Some (progressText (S k) (length all))) None) s)
               end).
    assert (Hs2 : accounts s2 = List.map (doneBefore (S k)) l0 /\ cancelledIds s2 = ∅ /\
                  forall l, setAccounts (fun _ => l) s2 = setAccounts (fun _ => l) s).
    { rewrite <- (iteration_writes k acc l0 E), <- Ha. unfold s2, vsettle.
      destruct (fetchPlayerInfo (oracle k acc)); simpl; (split; [reflexivity|split; [done|done]]). }
    replace (match fetchPlayerInfo (oracle k acc) with | inl _ => _ | inr _ => _ end) with s2
      by (unfold s2; destruct (fetchPlayerInfo (oracle k acc)); reflexivity).
    destruct Hs2 as (Ha2 & Hc2 & Eg).
    unfold v_continue. destruct (Nat.ltb_spec k (length all - 1)).
    + assert (Hex : existsb (fun a => negb (isCancelled s2 (id a))) (skipn (S k) all) = true).
      { destruct (skipn (S k) all) as [|b rest] eqn:Es.
        - apply (f_equal length) in Es. rewrite length_skipn in Es. simpl in Es. lia.
        - simpl. by rewrite Hcan. }
      rewrite Hex. destruct fuel as [|fuel]; [lia|]. simpl. unfold v_after_sleep.
      rewrite (IH (S k) s2 fuel (S (S m))); [|lia|lia|done|lia|done].
      by rewrite Eg.
    + rewrite (IH (S k) s2 fuel (S m)); [|lia|lia|done|lia|done].
      by rewrite Eg.
Qed.

End Uninterrupted.

(** C16: the functional result of a batch nobody interferes with.  For a
    batch with distinct ids, started with nothing cancelled, and no
    deletion while it runs: [validateAccounts] returns within
    [2 * length accountsToValidate] resumptions, and the registry is then
    the old one in which every account whose id is the id of the [j]-th
    account of the batch has received the progress [(j+1)/n] and then the
    outcome of the [j]-th lookup ([idle] with the fresh profile, or
    [error] with the classified message), every other account unchanged;
    the cancellation set is cleared and nothing else of the hook
    changes. *)
Theorem validation_results all oracle s :
  NoDup (ids all) -> cancelledIds s = ∅ ->
  validateRun (2 * length all) all oracle (fun _ => []) s =
  Some (finishValidation (setAccounts (List.map (doneBefore all oracle (length all))) s)).
Proof.
  intros Hnd Hc. unfold validateRun, validateAccounts. change all with (skipn 0 all) at 2.
  rewrite (loop_from all oracle Hnd 0 (accounts s) s (2 * length all) 0); [done|lia|done|lia|].
  symmetry. apply map_id_in. intros a _. unfold doneBefore.
  by destruct (indexOf (id a) (ids all)).
Qed.


(** The registry invariant holds in every state of a validation run,
    whatever the lookups return and whatever the user deletes meanwhile. *)
Theorem validation_preserves_wf all c c' :
  star (v_step all) c c' -> registry_wf (accounts (snd c)) -> registry_wf (accounts (snd c')).
Proof.
  intros Hrun Hwf0.
  eapply (star_invariant _ (fun c => registry_wf (accounts (snd c)))); [|exact Hrun|exact Hwf0].
  intros a b Hstep Hwf. destruct Hstep as [i p acc o s s' pc' E|i p s s' pc' E|pc aid s Hd]; simpl in *.
  - pose proof (v_resume_out all (VFetch i p acc) o s ltac:(discriminate)) as Hout.
    simpl in Hout. rewrite E in Hout. by apply Hout.
  - pose proof (v_resume_out all (VSleep i p) (NetworkFailure "") s ltac:(discriminate)) as Hout.
    simpl in Hout. rewrite E in Hout. by apply Hout.
  - by apply deleteAccount_wf.
Qed.

(** C8: the batch always finishes: for every outcome of the lookups and
    every schedule of deletions, [2 * length accountsToValidate]
    resumptions are enough for the loop to return, and when it returns the
    cancellation set is empty. *)
Theorem validateRun_terminates all oracle deletes s :
  exists s', validateRun (2 * length all) all oracle deletes s = Some s' /\
             cancelledIds s' = ∅.
Proof.
  unfold validateRun, validateAccounts.
  pose proof (v_scan_from_measure all 0 0 s) as [Hok Hm].
  pose proof (v_scan_out all all 0 0 s) as Hout. change (skipn 0 all) with all in Hok, Hm.
  destruct (v_scan all all 0 0 s) as [s1 pc1]. simpl in Hok, Hm.
  destruct Hout as (_ & _ & Hd & _).
  apply run_validate_some; [done|lia|done].
Qed.

(** ** Witnesses and scenarios *)

(** Take one step of the engine that needs no input from the user. *)
Ltac v_exec := eapply star_step; [first [eapply vs_fetch | eapply vs_sleep]; reflexivity|].

Lemma validation_skips_cancelled_witness :
  VSleep 0 1 <> VDone /\ isCancelled (deleteAccount "2" (emptyHook three)) "2" = true /\
  findAccount "2" (accounts (fst (v_resume three (VSleep 0 1) profileMissing
                                     (deleteAccount "2" (emptyHook three))))) =
  findAccount "2" (accounts (deleteAccount "2" (emptyHook three))).
Proof.
  assert (H : isCancelled (deleteAccount "2" (emptyHook three)) "2" = true) by reflexivity.
  split; [discriminate|split; [exact H|]].
  exact (proj1 (validation_skips_cancelled three (VSleep 0 1) profileMissing _ "2"
                  ltac:(discriminate) H)).
Defined.

Lemma validation_deletion_final_witness :
  VFetch 1 2 acc2 <> VDone /\ "2" ∉ ids (accounts (deleteAccount "2" (emptyHook three))).
Proof.
  split; [discriminate|].
  exact (proj1 (validation_deletion_final three (VFetch 1 2 acc2) (emptyHook three) "2"
                  (VFetch 1 2 acc2) (deleteAccount "2" (emptyHook three))
                  ltac:(discriminate) (star_refl _ _))).
Defined.

Lemma validation_results_witness :
  NoDup (ids three) /\ cancelledIds (emptyHook three) = ∅ /\
  option_map (List.map (fun a => (id a, status a, isValidated a)))
    (option_map accounts
       (validateRun (2 * length three) three (fun i _ => if Nat.eqb i 1 then profileMissing
                                                          else profileFound (sampleInfo 1))
          (fun _ => []) (emptyHook three))) =
  Some [("1", idle, true); ("2", error, false); ("3", idle, true)].
Proof.
  assert (H1 : NoDup (ids three)) by (apply NoDup_ListNoDup; repeat constructor; simpl; intuition discriminate).
  assert (H2 : cancelledIds (emptyHook three) = ∅) by reflexivity.
  split; [exact H1|split; [exact H2|]].
  rewrite (validation_results three _ (emptyHook three) H1 H2). vm_compute. reflexivity.
Defined.

(** Scenario D of the specification: three accounts validated with the
    user deleting the second one while its lookup is in flight; the
    registry ends with the first and third accounts, both validated. *)
Example validation_scenario_D :
  option_map (List.map (fun a => (id a, status a, isValidated a)))
    (option_map accounts
       (validateRun 6 three (fun i _ => profileFound (sampleInfo (Z.of_nat i)))
          (fun k => if Nat.eqb k 2 then ["2"] else []) (emptyHook three))) =
  Some [("1", idle, true); ("3", idle, true)].
Proof. vm_compute. reflexivity. Qed.

(** The progress message can count more accounts than its total: the
    running count [processed] includes accounts deleted after they were
    processed, while the total excludes them.  Deleting the first of three
    accounts after its lookup shows "3/2" on the third. *)
Example validation_progress_exceeds_total :
  exists s',
    star (v_step three)
      (snd (validateAccounts three (emptyHook three)), fst (validateAccounts three (emptyHook three)))
      (VFetch 2 3 acc3, s') /\
    option_map lastResult (findAccount "3" (accounts s')) = Some (Some (progressText 3 2)).
Proof.
  eexists. split.
  - eapply star_step; [eapply vs_fetch with (o := profileFound (sampleInfo 1)); reflexivity|].
    eapply star_step; [apply (vs_delete _ _ "1"); discriminate|].
    v_exec.
    eapply star_step; [eapply vs_fetch with (o := profileFound (sampleInfo 2)); reflexivity|].
    v_exec. apply star_refl.
  - vm_compute. reflexivity.
Qed.
