(* ===== verification/Redemption.v ===== *)
(** * Redemption: the gift-code round [submitGiftCodeToAccounts]

    [submitGiftCodeToAccounts] of src/src/hooks/useAccountActions.ts, by
    its suspension points as in Validation.v: [RFetch i acc] awaits the
    fresh profile lookup of the [i]-th validated account, [RSubmit i acc]
    awaits [submitGiftCode], [RSleep i] awaits the delay after the [i]-th
    account, [RTick] is the pending [setTimeout(() =>
    setProcessingRemaining(0), 0)] after the loop, and [RDone] is the
    finished round.  The loop runs over [validatedAccounts], the validated
    accounts of the render-time snapshot [accounts] the callback closed
    over; the round's [code] is sent with every redemption.

    [r_step] interleaves the engine with the user's deletions, as [v_step]
    does for validation; [run_redeem] is an executable run. *)

From Stdlib Require Import List ZArith String Bool Lia.
From stdpp Require Import base gmap strings list.
From S2P Require Import Prelude Types Api Registry Samples.
Import ListNotations.
Open Scope string_scope.

Inductive RPc :=
| RFetch (i : nat) (acc : Account)
| RSubmit (i : nat) (acc : Account)
| RSleep (i : nat)
| RTick
| RDone.

(** [accounts.filter((account) => account.isValidated)] *)
Definition validatedOf (snapshot : list Account) : list Account :=
  List.filter isValidated snapshot.

(** [setProcessingRemaining((prev) => prev !== null ? Math.max(prev - 1, 0) : 0)] *)
Definition decrementRemaining (s : HookState) : HookState :=
  setProcessingRemaining (fun prev =>
    match prev with
    | Some p => Some (Z.max (p - 1) 0)
    | None => Some 0%Z
    end) s.

(** The head of the [for] loop at index [i]: mark the account as
    processing and start the fresh lookup; after the last index, clear
    [isProcessing] and schedule the final reset of the counter. *)
Definition r_head (validatedAccounts : list Account) (i : nat) (s : HookState)
    : HookState * RPc :=
  match nth_error validatedAccounts i with
  | Some account =>
      (setAccounts (updateAccountStatus (id account) processing
                      (Some (Tr "messages.accountQuerying" [])) None) s,
       RFetch i account)
  | None => (setIsProcessing false s, RTick)
  end.

(** The end of an iteration: wait unless this was the last index. *)
Definition r_next (validatedAccounts : list Account) (i : nat) (s : HookState)
    : HookState * RPc :=
  if Nat.ltb i (length validatedAccounts - 1) then (s, RSleep i)
  else r_head validatedAccounts (S i) s.

(** The outcome of the redemption attempt for [account], then the
    decrement and the end of the iteration. *)
Definition r_settle (validatedAccounts : list Account) (i : nat) (account : Account)
    (r : Result GiftCodeResponse) (s : HookState) : HookState * RPc :=
  let s1 :=
    match r with
    | inl _ =>
        setAccounts (updateAccountStatus (id account) success
                       (Some (Tr "messages.redeemSuccess" [])) None) s
    | inr e =>
        setAccounts (updateAccountStatus (id account) error
                       (Some (redeemErrorMessage e)) None) s
    end in
  r_next validatedAccounts i (decrementRemaining s1).

(** Resuming from the fresh lookup.  On failure: record the classified
    error, decrement, and go on.  On success: store the fresh profile and
    submit (the [!account.isValidated] guard throws before the call; the
    profile is an object, so [!refreshedInfo] never holds). *)
Definition r_after_fetch (validatedAccounts : list Account) (i : nat) (account : Account)
    (o : FetchOutcome PlayerInfoResponse) (s : HookState) : HookState * RPc :=
  match fetchPlayerInfo o with
  | inr infoErr =>
      let infoErrorMessage := lookupErrorMessage (Tr "messages.validationFailed" []) infoErr in
      let s1 := setAccounts (updateAccountStatus (id account) error
                               (Some infoErrorMessage) None) s in
      r_next validatedAccounts i (decrementRemaining s1)
  | inl refreshedInfo =>
      let s1 := setAccounts (updateAccountStatus (id account) processing None
                               (Some refreshedInfo)) s in
      if negb (isValidated account) then
        r_settle validatedAccounts i account
          (inr (PlainError (Tr "messages.accountNotValidated" []))) s1
      else (s1, RSubmit i account)
  end.

Definition r_after_submit (validatedAccounts : list Account) (i : nat) (account : Account)
    (o : FetchOutcome GiftCodeResponse) (s : HookState) : HookState * RPc :=
  r_settle validatedAccounts i account (submitGiftCode o) s.

Definition r_after_sleep (validatedAccounts : list Account) (i : nat) (s : HookState)
    : HookState * RPc :=
  r_head validatedAccounts (S i) s.

(** [setTimeout(() => setProcessingRemaining(0), 0)] fires. *)
Definition r_tick (s : HookState) : HookState * RPc :=
  (setProcessingRemaining (fun _ => Some 0%Z) s, RDone).

(** The call, up to its first suspension: the two guards with their
    warnings, the reset of the last round's results over the whole
    registry, the flags, and the first iteration. *)
Definition submitGiftCodeToAccounts (snapshot : list Account) (s : HookState)
    : HookState * RPc :=
  if Nat.eqb (length snapshot) 0 then
    (onShowAlert (Tr "messages.needAddAccount" []) alert_warning s, RDone)
  else
    let validatedAccounts := validatedOf snapshot in
    if Nat.eqb (length validatedAccounts) 0 then
      (onShowAlert (Tr "messages.noValidatedAccounts" []) alert_warning s, RDone)
    else
      let s1 := setAccounts resetRoundResults s in
      let s2 := setIsProcessing true s1 in
      let s3 := setProcessingRemaining
                  (fun _ => Some (Z.of_nat (length validatedAccounts))) s2 in
      r_head validatedAccounts 0 s3.

(** ** Interleaving with the user's deletions *)

Inductive r_step (vs : list Account) : RPc * HookState -> RPc * HookState -> Prop :=
| rs_fetch i acc o s s' pc' :
    r_after_fetch vs i acc o s = (s', pc') -> r_step vs (RFetch i acc, s) (pc', s')
| rs_submit i acc o s s' pc' :
    r_after_submit vs i acc o s = (s', pc') -> r_step vs (RSubmit i acc, s) (pc', s')
| rs_sleep i s s' pc' :
    r_after_sleep vs i s = (s', pc') -> r_step vs (RSleep i, s) (pc', s')
| rs_tick s s' pc' :
    r_tick s = (s', pc') -> r_step vs (RTick, s) (pc', s')
| rs_delete pc aid s :
    pc <> RDone -> r_step vs (pc, s) (pc, deleteAccount aid s).

(** ** Executable runs *)

(** [lookup i acc] and [redeem accountNumber code] are the outcomes of the
    two remote calls; [deletes k] the ids deleted at the [k]-th suspension. *)
Definition r_resume (vs : list Account) (code : string)
    (lookup : nat -> Account -> FetchOutcome PlayerInfoResponse)
    (redeem : string -> string -> FetchOutcome GiftCodeResponse)
    (pc : RPc) (s : HookState) : HookState * RPc :=
  match pc with
  | RFetch i acc => r_after_fetch vs i acc (lookup i acc) s
  | RSubmit i acc => r_after_submit vs i acc (redeem (accountNumber acc) code) s
  | RSleep i => r_after_sleep vs i s
  | RTick => r_tick s
  | RDone => (s, RDone)
  end.

Fixpoint run_redeem (fuel : nat) (vs : list Account) (code : string)
    (lookup : nat -> Account -> FetchOutcome PlayerInfoResponse)
    (redeem : string -> string -> FetchOutcome GiftCodeResponse)
    (deletes : nat -> list string) (k : nat) (pc : RPc) (s : HookState)
    : option HookState :=
  match pc with
  | RDone => Some s
  | _ =>
      match fuel with
      | 0 => None
      | S fuel' =>
          let s0 := fold_left (fun st aid => deleteAccount aid st) (deletes k) s in
          let '(s1, pc1) := r_resume vs code lookup redeem pc s0 in
          run_redeem fuel' vs code lookup redeem deletes (S k) pc1 s1
      end
  end.

(** A whole round started from the current registry. *)
Definition redeemRun (fuel : nat) (code : string)
    (lookup : nat -> Account -> FetchOutcome PlayerInfoResponse)
    (redeem : string -> string -> FetchOutcome GiftCodeResponse)
    (deletes : nat -> list string) (s : HookState) : option HookState :=
  let '(s1, pc1) := submitGiftCodeToAccounts (accounts s) s in
  run_redeem fuel (validatedOf (accounts s)) code lookup redeem deletes 0 pc1 s1.

(** ** The round's progress: counter, flag and measure *)

(** Accounts of the round already settled when the engine is at [pc]. *)
Definition r_completed (n : nat) (pc : RPc) : nat :=
  match pc with
  | RFetch i _ | RSubmit i _ => i
  | RSleep i => S i
  | RTick | RDone => n
  end.

Definition r_looping (pc : RPc) : bool :=
  match pc with RTick | RDone => false | _ => true end.

Definition r_pc_ok (n : nat) (pc : RPc) : Prop :=
  match pc with
  | RFetch i _ | RSubmit i _ => i < n
  | RSleep i => S i < n
  | RTick | RDone => True
  end.

(** The counter shows the accounts not yet settled, and [isProcessing]
    holds exactly while the loop runs. *)
Definition r_inv (n : nat) (c : RPc * HookState) : Prop :=
  let '(pc, s) := c in
  r_pc_ok n pc /\
  processingRemaining s = Some (Z.of_nat (n - r_completed n pc)) /\
  isProcessing s = r_looping pc.

(** Three units per account (lookup, redemption, delay) and one for the
    final tick. *)
Definition r_measure (n : nat) (pc : RPc) : nat :=
  match pc with
  | RFetch i _ => 3 * (n - i) + 1
  | RSubmit i _ => 3 * (n - i)
  | RSleep i => 3 * (n - i) - 1
  | RTick => 1
  | RDone => 0
  end.

(** [r_ok n s bound r]: the result [r] of running from [s] satisfies the
    invariant and its measure is at most [bound]. *)
Definition r_ok (n : nat) (bound : nat) (r : HookState * RPc) : Prop :=
  r_inv n (snd r, fst r) /\ r_measure n (snd r) <= bound.

Lemma r_head_ok vs i s :
  i <= length vs ->
  processingRemaining s = Some (Z.of_nat (length vs - i)) -> isProcessing s = true ->
  r_ok (length vs) (3 * (length vs - i) + 1) (r_head vs i s).
Proof.
  intros Hi Hr Hp. unfold r_head, r_ok.
  destruct (nth_error vs i) as [a|] eqn:E; simpl.
  - assert (i < length vs) by (apply nth_error_Some; congruence).
    split; [|lia]. split; [lia|done].
  - apply nth_error_None in E. split; [|lia]. split; [done|].
    rewrite Hr. split; [do 2 f_equal; lia|done].
Qed.

Lemma decrementRemaining_step s n i :
  i < n -> processingRemaining s = Some (Z.of_nat (n - i)) ->
  processingRemaining (decrementRemaining s) = Some (Z.of_nat (n - S i)).
Proof. intros Hi Hr. simpl. rewrite Hr. f_equal. lia. Qed.

Lemma r_next_ok vs i s :
  i < length vs ->
  processingRemaining s = Some (Z.of_nat (length vs - S i)) -> isProcessing s = true ->
  r_ok (length vs) (3 * (length vs - i) - 1) (r_next vs i s).
Proof.
  intros Hi Hr Hp. unfold r_next. destruct (Nat.ltb_spec i (length vs - 1)).
  - unfold r_ok; simpl. split; [|lia]. split; [lia|]. by rewrite Hr.
  - destruct (r_head_ok vs (S i) s) as [Hinv Hm]; [lia|done|done|].
    split; [done|lia].
Qed.

Lemma r_settle_ok vs i acc r s :
  i < length vs ->
  processingRemaining s = Some (Z.of_nat (length vs - i)) -> isProcessing s = true ->
  r_ok (length vs) (3 * (length vs - i) - 1) (r_settle vs i acc r s).
Proof.
  intros Hi Hr Hp. unfold r_settle. apply r_next_ok; [done| |by destruct r].
  apply decrementRemaining_step; [done|]. by destruct r.
Qed.

Lemma r_resume_ok vs code lookup redeem pc s :
  pc <> RDone -> r_inv (length vs) (pc, s) ->
  r_ok (length vs) (r_measure (length vs) pc - 1) (r_resume vs code lookup redeem pc s).
Proof.
  intros Hd (Hok & Hr & Hp).
  destruct pc as [i acc|i acc|i| |]; simpl in Hok, Hr, Hp |- *; try done.
  - unfold r_after_fetch. destruct (fetchPlayerInfo _).
    + destruct (isValidated acc); simpl.
      * unfold r_ok; simpl. split; [|lia]. split; [done|]. by rewrite Hr.
      * destruct (r_settle_ok vs i acc (inr (PlainError (Tr "messages.accountNotValidated" [])))
          (setAccounts (updateAccountStatus (id acc) processing None (Some p)) s));
          [done|done|done|]. split; [done|lia].
    + destruct (r_next_ok vs i (decrementRemaining (setAccounts (updateAccountStatus (id acc)
          error (Some (lookupErrorMessage (Tr "messages.validationFailed" []) e)) None) s)));
        [done|by apply decrementRemaining_step|done|]. split; [done|lia].
  - unfold r_after_submit.
    destruct (r_settle_ok vs i acc (submitGiftCode (redeem (accountNumber acc) code)) s);
      [done|done|done|]. split; [done|lia].
  - unfold r_after_sleep.
    destruct (r_head_ok vs (S i) s); [lia|rewrite Hr; do 2 f_equal; lia|done|].
    split; [done|lia].
  - unfold r_ok; simpl. split; [split; [done|split; [f_equal; lia|done]]|lia].
Qed.

Lemma r_inv_delete n pc aid s : r_inv n (pc, s) -> r_inv n (pc, deleteAccount aid s).
Proof. done. Qed.

Lemma r_step_inv vs c c' : r_step vs c c' -> r_inv (length vs) c -> r_inv (length vs) c'.
Proof.
  intros Hstep Hinv.
  destruct Hstep as [i acc o s s' pc' E|i acc o s s' pc' E|i s s' pc' E|s s' pc' E|pc aid s Hd];
    [| | | |by apply r_inv_delete].
  - pose proof (r_resume_ok vs "" (fun _ _ => o) (fun _ _ => redeemOk) (RFetch i acc) s
                  ltac:(discriminate) Hinv) as [H _]. cbn [r_resume] in H. by rewrite E in H.
  - pose proof (r_resume_ok vs "" (fun _ _ => profileMissing) (fun _ _ => o) (RSubmit i acc) s
                  ltac:(discriminate) Hinv) as [H _]. cbn [r_resume] in H. by rewrite E in H.
  - pose proof (r_resume_ok vs "" (fun _ _ => profileMissing) (fun _ _ => redeemOk) (RSleep i) s
                  ltac:(discriminate) Hinv) as [H _]. cbn [r_resume] in H. by rewrite E in H.
  - pose proof (r_resume_ok vs "" (fun _ _ => profileMissing) (fun _ _ => redeemOk) RTick s
                  ltac:(discriminate) Hinv) as [H _]. cbn [r_resume] in H. by rewrite E in H.
Qed.

Lemma submitGiftCodeToAccounts_started snapshot s :
  validatedOf snapshot <> [] ->
  let r := submitGiftCodeToAccounts snapshot s in
  r_ok (length (validatedOf snapshot)) (3 * length (validatedOf snapshot) + 1) r /\
  fst r = fst (r_head (validatedOf snapshot) 0
                 (setProcessingRemaining (fun _ => Some (Z.of_nat (length (validatedOf snapshot))))
                    (setIsProcessing true (setAccounts resetRoundResults s)))).
Proof.
  intros Hne. unfold submitGiftCodeToAccounts.
  assert (length (validatedOf snapshot) <> 0) as Hl by (destruct (validatedOf snapshot); done).
  assert (length snapshot <> 0) as Hs.
  { unfold validatedOf in Hl. intros E. apply length_zero_iff_nil in E. by subst. }
  apply Nat.eqb_neq in Hl, Hs. rewrite Hs, Hl. split; [|done].
  replace (3 * length (validatedOf snapshot) + 1)
    with (3 * (length (validatedOf snapshot) - 0) + 1) by lia.
  apply r_head_ok; [lia|simpl; do 2 f_equal; lia|done].
Qed.

(** ** Theorems of the redemption engine *)

(** C1: during a round the counter [processingRemaining] equals the
    number of validated accounts not yet settled, whichever branch each
    account took (lookup failure, redemption success, redemption failure)
    and whatever the user deletes meanwhile; [isProcessing] is set exactly
    while the loop runs; at the end of the round the counter is 0. *)
Theorem redemption_counter snapshot s pc s' :
  validatedOf snapshot <> [] ->
  star (r_step (validatedOf snapshot))
    (snd (submitGiftCodeToAccounts snapshot s), fst (submitGiftCodeToAccounts snapshot s))
    (pc, s') ->
  processingRemaining s' =
    Some (Z.of_nat (length (validatedOf snapshot) - r_completed (length (validatedOf snapshot)) pc)) /\
  isProcessing s' = r_looping pc /\
  (pc = RDone -> processingRemaining s' = Some 0%Z).
Proof.
  intros Hne Hrun.
  destruct (submitGiftCodeToAccounts_started snapshot s Hne) as [[Hinv0 _] _].
  assert (Hinv : r_inv (length (validatedOf snapshot)) (pc, s')).
  { eapply star_invariant; [apply r_step_inv|exact Hrun|exact Hinv0]. }
  destruct Hinv as (_ & Hr & Hp). split; [done|split; [done|]].
  intros ->. rewrite Hr. simpl. by rewrite Nat.sub_diag.
Qed.

Lemma r_inv_deletes n pc ds s :
  r_inv n (pc, s) -> r_inv n (pc, fold_left (fun st aid => deleteAccount aid st) ds s).
Proof. revert s. induction ds as [|d ds IH]; intros s H; simpl; [done|]. by apply IH. Qed.

Lemma run_redeem_unfold fuel vs code lookup redeem deletes k pc s :
  pc <> RDone ->
  run_redeem (S fuel) vs code lookup redeem deletes k pc s =
  let s0 := fold_left (fun st aid => deleteAccount aid st) (deletes k) s in
  let '(s1, pc1) := r_resume vs code lookup redeem pc s0 in
  run_redeem fuel vs code lookup redeem deletes (S k) pc1 s1.
Proof. by destruct pc. Qed.

Lemma RPc_done_or pc : pc = RDone \/ pc <> RDone.
Proof. destruct pc; [right|right|right|right|left]; congruence. Qed.

Lemma run_redeem_some fuel vs code lookup redeem deletes k pc s :
  r_inv (length vs) (pc, s) -> r_measure (length vs) pc <= fuel ->
  exists s', run_redeem fuel vs code lookup redeem deletes k pc s = Some s' /\
             processingRemaining s' = Some 0%Z /\ isProcessing s' = false.
Proof.
  revert k pc s. induction fuel as [|fuel IH]; intros k pc s Hinv Hm;
    (destruct (RPc_done_or pc) as [->|Hnd];
     [destruct Hinv as (_ & Hr & Hp); cbn [r_completed] in Hr;
      rewrite Nat.sub_diag in Hr; by exists s|]).
  - exfalso. destruct Hinv as (Hok & _).
    destruct pc; simpl in Hok, Hm; lia || done.
  - rewrite run_redeem_unfold by done. cbv zeta.
    set (s0 := fold_left _ _ _).
    pose proof (r_resume_ok vs code lookup redeem pc s0 Hnd
                  (r_inv_deletes _ _ _ _ Hinv)) as [Hinv1 Hm1].
    destruct (r_resume vs code lookup redeem pc s0) as [s1 pc1].
    apply IH; [done|simpl in Hm1; lia].
Qed.

(** C9: a round always finishes: for all outcomes of the two remote calls
    and every schedule of deletions, [3 * n + 2] resumptions suffice for
    [n] validated accounts; either the call was rejected up front (no
    validated account) or it ends with the counter at 0 and
    [isProcessing] cleared. *)
Theorem redeemRun_terminates code lookup redeem deletes s :
  exists s',
    redeemRun (3 * length (validatedOf (accounts s)) + 2) code lookup redeem deletes s = Some s' /\
    (validatedOf (accounts s) = [] \/
     (processingRemaining s' = Some 0%Z /\ isProcessing s' = false)).
Proof.
  unfold redeemRun. destruct (validatedOf (accounts s)) as [|a l] eqn:Ev.
  - unfold submitGiftCodeToAccounts. rewrite Ev. simpl.
    destruct (Nat.eqb _ 0); simpl; eexists; split; [reflexivity|by left|reflexivity|by left].
  - assert (Hne : validatedOf (accounts s) <> []) by (by rewrite Ev).
    destruct (submitGiftCodeToAccounts_started (accounts s) s Hne) as [[Hinv Hm] _].
    rewrite Ev in Hinv, Hm.
    destruct (submitGiftCodeToAccounts (accounts s) s) as [s1 pc1]. simpl in Hinv, Hm.
    destruct (run_redeem_some (3 * length (a :: l) + 2) (a :: l) code lookup redeem deletes 0 pc1 s1)
      as (s' & E & H); [done|simpl in *; lia|].
    exists s'. split; [done|by right].
Qed.

(** C10: with no validated account the round is rejected before any
    network call: the only effect is one warning ([needAddAccount] for an
    empty registry, [noValidatedAccounts] otherwise); the registry, the
    flags and the counter are unchanged. *)
Theorem redemption_rejected_without_validated snapshot s :
  validatedOf snapshot = [] ->
  submitGiftCodeToAccounts snapshot s =
  (onShowAlert (if Nat.eqb (length snapshot) 0 then Tr "messages.needAddAccount" []
              else Tr "messages.noValidatedAccounts" []) alert_warning s, RDone).
Proof.
  intros Hv. unfold submitGiftCodeToAccounts. rewrite Hv.
  by destruct (Nat.eqb (length snapshot) 0).
Qed.

Lemma updateAccountStatus_processing_clean aid lr pi l :
  Forall (fun a => round_result (status a) = false) l ->
  Forall (fun a => round_result (status a) = false) (updateAccountStatus aid processing lr pi l).
Proof.
  intros H. apply Forall_map. eapply Forall_impl; [exact H|]. intros a Ha.
  by destruct (negb _).
Qed.

(** C4: every round starts from a clean slate: right after the call has
    started, no account of the whole registry is left in [success] or
    [error] from an earlier round. *)
Theorem redemption_round_starts_clean snapshot s :
  validatedOf snapshot <> [] ->
  Forall (fun a => round_result (status a) = false)
    (accounts (fst (submitGiftCodeToAccounts snapshot s))).
Proof.
  intros Hne. destruct (submitGiftCodeToAccounts_started snapshot s Hne) as [_ ->].
  unfold r_head. destruct (nth_error _ 0); simpl;
    [apply updateAccountStatus_processing_clean|]; apply resetRoundResults_clean.
Qed.

(** The loop's control flow does not depend on the hook's state. *)
Lemma r_head_pc vs i s1 s2 : snd (r_head vs i s1) = snd (r_head vs i s2).
Proof. unfold r_head. by destruct (nth_error vs i). Qed.

Lemma r_next_pc vs i s1 s2 : snd (r_next vs i s1) = snd (r_next vs i s2).
Proof. unfold r_next. destruct (Nat.ltb _ _); [done|apply r_head_pc]. Qed.

Lemma r_settle_pc vs i acc r s1 s2 :
  snd (r_settle vs i acc r s1) = snd (r_settle vs i acc r s2).
Proof. apply r_next_pc. Qed.

(** No step of the round writes the cancellation set. *)
Lemma r_head_cancelled vs i s : cancelledIds (fst (r_head vs i s)) = cancelledIds s.
Proof. unfold r_head. by destruct (nth_error vs i). Qed.

Lemma r_next_cancelled vs i s : cancelledIds (fst (r_next vs i s)) = cancelledIds s.
Proof. unfold r_next. destruct (Nat.ltb _ _); [done|apply r_head_cancelled]. Qed.

Lemma r_settle_cancelled vs i acc r s :
  cancelledIds (fst (r_settle vs i acc r s)) = cancelledIds s.
Proof. unfold r_settle. rewrite r_next_cancelled. by destruct r. Qed.

(** C22: the redemption engine does not consult the cancellation set or
    the registry to decide what to do next: from any suspension, the next
    one (which account is looked up, which code is submitted, whether the
    loop waits or ends) is the same whatever the hook's state, in
    particular whatever the user deleted meanwhile; and the round never
    writes the cancellation set.  So an account deleted during a round is
    still looked up and its code still submitted. *)
Theorem redemption_ignores_cancellation vs code lookup redeem pc s1 s2 :
  snd (r_resume vs code lookup redeem pc s1) = snd (r_resume vs code lookup redeem pc s2) /\
  cancelledIds (fst (r_resume vs code lookup redeem pc s1)) = cancelledIds s1.
Proof.
  destruct pc as [i acc|i acc|i| |]; simpl; [|split; [apply r_settle_pc|apply r_settle_cancelled]
    |split; [apply r_head_pc|apply r_head_cancelled]|done|done].
  unfold r_after_fetch. destruct (fetchPlayerInfo _) as [info|e].
  - destruct (negb (isValidated acc)); [split; [apply r_settle_pc|]|done].
    by rewrite r_settle_cancelled.
  - split; [apply r_next_pc|]. by rewrite r_next_cancelled.
Qed.

(** ** Witnesses and scenarios *)

Lemma redemption_counter_witness :
  validatedOf twoValidated <> [] /\
  processingRemaining (fst (submitGiftCodeToAccounts twoValidated (emptyHook twoValidated))) =
  Some 2%Z.
Proof.
  assert (Hne : validatedOf twoValidated <> []) by discriminate.
  split; [exact Hne|].
  exact (proj1 (redemption_counter twoValidated (emptyHook twoValidated) (RFetch 0 val1)
                  (fst (submitGiftCodeToAccounts twoValidated (emptyHook twoValidated)))
                  Hne (star_refl _ _))).
Defined.

Lemma redemption_rejected_witness :
  validatedOf [acc1] = [] /\
  submitGiftCodeToAccounts [acc1] (emptyHook [acc1]) =
  (onShowAlert (Tr "messages.noValidatedAccounts" []) alert_warning (emptyHook [acc1]), RDone).
Proof.
  assert (H : validatedOf [acc1] = []) by reflexivity.
  split; [exact H|exact (redemption_rejected_without_validated [acc1] (emptyHook [acc1]) H)].
Defined.

Lemma redemption_round_starts_clean_witness :
  validatedOf twoValidated <> [] /\
  Forall (fun a => round_result (status a) = false)
    (accounts (fst (submitGiftCodeToAccounts twoValidated
                      (emptyHook [mkAccount "1" "1001" success None (Some (sampleInfo 1)) true;
                                  val2])))).
Proof.
  assert (Hne : validatedOf twoValidated <> []) by discriminate.
  split; [exact Hne|exact (redemption_round_starts_clean twoValidated _ Hne)].
Defined.

(** Scenario C of the specification: code "GIFT1" over "1001" (already
    claimed) and "1002" (redeemed): final statuses error and success, the
    already-claimed message on "1001", and the counter at 0. *)
Example redemption_scenario_C :
  option_map (fun s => (List.map (fun a => (accountNumber a, status a, lastResult a)) (accounts s),
                        processingRemaining s, isProcessing s))
    (redeemRun 8 "GIFT1" (fun i _ => profileFound (sampleInfo 5))
       (fun n _ => if String.eqb n "1001" then redeemClaimed else redeemOk)
       (fun _ => []) (emptyHook twoValidated)) =
  Some ([("1001", error, Some (tApi "giftCode.alreadyClaimed" (Lit "已經領過此禮包碼") []));
         ("1002", success, Some (Tr "messages.redeemSuccess" []))], Some 0%Z, false).
Proof. vm_compute. reflexivity. Qed.

(** Scenario E: no validated account, one warning, nothing else. *)
Example redemption_scenario_E :
  redeemRun 8 "GIFT1" (fun _ _ => profileMissing) (fun _ _ => redeemOk) (fun _ => [])
    (emptyHook [acc1; acc2]) =
  Some (onShowAlert (Tr "messages.noValidatedAccounts" []) alert_warning (emptyHook [acc1; acc2])).
Proof. vm_compute. reflexivity. Qed.
