(* ===== verification/AddAccount.v ===== *)
(** * AddAccount: adding one account ([addAccount] of useAccountActions.ts)

    [addAccount(accountNumber, { silent })] checks the number against the
    accounts of the render the callback closed over ([snapshot]), appends a
    temporary account in [validating] whose id is [Date.now().toString()]
    ([pretty now]), suspends in [fetchPlayerInfo], and then either promotes
    the account to [idle] with its profile or removes it.  [APc] is the
    suspension point; [ADone b] is the returned promise value. *)

From Stdlib Require Import List ZArith String Bool Lia.
From stdpp Require Import base gmap strings list pretty.
From S2P Require Import Prelude Types Api Registry Samples.
Import ListNotations.
Open Scope string_scope.

Inductive APc :=
| AFetch (tempId accountNumber : string) (silent : bool)
| ADone (result : bool).

(** The temporary account [tempAccount]. *)
Definition tempAccount (accountNumber_ : string) (now : N) : Account :=
  {| id := pretty now; accountNumber := accountNumber_; status := validating;
     lastResult := Some (Tr "messages.accountQuerying" []); playerInfo := None;
     isValidated := false |}.

(** The first half, up to [await fetchPlayerInfo(accountNumber)]. *)
Definition addAccount (snapshot : list Account) (accountNumber_ : string) (silent : bool)
    (now : N) (s : HookState) : HookState * APc :=
  if existsb (fun a => String.eqb (accountNumber a) accountNumber_) snapshot then
    ((if silent then s
      else onShowAlert (Tr "messages.accountExists" [("account", Lit accountNumber_)])
             alert_warning s),
     ADone false)
  else
    let temp := tempAccount accountNumber_ now in
    (setAccounts (appendAccount temp) s, AFetch (id temp) accountNumber_ silent).

(** The second half, resuming with the outcome of the lookup. *)
Definition add_after_fetch (tempId accountNumber_ : string) (silent : bool)
    (o : FetchOutcome PlayerInfoResponse) (s : HookState) : HookState * APc :=
  match fetchPlayerInfo o with
  | inl info => (setAccounts (updateAccountStatus tempId idle None (Some info)) s, ADone true)
  | inr e =>
      let errorMessage := lookupErrorMessage (Tr "messages.queryFailed" []) e in
      let s1 := setAccounts (removeAccount tempId) s in
      ((if silent then s1
        else onShowAlert (Tr "messages.accountAddFailed"
                          [("account", Lit accountNumber_); ("error", errorMessage)])
               alert_error s1),
       ADone false)
  end.

(** A whole call with nothing interleaved: the snapshot is the current
    registry and the lookup returns [o]. *)
Definition addAccountRun (accountNumber_ : string) (silent : bool) (now : N)
    (o : FetchOutcome PlayerInfoResponse) (s : HookState) : HookState * bool :=
  match addAccount (accounts s) accountNumber_ silent now s with
  | (s1, AFetch tid n sil) =>
      match add_after_fetch tid n sil o s1 with
      | (s2, ADone b) => (s2, b)
      | (s2, AFetch _ _ _) => (s2, false)
      end
  | (s1, ADone b) => (s1, b)
  end.

Definition existsNumber (n : string) (l : list Account) : bool :=
  existsb (fun a => String.eqb (accountNumber a) n) l.

Lemma existsNumber_false n l : existsNumber n l = false -> n ∉ numbers l.
Proof.
  intros H Hin. apply list_elem_of_In, in_map_iff in Hin as (a & Ha & Hin).
  assert (existsNumber n l = true) by (apply existsb_exists; exists a; split;
    [done|by apply String.eqb_eq]). congruence.
Qed.

Lemma setAccounts_id f s : f (accounts s) = accounts s -> setAccounts f s = s.
Proof. intros H. unfold setAccounts. rewrite H. by destruct s. Qed.

Lemma setAccounts_undo f g s :
  f (g (accounts s)) = accounts s -> setAccounts f (setAccounts g s) = s.
Proof. intros H. unfold setAccounts. simpl. rewrite H. by destruct s. Qed.

(** ** Theorems *)

(** C11: one complete [addAccount] with a fresh id: a number already in
    the registry is rejected with a warning (unless silent) and nothing
    changes; otherwise a successful lookup appends the account as [idle],
    validated, with its profile, and a failed lookup leaves no trace in
    the registry and reports the classified error (unless silent). *)
Theorem addAccountRun_spec n silent now o s :
  pretty now ∉ ids (accounts s) ->
  addAccountRun n silent now o s =
  if existsNumber n (accounts s) then
    ((if silent then s
      else onShowAlert (Tr "messages.accountExists" [("account", Lit n)]) alert_warning s), false)
  else
    match fetchPlayerInfo o with
    | inl info =>
        (setAccounts (appendAccount (mkAccount (pretty now) n idle None (Some info) true)) s, true)
    | inr e =>
        ((if silent then s
          else onShowAlert (Tr "messages.accountAddFailed"
                            [("account", Lit n);
                             ("error", lookupErrorMessage (Tr "messages.queryFailed" []) e)])
                 alert_error s), false)
    end.
Proof.
  intros Hfresh. unfold addAccountRun, addAccount. fold (existsNumber n (accounts s)).
  destruct (existsNumber n (accounts s)); [by destruct silent|].
  unfold add_after_fetch. destruct (fetchPlayerInfo o) as [info|e]; simpl.
  - f_equal. unfold setAccounts; simpl. f_equal.
    by rewrite (updateAccountStatus_snoc (pretty now) idle None (Some info) (accounts s)
                  (tempAccount n now)).
  - rewrite setAccounts_undo by (by apply removeAccount_snoc). reflexivity.
Qed.

Lemma addAccountRun_accounts n silent now o s :
  pretty now ∉ ids (accounts s) ->
  accounts (fst (addAccountRun n silent now o s)) = accounts s \/
  (existsNumber n (accounts s) = false /\ exists info,
   accounts (fst (addAccountRun n silent now o s)) =
   appendAccount (mkAccount (pretty now) n idle None (Some info) true) (accounts s)).
Proof.
  intros Hf. unfold addAccountRun, addAccount. fold (existsNumber n (accounts s)).
  destruct (existsNumber n (accounts s)) eqn:E; [left; by destruct silent|].
  unfold add_after_fetch. destruct (fetchPlayerInfo o) as [info|e]; simpl.
  - right. split; [done|]. exists info.
    by rewrite (updateAccountStatus_snoc (pretty now) idle None (Some info) (accounts s)
                  (tempAccount n now)).
  - left. destruct silent; simpl; by apply removeAccount_snoc.
Qed.

Lemma addAccountRun_wf n silent now o s :
  registry_wf (accounts s) -> pretty now ∉ ids (accounts s) ->
  registry_wf (accounts (fst (addAccountRun n silent now o s))).
Proof.
  intros W Hf. destruct (addAccountRun_accounts n silent now o s Hf) as [->|[E [info ->]]];
    [done|].
  apply appendAccount_wf; [done|by apply existsNumber_false|done|]. intros _. by eexists.
Qed.

Lemma addAccountRun_added n silent now o info s :
  pretty now ∉ ids (accounts s) -> existsNumber n (accounts s) = false ->
  fetchPlayerInfo o = inl info ->
  accounts (fst (addAccountRun n silent now o s)) =
  appendAccount (mkAccount (pretty now) n idle None (Some info) true) (accounts s).
Proof.
  intros Hf Hn Ho. unfold addAccountRun, addAccount. fold (existsNumber n (accounts s)).
  rewrite Hn. unfold add_after_fetch. rewrite Ho. simpl.
  by rewrite (updateAccountStatus_snoc (pretty now) idle None (Some info) (accounts s)
                (tempAccount n now)).
Qed.

(** The user's requests, each awaited before the next one starts (so each
    call sees the current registry). *)
Fixpoint addSequence (reqs : list (string * bool * N * FetchOutcome PlayerInfoResponse))
    (s : HookState) : HookState :=
  match reqs with
  | [] => s
  | (n, silent, now, o) :: rest => addSequence rest (fst (addAccountRun n silent now o s))
  end.

Definition req_id (r : string * bool * N * FetchOutcome PlayerInfoResponse) : string :=
  let '(_, _, now, _) := r in pretty now.

(** C3: over any sequence of awaited [addAccount] calls whose clock
    readings give distinct new ids, the registry invariant holds
    throughout: in particular no two accounts ever share an account number. *)
Theorem addSequence_wf reqs s :
  registry_wf (accounts s) ->
  NoDup (List.map req_id reqs) ->
  (forall r, In r reqs -> req_id r ∉ ids (accounts s)) ->
  registry_wf (accounts (addSequence reqs s)).
Proof.
  revert s. induction reqs as [|[[[n silent] now] o] reqs IH]; intros s W Hnd Hf; [done|].
  simpl in Hnd. apply NoDup_cons in Hnd as [Hhd Hnd]. simpl.
  assert (Hnow : pretty now ∉ ids (accounts s)) by (apply (Hf (n, silent, now, o)); by left).
  apply IH; [by apply addAccountRun_wf|done|].
  intros r Hr Hin. destruct (addAccountRun_accounts n silent now o s Hnow) as [E|[_ [info E]]];
    rewrite E in Hin.
  - by apply (Hf r); [right|].
  - unfold ids, appendAccount in Hin. rewrite map_app in Hin. simpl in Hin.
    apply elem_of_app in Hin as [Hin|Hin]; [by apply (Hf r); [right|]|].
    apply list_elem_of_singleton in Hin. apply Hhd. rewrite <- Hin.
    apply list_elem_of_In, in_map. done.
Qed.

(** ** Witnesses, scenarios and findings *)

Lemma addAccountRun_spec_witness :
  (pretty 1 ∉ ids (accounts (emptyHook []))) /\
  addAccountRun "1001" false 1 profileMissing (emptyHook []) =
  (onShowAlert (Tr "messages.accountAddFailed"
                [("account", Lit "1001"); ("error", Tr "messages.accountNotExists" [])])
     alert_error (emptyHook []), false).
Proof.
  assert (H : pretty 1 ∉ ids (accounts (emptyHook []))) by (simpl; set_solver).
  split; [exact H|]. rewrite (addAccountRun_spec "1001" false 1 profileMissing _ H).
  reflexivity.
Defined.

Lemma addSequence_wf_witness :
  registry_wf (accounts (addSequence [("1001", false, 1%N, profileFound (sampleInfo 1));
                                      ("1002", false, 2%N, profileFound (sampleInfo 2))]
                           (emptyHook []))).
Proof.
  apply addSequence_wf.
  - split; [constructor|split; constructor].
  - apply NoDup_ListNoDup. repeat constructor; simpl; intuition discriminate.
  - intros r _. simpl. set_solver.
Defined.

(** Scenario A: "1001" and "1002" added, both lookups succeed: both end
    [idle] and validated. *)
Example add_scenario_A :
  List.map (fun a => (accountNumber a, status a, isValidated a))
    (accounts (addSequence [("1001", false, 1%N, profileFound (sampleInfo 1));
                            ("1002", false, 2%N, profileFound (sampleInfo 2))] (emptyHook []))) =
  [("1001", idle, true); ("1002", idle, true)].
Proof. vm_compute. reflexivity. Qed.

(** A registry in which [x] occurs twice is not duplicate-free. *)
Lemma not_NoDup_snoc {A} (l : list A) (x : A) : x ∈ l -> ~ NoDup (l ++ [x]).
Proof.
  intros Hin Hnd. apply NoDup_app in Hnd as (_ & Hdis & _).
  by apply (Hdis x); [|apply list_elem_of_singleton].
Qed.

(** Removing an id drops a tail made only of accounts with that id. *)
Lemma removeAccount_tail aid l m :
  aid ∉ ids l -> Forall (fun a => id a = aid) m -> removeAccount aid (l ++ m) = l.
Proof.
  intros Hni Hm. unfold removeAccount. rewrite List.filter_app.
  fold (removeAccount aid l). rewrite removeAccount_missing by done.
  rewrite <- (app_nil_r l) at 2. f_equal.
  induction Hm as [|a m Ha Hm IH]; [done|]. simpl. by rewrite Ha, String.eqb_refl.
Qed.

(** C24: the duplicate check reads the render-time snapshot, not the
    current registry: whenever the snapshot a caller closed over lacks a
    number that the current registry holds (the import's callback,
    captured when the import started, while the user added the number by
    hand), [addAccount] appends a second account with that number, and a
    successful lookup keeps both. *)
Theorem addAccount_stale_snapshot_duplicate snapshot n silent now o info s :
  existsNumber n snapshot = false -> n ∈ numbers (accounts s) ->
  pretty now ∉ ids (accounts s) -> fetchPlayerInfo o = inl info ->
  let s1 := fst (addAccount snapshot n silent now s) in
  ~ NoDup (numbers (accounts s1)) /\
  ~ NoDup (numbers (accounts (fst (add_after_fetch (pretty now) n silent o s1)))).
Proof.
  intros Hsnap Hin Hfresh Hok s1. unfold s1, addAccount. fold (existsNumber n snapshot).
  rewrite Hsnap. simpl. unfold add_after_fetch. rewrite Hok. simpl.
  rewrite (updateAccountStatus_snoc _ _ _ _ _ _ Hfresh) by reflexivity.
  unfold numbers, appendAccount. rewrite !map_app. split; by apply not_NoDup_snoc.
Qed.

(** C25: ids come from [Date.now()].  When two additions of different
    new numbers read the same clock, the second account gets the id of
    the first: if its lookup succeeds both accounts share the id (so the
    registry is no longer keyed by id) and deleting one deletes both; if
    its lookup fails, the cleanup [filter(acc => acc.id !== tempId)] also
    removes the first account, which had been added successfully. *)
Theorem addAccount_same_clock_collision n1 n2 now o1 o2 info1 s :
  n1 <> n2 -> existsNumber n1 (accounts s) = false -> existsNumber n2 (accounts s) = false ->
  pretty now ∉ ids (accounts s) -> fetchPlayerInfo o1 = inl info1 ->
  let s2 := fst (addAccountRun n2 false now o2 (fst (addAccountRun n1 false now o1 s))) in
  ((exists info2, fetchPlayerInfo o2 = inl info2) ->
   ~ NoDup (ids (accounts s2)) /\ accounts (deleteAccount (pretty now) s2) = accounts s) /\
  ((exists e, fetchPlayerInfo o2 = inr e) -> accounts s2 = accounts s).
Proof.
  intros Hne H1 H2 Hfresh Ho1 s2. unfold s2. clear s2.
  set (A1 := mkAccount (pretty now) n1 idle None (Some info1) true).
  assert (E1 : accounts (fst (addAccountRun n1 false now o1 s)) = (accounts s ++ [A1])%list)
    by (apply (addAccountRun_added n1 false now o1 info1 s Hfresh H1 Ho1)).
  generalize dependent (fst (addAccountRun n1 false now o1 s)). intros s1 E1.
  assert (Hx : existsNumber n2 (accounts s1) = false).
  { rewrite E1. unfold existsNumber in *. rewrite existsb_app, H2. simpl.
    by destruct (String.eqb_spec n1 n2). }
  unfold addAccountRun, addAccount. fold (existsNumber n2 (accounts s1)). rewrite Hx.
  unfold add_after_fetch. split.
  - intros [info2 ->]. simpl. rewrite E1. unfold appendAccount. rewrite <- app_assoc.
    unfold updateAccountStatus. rewrite map_app.
    fold (updateAccountStatus (pretty now) idle None (Some info2) (accounts s)).
    rewrite updateAccountStatus_missing by done. simpl. rewrite String.eqb_refl. split.
    + unfold ids. rewrite map_app. simpl. change [?x; ?y] with ([x] ++ [y])%list.
      rewrite app_assoc. apply not_NoDup_snoc, elem_of_app. right.
      by apply list_elem_of_singleton.
    + simpl. apply removeAccount_tail; [done|]. by repeat constructor.
  - intros [e ->]. simpl. rewrite E1. unfold appendAccount. rewrite <- app_assoc.
    apply removeAccount_tail; [done|]. by repeat constructor.
Qed.

Lemma addAccount_stale_snapshot_duplicate_witness :
  let s := fst (addAccountRun "1001" false 1 (profileFound (sampleInfo 1)) (emptyHook [])) in
  let s1 := fst (addAccount [] "1001" true 2 s) in
  ~ NoDup (numbers (accounts s1)) /\
  ~ NoDup (numbers (accounts (fst (add_after_fetch (pretty 2) "1001" true
                                    (profileFound (sampleInfo 2)) s1)))).
Proof.
  apply (addAccount_stale_snapshot_duplicate [] "1001" true 2 (profileFound (sampleInfo 2))
           (sampleInfo 2)); [reflexivity| |apply (bool_decide_unpack _); vm_compute; exact I
           |reflexivity].
  apply (bool_decide_unpack _). vm_compute. exact I.
Defined.

Lemma addAccount_same_clock_collision_witness :
  let s2 := fst (addAccountRun "1002" false 7 profileMissing
                   (fst (addAccountRun "1001" false 7 (profileFound (sampleInfo 1)) (emptyHook [])))) in
  accounts s2 = [].
Proof.
  apply (addAccount_same_clock_collision "1001" "1002" 7 (profileFound (sampleInfo 1))
           profileMissing (sampleInfo 1) (emptyHook [])); try reflexivity.
  - discriminate.
  - simpl. set_solver.
  - by eexists.
Defined.
