(* ===== verification/Hook.v ===== *)
(** * Hook: the interface [useAccountActions] returns

    [useAccountActions] (src/src/hooks/useAccountActions.ts) returns an
    object of state and operations: [accounts], [setAccounts],
    [isProcessing], [processingRemaining], [addAccount], [deleteAccount],
    [validateAccounts], [submitGiftCodeToAccounts], [updateAccountStatus]
    and [updateAccountStatusBatch].  [AccountActions] is that object as a
    record of functions over [HookState]; [useAccountActions] fills it with
    the definitions of the other files.  The async operations are given up
    to their first suspension (their program counters resume them).  The
    callbacks close over the [accounts] of the render they come from; as
    the handlers run in the latest render, that snapshot is the current
    registry here ([AddAccount.v] and [Import.v] model stale snapshots).

    [AccountActionsLaws] states what the callers rely on; the instance for
    [useAccountActions] discharges it, and the client lemma at the end is
    proved from the laws alone. *)

From Stdlib Require Import List ZArith String Bool Lia.
From stdpp Require Import base gmap strings list.
From S2P Require Import Prelude Types Api Registry AddAccount Validation Redemption.
Import ListNotations.
Open Scope string_scope.

Record AccountActions := mkAccountActions {
  aa_accounts : HookState -> list Account;
  aa_setAccounts : (list Account -> list Account) -> HookState -> HookState;
  aa_isProcessing : HookState -> bool;
  aa_processingRemaining : HookState -> option Z;
  aa_addAccount : string -> bool -> N -> HookState -> HookState * APc;
  aa_deleteAccount : string -> HookState -> HookState;
  aa_validateAccounts : list Account -> HookState -> HookState * VPc;
  aa_submitGiftCodeToAccounts : HookState -> HookState * RPc;
  aa_updateAccountStatus :
    string -> AccountStatus -> option Text -> option PlayerInfo -> HookState -> HookState;
  aa_updateAccountStatusBatch : list StatusUpdate -> HookState -> HookState;
}.

(** The object the hook returns. *)
Definition useAccountActions : AccountActions := {|
  aa_accounts := accounts;
  aa_setAccounts := setAccounts;
  aa_isProcessing := isProcessing;
  aa_processingRemaining := processingRemaining;
  aa_addAccount n silent now s := addAccount (accounts s) n silent now s;
  aa_deleteAccount := deleteAccount;
  aa_validateAccounts := validateAccounts;
  aa_submitGiftCodeToAccounts s := submitGiftCodeToAccounts (accounts s) s;
  aa_updateAccountStatus aid st lr pi := setAccounts (updateAccountStatus aid st lr pi);
  aa_updateAccountStatusBatch us := setAccounts (updateAccountStatusBatch us);
|}.

(** What a caller of the hook relies on. *)
Class AccountActionsLaws (A : AccountActions) := {
  law_setAccounts f s : aa_accounts A (aa_setAccounts A f s) = f (aa_accounts A s);
  law_delete aid s :
    aa_accounts A (aa_deleteAccount A aid s) = removeAccount aid (aa_accounts A s);
  law_delete_flag aid s : aa_isProcessing A (aa_deleteAccount A aid s) = aa_isProcessing A s;
  law_update_ids aid st lr pi s :
    ids (aa_accounts A (aa_updateAccountStatus A aid st lr pi s)) = ids (aa_accounts A s);
  law_batch_ids us s :
    ids (aa_accounts A (aa_updateAccountStatusBatch A us s)) = ids (aa_accounts A s);
  law_add_flag n silent now s :
    aa_isProcessing A (fst (aa_addAccount A n silent now s)) = aa_isProcessing A s;
  law_submit_empty s :
    aa_accounts A s = [] ->
    aa_accounts A (fst (aa_submitGiftCodeToAccounts A s)) = [] /\
    aa_isProcessing A (fst (aa_submitGiftCodeToAccounts A s)) = aa_isProcessing A s;
}.

#[export] Instance useAccountActions_laws : AccountActionsLaws useAccountActions.
Proof.
  constructor; simpl; try done.
  - intros. apply updateAccountStatus_ids.
  - intros. by apply map_rewrite_ids, acc_rewrite_batch.
  - intros n silent now s. unfold addAccount. by destruct (existsb _ _); [destruct silent|].
  - intros s E. unfold submitGiftCodeToAccounts. by rewrite E.
Qed.

(** ** A client of the interface *)

Section Client.
Context (A : AccountActions) `{!AccountActionsLaws A}.

(** Once an account is deleted, a status write for its id that arrives
    later (a lookup that raced the deletion) does not bring it back. *)
Lemma deleted_stays_deleted aid st lr pi s :
  aid ∉ ids (aa_accounts A (aa_updateAccountStatus A aid st lr pi (aa_deleteAccount A aid s))).
Proof.
  rewrite law_update_ids, law_delete. intros Hin.
  by destruct (removeAccount_ids _ _ _ Hin).
Qed.
End Client.
