(* ===== verification/Import.v ===== *)
(** * Import: the file import of [AccountManager] ([handleFileChange])

    [handleFileChange] (src/src/components/AccountManager.tsx) checks the
    file, reads it, parses and classifies the lines (FileUtils.v), reports
    invalid, repeated and already registered numbers, and then calls
    [onAddAccount] for each new number in turn, waiting [delayMs] between
    two calls.  [onAddAccount] is [handleAddAccount] of App.tsx, which
    calls the hook's [addAccount] with the account number only: the
    [{ silent: true }] the import passes is dropped.  Both [accounts] (the
    prop the existing numbers are filtered against) and [addAccount]
    belong to the render in which the import started: [snapshot].

    The import's own state is [ImportUI] (its four [useState]s), the hook
    state is shared; [IPc] is the suspension point of the async function,
    [IFrame] its local variables.  [formatFileSize] (floating point
    logarithms) is a parameter of the section.  The sections [Summary]
    and [AlertLog] carry the invariants from which the summary and the
    whole alert log of an import are read off. *)

From Stdlib Require Import List ZArith String Bool Lia.
From stdpp Require Import base gmap strings list pretty.
From S2P Require Import Prelude Types Api Registry Samples FileUtils AddAccount.
Import ListNotations.
Open Scope string_scope.

Record ImportUI := mkImportUI {
  isImporting : bool;
  importErrors : list Text;
  importTotal : Z;
  importRemaining : Z;
}.

Record IState := mkIState { hook : HookState; ui : ImportUI }.

(** The locals of [handleFileChange] that live across the loop. *)
Record IFrame := mkIFrame {
  newAccounts : list string;
  errs : list Text;
  successAdded : nat;
  failedAdded : nat;
}.

Inductive IPc :=
| IRead                                     (* await readTextFile(file) *)
| ICall (i : nat) (n : string) (fr : IFrame) (* about to call onAddAccount *)
| ISleep (i : nat) (n : string) (fr : IFrame) (* await setTimeout(delayMs) *)
| IAdd (i : nat) (fr : IFrame) (a : APc)     (* await onAddAccount(...) *)
| IDone.

(** The outcome of [readTextFile]: [onload] or [onerror]. *)
Inductive ReadOutcome := ReadOk (text : string) | ReadError.

(** [handleAddAccount] of App.tsx: [addAccount(accountNumber)], options
    not forwarded. *)
Definition appHandleAddAccount (snapshot : list Account) (accountNumber_ : string) (now : N)
    (s : HookState) : HookState * APc :=
  addAccount snapshot accountNumber_ false now s.

(** [handleAddAccount] of AccountManager.tsx: the number passed to
    [onAddAccount], if the trimmed input is a non-empty string of digits. *)
Definition isDigit (c : Ascii.ascii) : bool := in_range 48 57 c.

Definition handleAddAccountInput (newAccount : string) : option string :=
  let v := trim newAccount in
  if negb (String.eqb v "") && accountRegexTest v && forallb isDigit (list_ascii_of_string v)
  then Some v else None.

Definition alertI (m : Text) (ty : AlertType) (st : IState) : IState :=
  mkIState (onShowAlert m ty (hook st)) (ui st).

Definition setUI (f : ImportUI -> ImportUI) (st : IState) : IState :=
  mkIState (hook st) (f (ui st)).

(** The [finally] block: [setIsImporting(false)], total and remaining 0. *)
Definition finallyImport (st : IState) : IState :=
  setUI (fun u => mkImportUI false (importErrors u) 0 0) st.

(** The [list] and [more] variables of the three error messages. *)
Definition listVars (xs : list string) (k : nat) : list (string * Text) :=
  [("list", Lit (String.concat ", " (firstn k xs)));
   ("more", if Nat.ltb k (length xs)
            then Tr "messages.moreCount" [("count", Num (Z.of_nat (length xs)))]
            else Lit "")].

Definition importErrorsOf (invalid_ duplicates_ existing : list string) : list Text :=
  (if Nat.ltb 0 (length invalid_)
   then [Tr "messages.importFormatInvalid" (listVars invalid_ 5)] else []) ++
  (if Nat.ltb 0 (length duplicates_)
   then [Tr "messages.importDuplicate" (listVars duplicates_ 3)] else []) ++
  (if Nat.ltb 0 (length existing)
   then [Tr "messages.importExisting" (listVars existing 3)] else []).

Section FileChange.

Variable formatFileSize : Z -> string.

(** Up to [await readTextFile(file)]. *)
Definition handleFileChange (file : FileInfo) (st : IState) : IState * IPc :=
  if negb (isTextFile file) then
    (alertI (Tr "messages.importFileFormatError" []) alert_error st, IDone)
  else if Z.ltb (1024 * 1024) (fsize file) then
    (alertI (Tr "messages.importFileTooLarge" [("size", Lit (formatFileSize (fsize file)))])
       alert_error st, IDone)
  else (setUI (fun _ => mkImportUI true [] 0 0) st, IRead).

End FileChange.

(** After the loop: [setImportErrors(errors)], the summary alert, then
    the [finally] block. *)
Definition import_end (fr : IFrame) (st : IState) : IState * IPc :=
  let st1 := setUI (fun u => mkImportUI (isImporting u) (errs fr) (importTotal u)
                                        (importRemaining u)) st in
  let totalTried := length (newAccounts fr) in
  let st2 :=
    if Nat.eqb totalTried 0 then
      (if Nat.ltb 0 (length (errs fr))
       then alertI (Tr "messages.importAllFailed" []) alert_error st1 else st1)
    else
      alertI (Tr "messages.importSummary"
                [("total", Num (Z.of_nat totalTried));
                 ("success", Num (Z.of_nat (successAdded fr)));
                 ("failed", Num (Z.of_nat (failedAdded fr)))])
        (if Nat.ltb 0 (failedAdded fr) then alert_warning else alert_success) st1 in
  (finallyImport st2, IDone).

(** The head of the [for] loop at index [i]. *)
Definition import_loop_head (i : nat) (fr : IFrame) (st : IState) : IState * IPc :=
  match nth_error (newAccounts fr) i with
  | Some n =>
      if Nat.eqb i 0 then
        (setUI (fun u => mkImportUI (isImporting u) (importErrors u)
                           (Z.of_nat (length (newAccounts fr)))
                           (Z.of_nat (length (newAccounts fr)))) st, ICall 0 n fr)
      else (st, ISleep i n fr)
  | None => import_end fr st
  end.

(** [newAccounts]: the valid numbers not in the snapshot. *)
Definition newAccountsOf (snapshot : list Account) (accountNumbers : list string) : list string :=
  List.filter (fun a => negb (existsNumber a snapshot)) (valid (validateAccountList accountNumbers)).

(** From the file's text to the loop. *)
Definition import_after_read (snapshot : list Account) (o : ReadOutcome) (st : IState)
    : IState * IPc :=
  match o with
  | ReadError =>
      (finallyImport (alertI (Cat (Tr "messages.fileReadError" []) (Lit (": " ++ "檔案讀取失敗")))
                        alert_error st), IDone)
  | ReadOk text =>
      let accountNumbers := parseAccountsFromText text in
      if Nat.eqb (length accountNumbers) 0 then
        (finallyImport (setUI (fun u => mkImportUI false (importErrors u) (importTotal u)
                                          (importRemaining u))
                          (alertI (Tr "messages.importFileEmpty" []) alert_warning st)), IDone)
      else
        let r := validateAccountList accountNumbers in
        let existing := List.filter (fun a => existsNumber a snapshot) (valid r) in
        import_loop_head 0 (mkIFrame (newAccountsOf snapshot accountNumbers)
                              (importErrorsOf (invalid r) (duplicates r) existing) 0 0) st
  end.

(** [const ok = await onAddAccount(accountNumber, { silent: true })]: the
    call, up to the lookup inside [addAccount]. *)
Definition i_call (snapshot : list Account) (i : nat) (n : string) (fr : IFrame) (now : N)
    (st : IState) : IState * IPc :=
  let '(h1, a) := appHandleAddAccount snapshot n now (hook st) in
  (mkIState h1 (ui st), IAdd i fr a).

Definition i_after_fetch (i : nat) (fr : IFrame) (tid n : string) (silent : bool)
    (o : FetchOutcome PlayerInfoResponse) (st : IState) : IState * IPc :=
  let '(h1, a) := add_after_fetch tid n silent o (hook st) in
  (mkIState h1 (ui st), IAdd i fr a).

(** The counters, the [finally] decrement, and the next iteration. *)
Definition i_after_add (i : nat) (fr : IFrame) (ok : bool) (st : IState) : IState * IPc :=
  let fr1 := if ok then mkIFrame (newAccounts fr) (errs fr) (S (successAdded fr)) (failedAdded fr)
             else mkIFrame (newAccounts fr) (errs fr) (successAdded fr) (S (failedAdded fr)) in
  let st1 := setUI (fun u => mkImportUI (isImporting u) (importErrors u) (importTotal u)
                                        (Z.max 0 (importRemaining u - 1))) st in
  import_loop_head (S i) fr1 st1.

(** One resumption; [oracle i] gives the clock reading and the lookup
    outcome of the [i]-th new account. *)
Definition i_resume (snapshot : list Account)
    (oracle : nat -> N * FetchOutcome PlayerInfoResponse) (st : IState) (pc : IPc)
    : IState * IPc :=
  match pc with
  | ICall i n fr => i_call snapshot i n fr (fst (oracle i)) st
  | ISleep i n fr => (st, ICall i n fr)
  | IAdd i fr (AFetch tid n sil) => i_after_fetch i fr tid n sil (snd (oracle i)) st
  | IAdd i fr (ADone b) => i_after_add i fr b st
  | IRead | IDone => (st, pc)
  end.

Fixpoint import_drive (fuel : nat) (snapshot : list Account)
    (oracle : nat -> N * FetchOutcome PlayerInfoResponse) (st : IState) (pc : IPc)
    : IState * IPc :=
  match fuel with
  | O => (st, pc)
  | S f =>
      match pc with
      | IDone => (st, IDone)
      | _ => let '(st1, pc1) := i_resume snapshot oracle st pc in
             import_drive f snapshot oracle st1 pc1
      end
  end.

Definition frame_of (pc : IPc) : option IFrame :=
  match pc with
  | ICall _ _ fr | ISleep _ _ fr | IAdd _ fr _ => Some fr
  | IRead | IDone => None
  end.

(** Four resumptions per new account (delay, call, lookup, counters). *)
Definition import_fuel (pc : IPc) : nat :=
  match frame_of pc with Some fr => 4 * length (newAccounts fr) | None => 0 end.

(** A whole import with nothing interleaved. *)
Definition importRun (formatFileSize : Z -> string) (file : FileInfo) (read : ReadOutcome)
    (oracle : nat -> N * FetchOutcome PlayerInfoResponse) (st : IState) : IState * IPc :=
  let snapshot := accounts (hook st) in
  match handleFileChange formatFileSize file st with
  | (st1, IRead) =>
      let '(st2, pc2) := import_after_read snapshot read st1 in
      import_drive (import_fuel pc2) snapshot oracle st2 pc2
  | r => r
  end.

(** ** Termination *)

Definition i_pc_ok (pc : IPc) : Prop :=
  match pc with
  | ICall i _ fr | ISleep i _ fr | IAdd i fr _ => i < length (newAccounts fr)
  | IDone => True
  | IRead => False
  end.

Definition i_measure (pc : IPc) : nat :=
  match pc with
  | ISleep i _ fr => 4 * (length (newAccounts fr) - i)
  | ICall i _ fr => 4 * (length (newAccounts fr) - i) - 1
  | IAdd i fr (AFetch _ _ _) => 4 * (length (newAccounts fr) - i) - 2
  | IAdd i fr (ADone _) => 4 * (length (newAccounts fr) - i) - 3
  | IRead | IDone => 0
  end.

(** The [finally] block has run. *)
Definition ui_reset (u : ImportUI) : Prop :=
  isImporting u = false /\ importTotal u = 0%Z /\ importRemaining u = 0%Z.

Definition i_ok (bound : nat) (r : IState * IPc) : Prop :=
  i_pc_ok (snd r) /\ i_measure (snd r) <= bound /\ (snd r = IDone -> ui_reset (ui (fst r))).

Lemma import_end_ok fr st : i_ok 0 (import_end fr st).
Proof.
  unfold i_ok, import_end. simpl. split; [done|split; [lia|]]. intros _.
  by repeat destruct (Nat.eqb _ _); repeat destruct (Nat.ltb _ _).
Qed.

Lemma import_loop_head_ok i fr st :
  i_ok (4 * (length (newAccounts fr) - i)) (import_loop_head i fr st).
Proof.
  unfold import_loop_head. destruct (nth_error (newAccounts fr) i) as [n|] eqn:E.
  - assert (i < length (newAccounts fr)) by (apply nth_error_Some; congruence).
    destruct (Nat.eqb_spec i 0) as [->|]; (split; [simpl; lia|split; [simpl; lia|done]]).
  - destruct (import_end_ok fr st) as (H1 & H2 & H3). split; [done|split; [lia|done]].
Qed.

Lemma i_ok_weaken b b' r : b <= b' -> i_ok b r -> i_ok b' r.
Proof. intros ? (? & ? & ?). split; [done|split; [lia|done]]. Qed.

Lemma i_measure_pos pc : i_pc_ok pc -> pc <> IDone -> 0 < i_measure pc.
Proof. destruct pc as [| | |? ? []|]; simpl; intros; lia || done. Qed.

Lemma add_after_fetch_done tid n sil o s : exists b, snd (add_after_fetch tid n sil o s) = ADone b.
Proof. unfold add_after_fetch. destruct (fetchPlayerInfo o); eauto. Qed.

Lemma i_resume_ok snapshot oracle st pc :
  i_pc_ok pc -> pc <> IDone -> i_ok (i_measure pc - 1) (i_resume snapshot oracle st pc).
Proof.
  destruct pc as [|i n fr|i n fr|i fr [tid n sil|b]|]; simpl; intros Hp Hn; try done.
  - unfold i_call, appHandleAddAccount, addAccount.
    destruct (existsb _ _); (split; [simpl; lia|split; [simpl; lia|done]]).
  - unfold i_after_fetch. destruct (add_after_fetch_done tid n sil (snd (oracle i)) (hook st)) as [b E].
    destruct (add_after_fetch _ _ _ _ _) as [h a]. simpl in E. subst a.
    split; [done|split; [simpl; lia|done]].
  - unfold i_after_add. eapply i_ok_weaken; [|apply import_loop_head_ok].
    destruct b; simpl; lia.
Qed.

Lemma import_drive_ok fuel snapshot oracle st pc :
  i_ok fuel (st, pc) -> let r := import_drive fuel snapshot oracle st pc in
  snd r = IDone /\ ui_reset (ui (fst r)).
Proof.
  revert st pc. induction fuel as [|f IH]; intros st pc (Hp & Hm & Hd); simpl in *.
  - destruct pc as [| | | |]; try (by split; [|apply Hd]);
      (pose proof (i_measure_pos _ Hp ltac:(done)); lia).
  - destruct pc as [| | | |]; try (by split; [|apply Hd]);
      (destruct (i_resume _ _ _ _) as [st1 pc1] eqn:E; apply IH;
       eapply i_ok_weaken; [|rewrite <- E; apply i_resume_ok; done]; simpl; simpl in Hm; lia).
Qed.

Lemma import_after_read_ok snapshot o st :
  let r := import_after_read snapshot o st in i_ok (import_fuel (snd r)) r.
Proof.
  unfold import_after_read. destruct o as [text|].
  - destruct (Nat.eqb _ 0).
    + split; [done|split; [simpl; lia|done]].
    + unfold import_loop_head. simpl.
      destruct (newAccountsOf snapshot (parseAccountsFromText text)) as [|n l] eqn:E.
      * match goal with |- i_ok _ (import_end ?fr ?s) =>
          destruct (import_end_ok fr s) as (H1 & H2 & H3) end.
        split; [done|split; [lia|done]].
      * split; [simpl; lia|split; [unfold import_fuel; simpl; lia|done]].
  - split; [done|split; [simpl; lia|done]].
Qed.

Lemma import_drive_preserves (P : IState * IPc -> Prop) fuel snapshot oracle st pc :
  (forall st pc, pc <> IDone -> P (st, pc) -> P (i_resume snapshot oracle st pc)) ->
  P (st, pc) -> P (import_drive fuel snapshot oracle st pc).
Proof.
  intros Hstep. revert st pc. induction fuel as [|f IH]; intros st pc H; [done|]. simpl.
  destruct pc as [| | | |]; try done;
    (destruct (i_resume _ _ _ _) as [st1 pc1] eqn:E; apply IH; rewrite <- E; by apply Hstep).
Qed.

(** ** Counting the outcomes *)

(** Whether the lookup of the [i]-th new account succeeds. *)
Definition ok_at (oracle : nat -> N * FetchOutcome PlayerInfoResponse) (i : nat) : bool :=
  match fetchPlayerInfo (snd (oracle i)) with inl _ => true | inr _ => false end.

Definition okCount (oracle : nat -> N * FetchOutcome PlayerInfoResponse) (i : nat) : nat :=
  length (List.filter (ok_at oracle) (seq 0 i)).

Lemma okCount_S oracle i : okCount oracle (S i) = okCount oracle i + (if ok_at oracle i then 1 else 0).
Proof.
  unfold okCount. rewrite seq_S, List.filter_app, length_app. simpl. by destruct (ok_at oracle i).
Qed.

Lemma okCount_le oracle i : okCount oracle i <= i.
Proof. unfold okCount. rewrite <- (length_seq i 0) at 2. apply List.filter_length_le. Qed.

Lemma add_after_fetch_result tid n sil o s :
  snd (add_after_fetch tid n sil o s) =
  ADone (match fetchPlayerInfo o with inl _ => true | inr _ => false end).
Proof. unfold add_after_fetch. by destruct (fetchPlayerInfo o). Qed.

Lemma newAccountsOf_fresh snapshot l n :
  In n (newAccountsOf snapshot l) -> existsNumber n snapshot = false.
Proof. unfold newAccountsOf. intros [_ H]%filter_In. by apply negb_true_iff. Qed.

Definition summaryAlert (newA : list string) (k : nat) : Text * AlertType :=
  (Tr "messages.importSummary"
     [("total", Num (Z.of_nat (length newA))); ("success", Num (Z.of_nat k));
      ("failed", Num (Z.of_nat (length newA - k)))],
   if Nat.ltb 0 (length newA - k) then alert_warning else alert_success).

Section Summary.

Context (snapshot : list Account) (newA : list string).
Context (oracle : nat -> N * FetchOutcome PlayerInfoResponse).
Hypothesis Hfresh : forall n, In n newA -> existsNumber n snapshot = false.

Definition counts_ok (i : nat) (fr : IFrame) : Prop :=
  newAccounts fr = newA /\ i < length newA /\
  successAdded fr = okCount oracle i /\ failedAdded fr = i - okCount oracle i.

Definition sum_inv (r : IState * IPc) : Prop :=
  match snd r with
  | ICall i n fr | ISleep i n fr => counts_ok i fr /\ nth_error newA i = Some n
  | IAdd i fr (AFetch _ _ _) => counts_ok i fr
  | IAdd i fr (ADone b) => counts_ok i fr /\ b = ok_at oracle i
  | IDone => exists pre, alerts (hook (fst r)) = (pre ++ [summaryAlert newA (okCount oracle (length newA))])%list
  | IRead => False
  end.

Lemma import_end_summary fr st :
  newA <> [] -> newAccounts fr = newA -> successAdded fr = okCount oracle (length newA) ->
  failedAdded fr = length newA - okCount oracle (length newA) ->
  sum_inv (import_end fr st).
Proof.
  intros Hne Hn Hs Hf. unfold import_end, sum_inv. simpl. rewrite Hn, Hs, Hf.
  destruct newA as [|a l]; [done|]. simpl. by eexists.
Qed.

Lemma loop_head_summary i fr st :
  newAccounts fr = newA -> 0 < i <= length newA ->
  successAdded fr = okCount oracle i -> failedAdded fr = i - okCount oracle i ->
  sum_inv (import_loop_head i fr st).
Proof.
  intros Hn Hi Hs Hf. unfold import_loop_head. rewrite Hn.
  destruct (nth_error newA i) as [n|] eqn:E.
  - assert (i < length newA) by (apply nth_error_Some; congruence).
    destruct (Nat.eqb_spec i 0) as [->|]; [lia|]. unfold sum_inv. simpl.
    split; [|done]. repeat split; auto.
  - apply nth_error_None in E. assert (i = length newA) as -> by lia.
    apply import_end_summary; auto. destruct newA; simpl in *; [lia|done].
Qed.

Lemma resume_summary st pc : pc <> IDone -> sum_inv (st, pc) -> sum_inv (i_resume snapshot oracle st pc).
Proof.
  destruct pc as [|i n fr|i n fr|i fr [tid n sil|b]|]; simpl; intros Hn H; try done.
  - destruct H as [Hc E]. unfold i_call, appHandleAddAccount, addAccount.
    fold (existsNumber n snapshot). rewrite (Hfresh n) by (by eapply nth_error_In).
    unfold sum_inv. exact Hc.
  - unfold i_after_fetch. pose proof (add_after_fetch_result tid n sil (snd (oracle i)) (hook st)) as E.
    destruct (add_after_fetch _ _ _ _ _) as [h a]. simpl in E. subst a.
    unfold sum_inv. simpl. split; [done|]. unfold ok_at. done.
  - destruct H as [(Hn' & Hi & Hs & Hf) ->]. unfold i_after_add.
    pose proof (okCount_le oracle i). pose proof (okCount_S oracle i).
    destruct (ok_at oracle i) eqn:E; apply loop_head_summary; simpl; try lia; done.
Qed.

End Summary.

(** ** The alert log of an import *)

(** The alert [addAccount] raises when the lookup of the [i]-th new
    number [n] fails and the call is not silent. *)
Definition failAlert (oracle : nat -> N * FetchOutcome PlayerInfoResponse) (i : nat) (n : string)
    : list (Text * AlertType) :=
  match fetchPlayerInfo (snd (oracle i)) with
  | inl _ => []
  | inr e => [(Tr "messages.accountAddFailed"
                 [("account", Lit n); ("error", lookupErrorMessage (Tr "messages.queryFailed" []) e)],
               alert_error)]
  end.

Fixpoint failAlertsFrom (oracle : nat -> N * FetchOutcome PlayerInfoResponse) (i : nat)
    (l : list string) : list (Text * AlertType) :=
  match l with
  | [] => []
  | n :: l' => (failAlert oracle i n ++ failAlertsFrom oracle (S i) l')%list
  end.

Lemma failAlertsFrom_snoc oracle i l n :
  failAlertsFrom oracle i (l ++ [n])%list = (failAlertsFrom oracle i l ++ failAlert oracle (i + length l) n)%list.
Proof.
  revert i. induction l as [|m l IH]; intros i; simpl.
  - by rewrite Nat.add_0_r, app_nil_r.
  - rewrite IH, app_assoc. by replace (S i + length l) with (i + S (length l)) by lia.
Qed.

Lemma failAlerts_take_S oracle l i n :
  nth_error l i = Some n ->
  failAlertsFrom oracle 0 (take (S i) l) = (failAlertsFrom oracle 0 (take i l) ++ failAlert oracle i n)%list.
Proof.
  intros E. rewrite (take_S_nth_error l i n E), failAlertsFrom_snoc. simpl.
  rewrite length_take. assert (i < length l) by (apply nth_error_Some; congruence).
  by rewrite Nat.min_l by lia.
Qed.

Section AlertLog.

Context (snapshot : list Account) (newA : list string).
Context (oracle : nat -> N * FetchOutcome PlayerInfoResponse).
Context (a0 : list (Text * AlertType)).
Hypothesis Hfresh : forall n, In n newA -> existsNumber n snapshot = false.

Definition fails (k : nat) : list (Text * AlertType) := failAlertsFrom oracle 0 (take k newA).

Definition log_inv (r : IState * IPc) : Prop :=
  let al := alerts (hook (fst r)) in
  match snd r with
  | ICall i n fr | ISleep i n fr =>
      counts_ok newA oracle i fr /\ nth_error newA i = Some n /\ al = (a0 ++ fails i)%list
  | IAdd i fr (AFetch _ n sil) =>
      counts_ok newA oracle i fr /\ nth_error newA i = Some n /\ sil = false /\ al = (a0 ++ fails i)%list
  | IAdd i fr (ADone b) => counts_ok newA oracle i fr /\ b = ok_at oracle i /\ al = (a0 ++ fails (S i))%list
  | IDone => al = (a0 ++ failAlertsFrom oracle 0 newA ++ [summaryAlert newA (okCount oracle (length newA))])%list
  | IRead => False
  end.

Lemma loop_head_log i fr st :
  newAccounts fr = newA -> 0 < i <= length newA ->
  successAdded fr = okCount oracle i -> failedAdded fr = i - okCount oracle i ->
  alerts (hook st) = (a0 ++ fails i)%list ->
  log_inv (import_loop_head i fr st).
Proof.
  intros Hn Hi Hs Hf Ha. unfold import_loop_head. rewrite Hn.
  destruct (nth_error newA i) as [n|] eqn:E.
  - assert (i < length newA) by (apply nth_error_Some; congruence).
    destruct (Nat.eqb_spec i 0) as [->|]; [lia|]. unfold log_inv. simpl.
    repeat split; auto.
  - apply nth_error_None in E. assert (i = length newA) as -> by lia.
    unfold import_end, log_inv. rewrite Hn, Hs, Hf.
    replace (Nat.eqb (length newA) 0) with false by (symmetry; apply Nat.eqb_neq; lia).
    simpl. rewrite Ha. unfold fails. by rewrite firstn_all, <- app_assoc.
Qed.

Lemma resume_log st pc : pc <> IDone -> log_inv (st, pc) -> log_inv (i_resume snapshot oracle st pc).
Proof.
  destruct pc as [|i n fr|i n fr|i fr [tid n sil|b]|]; simpl; intros Hn H; simpl in H; try done.
  - destruct H as (Hc & E & Ha). unfold i_call, appHandleAddAccount, addAccount.
    fold (existsNumber n (snapshot)). rewrite (Hfresh n) by (by eapply nth_error_In).
    unfold log_inv. simpl. exact (conj Hc (conj E (conj eq_refl Ha))).
  - destruct H as (Hc & E & -> & Ha). unfold i_after_fetch, add_after_fetch.
    pose proof (failAlerts_take_S oracle newA i n E) as Ef. unfold failAlert in Ef.
    unfold ok_at, log_inv, fails in *.
    cbn [fst] in Ha.
    destruct (fetchPlayerInfo (snd (oracle i))) as [info|e] eqn:Eo; simpl;
      rewrite Ef, app_assoc, <- Ha; [rewrite app_nil_r|];
      (split; [exact Hc|split; [unfold ok_at; by rewrite Eo|reflexivity]]).
  - destruct H as ((Hn' & Hi & Hs & Hf) & -> & Ha). unfold i_after_add.
    pose proof (okCount_le oracle i). pose proof (okCount_S oracle i).
    destruct (ok_at oracle i) eqn:E; apply loop_head_log; simpl; try lia; done.
Qed.

End AlertLog.

Lemma importRun_unfold ffs file read oracle st :
  isTextFile file = true -> (fsize file <= 1024 * 1024)%Z ->
  importRun ffs file read oracle st =
  let st1 := setUI (fun _ => mkImportUI true [] 0 0) st in
  let '(st2, pc2) := import_after_read (accounts (hook st)) read st1 in
  import_drive (import_fuel pc2) (accounts (hook st)) oracle st2 pc2.
Proof.
  intros Ht Hs. unfold importRun, handleFileChange. rewrite Ht.
  replace (Z.ltb (1024 * 1024) (fsize file)) with false by (symmetry; apply Z.ltb_ge; lia).
  reflexivity.
Qed.

Lemma importRun_done ffs file read oracle st :
  isTextFile file = true -> (fsize file <= 1024 * 1024)%Z ->
  let r := importRun ffs file read oracle st in
  snd r = IDone /\ ui_reset (ui (fst r)).
Proof.
  intros Ht Hs. rewrite importRun_unfold by done. cbv zeta.
  pose proof (import_after_read_ok (accounts (hook st)) read
                (setUI (fun _ => mkImportUI true [] 0 0) st)) as H.
  destruct (import_after_read _ _ _) as [st2 pc2]. by apply import_drive_ok.
Qed.

(** ** Theorems *)

(** C34: every import terminates: [importRun] reaches the end of
    [handleFileChange], and when the file passed the type and size checks
    the [finally] block has run ([isImporting] false, total and remaining
    0); a rejected file leaves the import state untouched. *)
Theorem importRun_terminates ffs file read oracle st :
  let r := importRun ffs file read oracle st in
  snd r = IDone /\
  (if isTextFile file && Z.leb (fsize file) (1024 * 1024)
   then ui_reset (ui (fst r)) else ui (fst r) = ui st).
Proof.
  destruct (isTextFile file) eqn:Ht; [destruct (Z.leb_spec (fsize file) (1024 * 1024))|]; simpl.
  - by apply importRun_done.
  - unfold importRun, handleFileChange. rewrite Ht.
    replace (Z.ltb (1024 * 1024) (fsize file)) with true by (symmetry; apply Z.ltb_lt; lia).
    done.
  - unfold importRun, handleFileChange. by rewrite Ht.
Qed.

(** C35: an import with at least one new number ends with the summary
    alert: total the number of new numbers, success the number whose
    lookup succeeded, failed the rest, as a warning exactly when one
    failed.  The duplicate check inside [addAccount] never fires: the new
    numbers were filtered against the same snapshot. *)
Theorem import_summary ffs file text oracle st :
  isTextFile file = true -> (fsize file <= 1024 * 1024)%Z ->
  let newA := newAccountsOf (accounts (hook st)) (parseAccountsFromText text) in
  newA <> [] ->
  exists pre, alerts (hook (fst (importRun ffs file (ReadOk text) oracle st))) =
              (pre ++ [summaryAlert newA (okCount oracle (length newA))])%list.
Proof.
  intros Ht Hs newA Hne. pose proof (importRun_done ffs file (ReadOk text) oracle st Ht Hs) as [Hd _].
  revert Hd. rewrite importRun_unfold by done. cbv zeta.
  assert (Hp : Nat.eqb (length (parseAccountsFromText text)) 0 = false).
  { apply Nat.eqb_neq. intros E. apply length_zero_iff_nil in E. apply Hne.
    unfold newA, newAccountsOf. by rewrite E. }
  unfold import_after_read. rewrite Hp. cbv zeta. unfold import_loop_head. simpl newAccounts.
  fold newA. destruct newA as [|n l] eqn:En; [done|]. cbn [nth_error Nat.eqb].
  match goal with |- context [import_drive ?f ?sn ?o ?s ?p] =>
    assert (Hinv : sum_inv newA oracle (import_drive f sn o s p)) end.
  { apply import_drive_preserves.
    - intros st' pc' Hn' HP. apply resume_summary; [|exact Hn'|exact HP]. intros x Hx.
      apply (newAccountsOf_fresh _ (parseAccountsFromText text)). by fold newA.
    - unfold sum_inv, counts_ok. simpl. rewrite En. repeat split; simpl; lia || done. }
  intros Hd. unfold sum_inv in Hinv. rewrite Hd, En in Hinv. exact Hinv.
Qed.

(** ** Witnesses, scenarios and findings *)

Definition lf : string := String newline EmptyString.

(** Registry ["1002"]; the file lists 1001, 1002, "a b", 1001, 1003; the
    first lookup succeeds and the second fails. *)
Definition sampleImportState : IState :=
  mkIState (emptyHook [freshAccount "1" "1002"]) (mkImportUI false [] 0 0).

Definition sampleImportText : string :=
  "1001" ++ lf ++ "1002" ++ lf ++ "a b" ++ lf ++ "1001" ++ lf ++ "1003".

Definition sampleOracle (i : nat) : N * FetchOutcome PlayerInfoResponse :=
  (N.of_nat (10 + i), if Nat.eqb i 0 then profileFound (sampleInfo 5) else profileMissing).

Lemma import_summary_witness :
  isTextFile (mkFileInfo "a.txt" "" 10) = true /\ (fsize (mkFileInfo "a.txt" "" 10) <= 1024 * 1024)%Z /\
  newAccountsOf (accounts (hook sampleImportState)) (parseAccountsFromText sampleImportText) <> [] /\
  exists pre, alerts (hook (fst (importRun (fun _ => "10 Bytes") (mkFileInfo "a.txt" "" 10)
                                 (ReadOk sampleImportText) sampleOracle sampleImportState))) =
              (pre ++ [summaryAlert ["1001"; "1003"] 1])%list.
Proof.
  assert (H1 : isTextFile (mkFileInfo "a.txt" "" 10) = true) by reflexivity.
  assert (H2 : (fsize (mkFileInfo "a.txt" "" 10) <= 1024 * 1024)%Z) by (simpl; lia).
  assert (H3 : newAccountsOf (accounts (hook sampleImportState)) (parseAccountsFromText sampleImportText)
               <> []) by (vm_compute; discriminate).
  split; [exact H1|split; [exact H2|split; [exact H3|]]].
  exact (import_summary (fun _ => "10 Bytes") _ sampleImportText sampleOracle sampleImportState H1 H2 H3).
Defined.

(** C36: the import asks for silent additions, but App's
    [handleAddAccount] forwards the account number only.  For any file
    with new numbers and any lookup outcomes, the import appends to the
    alert log exactly one [accountAddFailed] error per failed lookup, in
    the order of the new numbers and with the number and its classified
    error, followed by the summary: nothing is silenced. *)
Theorem import_not_silent ffs file text oracle st :
  isTextFile file = true -> (fsize file <= 1024 * 1024)%Z ->
  let newA := newAccountsOf (accounts (hook st)) (parseAccountsFromText text) in
  newA <> [] ->
  alerts (hook (fst (importRun ffs file (ReadOk text) oracle st))) =
  (alerts (hook st) ++ failAlertsFrom oracle 0 newA ++
   [summaryAlert newA (okCount oracle (length newA))])%list.
Proof.
  intros Ht Hs newA Hne. pose proof (importRun_done ffs file (ReadOk text) oracle st Ht Hs) as [Hd _].
  revert Hd. rewrite importRun_unfold by done. cbv zeta.
  assert (Hp : Nat.eqb (length (parseAccountsFromText text)) 0 = false).
  { apply Nat.eqb_neq. intros E. apply length_zero_iff_nil in E. apply Hne.
    unfold newA, newAccountsOf. by rewrite E. }
  unfold import_after_read. rewrite Hp. cbv zeta. unfold import_loop_head. simpl newAccounts.
  fold newA. destruct newA as [|n l] eqn:En; [done|]. cbn [nth_error Nat.eqb].
  match goal with |- context [import_drive ?f ?sn ?o ?s ?p] =>
    assert (Hinv : log_inv newA oracle (alerts (hook st)) (import_drive f sn o s p)) end.
  { apply import_drive_preserves.
    - intros st' pc' Hn' HP. apply resume_log; [|exact Hn'|exact HP]. intros x Hx.
      apply (newAccountsOf_fresh _ (parseAccountsFromText text)). by fold newA.
    - unfold log_inv, counts_ok, fails. simpl. rewrite En, app_nil_r.
      repeat split; simpl; lia || done. }
  intros Hd. unfold log_inv in Hinv. rewrite Hd, En in Hinv. exact Hinv.
Qed.

Lemma import_not_silent_witness :
  isTextFile (mkFileInfo "a.txt" "" 10) = true /\
  alerts (hook (fst (importRun (fun _ => "10 Bytes") (mkFileInfo "a.txt" "" 10)
                      (ReadOk sampleImportText) sampleOracle sampleImportState))) =
  [(Tr "messages.accountAddFailed" [("account", Lit "1003"); ("error", Tr "messages.accountNotExists" [])],
    alert_error);
   summaryAlert ["1001"; "1003"] 1].
Proof.
  assert (H1 : isTextFile (mkFileInfo "a.txt" "" 10) = true) by reflexivity.
  assert (H2 : (fsize (mkFileInfo "a.txt" "" 10) <= 1024 * 1024)%Z) by (simpl; lia).
  assert (H3 : newAccountsOf (accounts (hook sampleImportState)) (parseAccountsFromText sampleImportText)
               <> []) by (vm_compute; discriminate).
  split; [exact H1|].
  rewrite (import_not_silent (fun _ => "10 Bytes") _ sampleImportText sampleOracle sampleImportState
             H1 H2 H3).
  vm_compute. reflexivity.
Defined.

(** The import accepts account numbers the manual entry rejects: the file
    check is [validateAccountFormat], the input check digits only. *)
Example import_accepts_non_digits :
  validateAccountFormat "ab_c" = true /\ handleAddAccountInput "ab_c" = None /\
  handleAddAccountInput " 1001 " = Some "1001".
Proof. split; [|split]; reflexivity. Qed.

(** The three error messages, in order, for the sample file. *)
Example import_sample_errors :
  importErrors (ui (fst (import_after_read (accounts (hook sampleImportState))
                           (ReadOk sampleImportText) sampleImportState))) = [] /\
  importErrors (ui (fst (importRun (fun _ => "") (mkFileInfo "a.txt" "" 10)
                           (ReadOk sampleImportText) sampleOracle sampleImportState))) =
  [Tr "messages.importFormatInvalid" [("list", Lit "a b"); ("more", Lit "")];
   Tr "messages.importDuplicate" [("list", Lit "1001"); ("more", Lit "")];
   Tr "messages.importExisting" [("list", Lit "1002"); ("more", Lit "")]].
Proof. vm_compute. split; reflexivity. Qed.
