(* ===== verification/Stats.v ===== *)
(** * Stats: the statistics shown beside the registry

    The counting functions of src/src/utils/statsUtils.ts and the
    figures [StatusStats] (src/src/components/StatusStats.tsx) derives from
    them and from the hook's [processingRemaining].  The two percentages of
    [calculateAccountStats] ([validationRate], [successRate]),
    [calculateProgress] and [formatPercentage] compute with IEEE doubles
    and are not modelled; every count is. *)

From Stdlib Require Import List ZArith String Bool Lia.
From stdpp Require Import base gmap strings list pretty.
From S2P Require Import Prelude Types Registry Samples Redemption.
Import ListNotations.
Open Scope string_scope.

(** [l.filter(p).length] *)
Definition countWhere (p : Account -> bool) (l : list Account) : nat :=
  length (List.filter p l).

Definition hasStatus (st : AccountStatus) (a : Account) : bool := status_eqb (status a) st.

(** The counts of [interface AccountStats]. *)
Record AccountStats := mkAccountStats {
  st_total : nat;
  st_validated : nat;
  st_processing : nat;
  st_success : nat;
  st_error : nat;
  st_remaining : nat;
}.

(** [!["success", "error", "processing"].includes(acc.status)] *)
Definition notSettledOrBusy (a : Account) : bool :=
  negb (existsb (status_eqb (status a)) [success; error; processing]).

Definition calculateAccountStats (accounts : list Account) : AccountStats :=
  {| st_total := length accounts;
     st_validated := countWhere isValidated accounts;
     st_processing := countWhere (hasStatus processing) accounts;
     st_success := countWhere (hasStatus success) accounts;
     st_error := countWhere (hasStatus error) accounts;
     st_remaining := countWhere (fun a => isValidated a && notSettledOrBusy a) accounts |}.

(** [Record<AccountStatus, Account[]>] *)
Record StatusGroups := mkStatusGroups {
  g_idle : list Account;
  g_processing : list Account;
  g_success : list Account;
  g_error : list Account;
  g_validating : list Account;
}.

(** [groups[account.status].push(account)] *)
Definition pushGroup (g : StatusGroups) (a : Account) : StatusGroups :=
  match status a with
  | idle => {| g_idle := g_idle g ++ [a]; g_processing := g_processing g;
               g_success := g_success g; g_error := g_error g; g_validating := g_validating g |}
  | processing => {| g_idle := g_idle g; g_processing := g_processing g ++ [a];
               g_success := g_success g; g_error := g_error g; g_validating := g_validating g |}
  | success => {| g_idle := g_idle g; g_processing := g_processing g;
               g_success := g_success g ++ [a]; g_error := g_error g; g_validating := g_validating g |}
  | error => {| g_idle := g_idle g; g_processing := g_processing g;
               g_success := g_success g; g_error := g_error g ++ [a]; g_validating := g_validating g |}
  | validating => {| g_idle := g_idle g; g_processing := g_processing g;
               g_success := g_success g; g_error := g_error g; g_validating := g_validating g ++ [a] |}
  end.

Definition groupAccountsByStatus (accounts : list Account) : StatusGroups :=
  fold_left pushGroup accounts (mkStatusGroups [] [] [] [] []).

(** [Math.ceil(x / d)] for integers and [d > 0]. *)
Definition ceilDiv (x d : Z) : Z := (- ((- x) / d))%Z.

Definition estimateProcessingTime (remainingAccounts averageTimePerAccount : Z) : string :=
  let totalMs := (remainingAccounts * averageTimePerAccount)%Z in
  let totalSeconds := ceilDiv totalMs 1000 in
  if Z.ltb totalSeconds 60 then "約 " ++ pretty totalSeconds ++ " 秒"
  else
    let minutes := (totalSeconds / 60)%Z in
    let seconds := (totalSeconds mod 60)%Z in
    if Z.eqb seconds 0 then "約 " ++ pretty minutes ++ " 分鐘"
    else "約 " ++ pretty minutes ++ " 分 " ++ pretty seconds ++ " 秒".

Definition hasActiveOperations (accounts : list Account) : bool :=
  existsb (fun a => hasStatus processing a || hasStatus validating a) accounts.

Definition getEligibleAccountsCount (accounts : list Account) : nat :=
  countWhere isValidated accounts.

Definition getUnvalidatedAccounts (accounts : list Account) : list Account :=
  List.filter (fun a => negb (isValidated a) && negb (hasStatus error a)) accounts.

Definition areAllAccountsProcessed (accounts : list Account) : bool :=
  forallb (fun a => hasStatus success a || hasStatus error a || hasStatus idle a) accounts.

(** [StatusStats]: the "processing" figure, and the numerator and
    denominator of the progress bar. *)
Record StatusDisplay := mkStatusDisplay {
  processingDisplay : Z;
  processedCount : nat;
  totalToProcess : Z;
}.

Definition statusDisplay (accounts : list Account) (processingRemaining : option Z) : StatusDisplay :=
  let stats := calculateAccountStats accounts in
  let processed := st_success stats + st_error stats in
  match processingRemaining with
  | Some r =>
      if Z.leb 0 r
      then mkStatusDisplay r processed (r + Z.of_nat processed)%Z
      else mkStatusDisplay (Z.of_nat (st_processing stats)) processed (Z.of_nat (st_total stats))
  | None => mkStatusDisplay (Z.of_nat (st_processing stats)) processed (Z.of_nat (st_total stats))
  end.

(** ** Lemmas *)

(** Evaluates the [if p a then 1 else 0] heads left by [countWhere_cons]
    once the status of [a] is known. *)
Local Ltac eval_conds :=
  repeat match goal with
  | |- context [if ?c then 1 else 0] =>
      lazymatch c with true => fail | false => fail | _ => idtac end;
      let b := eval vm_compute in c in
      lazymatch b with true => idtac | false => idtac end;
      change c with b
  end.

Lemma countWhere_cons p a l :
  countWhere p (a :: l) = (if p a then 1 else 0) + countWhere p l.
Proof. unfold countWhere. simpl. by destruct (p a). Qed.

#[export] Hint Rewrite countWhere_cons : gc_rw.

Lemma pushGroups_fold l g :
  fold_left pushGroup l g =
  {| g_idle := g_idle g ++ List.filter (hasStatus idle) l;
     g_processing := g_processing g ++ List.filter (hasStatus processing) l;
     g_success := g_success g ++ List.filter (hasStatus success) l;
     g_error := g_error g ++ List.filter (hasStatus error) l;
     g_validating := g_validating g ++ List.filter (hasStatus validating) l |}.
Proof.
  revert g. induction l as [|a l IH]; intros g; simpl.
  - rewrite !app_nil_r. by destruct g.
  - rewrite IH. unfold pushGroup, hasStatus.
    destruct a as [? ? [] ? ? ?]; simpl; rewrite <- ?app_assoc; reflexivity.
Qed.

(** ** Theorems *)

(** [groupAccountsByStatus], which pushes each account onto the group
    of its status in one pass, gives for every status exactly the accounts
    with that status, in registry order. *)
Theorem groupAccountsByStatus_filter l :
  groupAccountsByStatus l =
  {| g_idle := List.filter (hasStatus idle) l;
     g_processing := List.filter (hasStatus processing) l;
     g_success := List.filter (hasStatus success) l;
     g_error := List.filter (hasStatus error) l;
     g_validating := List.filter (hasStatus validating) l |}.
Proof. unfold groupAccountsByStatus. by rewrite pushGroups_fold. Qed.

(** C28: the counts of [calculateAccountStats] are consistent: the five
    statuses partition the registry, and the remaining count (validated and
    not settled or busy) never exceeds the validated count, which never
    exceeds the total. *)
Theorem calculateAccountStats_partition l :
  let st := calculateAccountStats l in
  st_processing st + st_success st + st_error st +
    countWhere (hasStatus idle) l + countWhere (hasStatus validating) l = st_total st /\
  st_remaining st <= st_validated st <= st_total st.
Proof.
  cbv zeta. unfold calculateAccountStats.
  cbn [st_total st_validated st_processing st_success st_error st_remaining].
  induction l as [|a l IH]; [cbn; lia|].
  rewrite !countWhere_cons. simpl length.
  destruct a as [? ? [] ? ? []]; eval_conds; cbn -[countWhere]; lia.
Qed.

(** All accounts are processed exactly when none is busy: the two
    predicates of statsUtils.ts are complementary, since every status is
    either settled/resting (success, error, idle) or busy (processing,
    validating). *)
Theorem areAllAccountsProcessed_no_active l :
  areAllAccountsProcessed l = negb (hasActiveOperations l).
Proof.
  induction l as [|a l IH]; [done|]. simpl. rewrite IH.
  by destruct a as [? ? [] ? ? ?].
Qed.

(** [Math.ceil(totalMs / 1000)] as computed is the least whole number
    of seconds covering [totalMs], and in the minutes branch the minutes
    and seconds shown recompose it with seconds below 60. *)
Theorem estimateProcessingTime_bounds totalMs :
  let s := ceilDiv totalMs 1000 in
  (1000 * s - 1000 < totalMs <= 1000 * s)%Z /\
  (60 <= s -> s = 60 * (s / 60) + s mod 60 /\ 0 <= s mod 60 < 60)%Z.
Proof.
  simpl. unfold ceilDiv. split.
  - pose proof (Z.div_mod (- totalMs) 1000 ltac:(lia)).
    pose proof (Z.mod_pos_bound (- totalMs) 1000 ltac:(lia)). lia.
  - intros _. split; [apply Z.div_mod; lia|apply Z.mod_pos_bound; lia].
Qed.

Lemma r_head_remaining vs i s :
  processingRemaining (fst (r_head vs i s)) = processingRemaining s.
Proof. unfold r_head. by destruct (nth_error vs i). Qed.

Lemma r_head_clean vs i s :
  Forall (fun a => round_result (status a) = false) (accounts s) ->
  Forall (fun a => round_result (status a) = false) (accounts (fst (r_head vs i s))).
Proof.
  unfold r_head. destruct (nth_error vs i); simpl; [|done].
  apply updateAccountStatus_processing_clean.
Qed.

Lemma clean_no_settled l :
  Forall (fun a => round_result (status a) = false) l ->
  countWhere (hasStatus success) l = 0 /\ countWhere (hasStatus error) l = 0.
Proof.
  induction 1 as [|a l Ha _ [IH1 IH2]]; [done|].
  rewrite !countWhere_cons, IH1, IH2. unfold round_result in Ha.
  by destruct a as [? ? [] ? ? ?].
Qed.

(** C29: when a redemption round starts, the statistics show no success
    and no error, and [StatusStats] shows as "processing" the number of
    validated accounts of the round, with progress 0 out of that number. *)
Theorem round_start_display snapshot s :
  validatedOf snapshot <> [] ->
  let s1 := fst (submitGiftCodeToAccounts snapshot s) in
  st_success (calculateAccountStats (accounts s1)) = 0 /\
  st_error (calculateAccountStats (accounts s1)) = 0 /\
  statusDisplay (accounts s1) (processingRemaining s1) =
  mkStatusDisplay (Z.of_nat (length (validatedOf snapshot))) 0
                  (Z.of_nat (length (validatedOf snapshot))).
Proof.
  intros Hne. simpl. rewrite (proj2 (submitGiftCodeToAccounts_started snapshot s Hne)).
  set (s0 := setProcessingRemaining (fun _ => Some (Z.of_nat (length (validatedOf snapshot))))
               (setIsProcessing true (setAccounts resetRoundResults s))).
  destruct (clean_no_settled _ (r_head_clean (validatedOf snapshot) 0 s0
              (resetRoundResults_clean (accounts s)))) as [H1 H2].
  split; [done|split; [done|]].
  unfold statusDisplay. rewrite r_head_remaining. simpl. rewrite H1, H2.
  rewrite (proj2 (Z.leb_le _ _)) by lia. f_equal. lia.
Qed.

Lemma round_start_display_witness :
  validatedOf twoValidated <> [] /\
  statusDisplay (accounts (fst (submitGiftCodeToAccounts twoValidated (emptyHook twoValidated))))
    (processingRemaining (fst (submitGiftCodeToAccounts twoValidated (emptyHook twoValidated)))) =
  mkStatusDisplay 2 0 2.
Proof.
  assert (H : validatedOf twoValidated <> []) by (vm_compute; discriminate).
  split; [exact H|]. apply (round_start_display twoValidated (emptyHook twoValidated) H).
Defined.

(** A scenario: three accounts, two validated, one round settled as one
    success and one error; the figures [StatusStats] shows afterwards. *)
Example stats_after_round :
  let l := [val1; val2; mkAccount "3" "1003" idle None None false] in
  let l' := updateAccountStatus "1" success None None
              (updateAccountStatus "2" error None None l) in
  calculateAccountStats l' = mkAccountStats 3 2 0 1 1 0.
Proof. vm_compute. reflexivity. Qed.
