(* ===== verification/StatusView.v ===== *)
(** * StatusView: the status tables and the stat cards

    The lookup tables of src/src/utils/statusUtils.ts (icon, text colour,
    background and description of an account status; icon, colour and
    background of a statistic) and what [StatusStats]
    (src/src/components/StatusStats.tsx) builds from them: nothing when
    the registry is empty, else four [StatCard]s (value, type, spinner),
    the progress bar when some account is processing or settled, and the
    summary.  Icons are the constructors of [LucideIcon]; Tailwind class
    names and texts are strings.  The percentages ([calculateProgress],
    [formatPercentage], the two rates) are floating point and not
    modelled; the panel records whether they are shown. *)

From Stdlib Require Import List ZArith String Bool Lia.
From stdpp Require Import base list strings.
From S2P Require Import Prelude Types Registry Stats.
Import ListNotations.
Open Scope string_scope.

(** The icons of lucide-react the tables use. *)
Inductive LucideIcon := Loader2 | CheckCircle2 | XCircle | Clock | User | Gift | AlertCircle.

#[export] Instance LucideIcon_eq_dec : EqDecision LucideIcon.
Proof. solve_decision. Defined.

Definition getStatusIcon (st : AccountStatus) : LucideIcon :=
  match st with
  | validating => Loader2
  | processing => Loader2
  | success => CheckCircle2
  | error => XCircle
  | idle => Clock
  end.

Definition getStatusColor (st : AccountStatus) : string :=
  match st with
  | validating => "text-blue-400"
  | processing => "text-orange-400"
  | success => "text-green-400"
  | error => "text-red-400"
  | idle => "text-gray-400"
  end.

Definition getStatusBgColor (st : AccountStatus) : string :=
  match st with
  | validating => "border-blue-400/30 bg-blue-400/5"
  | processing => "border-orange-400/30 bg-orange-400/5"
  | success => "border-green-400/30 bg-green-400/5"
  | error => "border-red-400/30 bg-red-400/5"
  | idle => "border-gray-600/30 bg-gray-600/5"
  end.

Definition getStatusDescription (st : AccountStatus) : string :=
  match st with
  | validating => "驗證中"
  | processing => "處理中"
  | success => "成功"
  | error => "錯誤"
  | idle => "待處理"
  end.

(** The [switch (type)] of the statistic tables, [default] included. *)
Definition getStatsIcon (type : string) : LucideIcon :=
  if String.eqb type "total" then User
  else if String.eqb type "validated" then CheckCircle2
  else if String.eqb type "processing" then Loader2
  else if String.eqb type "success" then Gift
  else if String.eqb type "error" then AlertCircle
  else Clock.

Definition getStatsColor (type : string) : string :=
  if String.eqb type "total" then "text-blue-600"
  else if String.eqb type "validated" then "text-green-600"
  else if String.eqb type "processing" then "text-orange-600"
  else if String.eqb type "success" then "text-emerald-600"
  else if String.eqb type "error" then "text-red-600"
  else "text-gray-600".

Definition getStatsBgColor (type : string) : string :=
  if String.eqb type "total" then "bg-blue-50"
  else if String.eqb type "validated" then "bg-green-50"
  else if String.eqb type "processing" then "bg-orange-50"
  else if String.eqb type "success" then "bg-emerald-50"
  else if String.eqb type "error" then "bg-red-50"
  else "bg-gray-50".

(** [getAccountStatusIcon] of AccountManager.tsx: the icon, its colour,
    and whether it spins. *)
Definition accountStatusIcon (st : AccountStatus) : LucideIcon * string * bool :=
  (getStatusIcon st, getStatusColor st,
   status_eqb st processing || status_eqb st validating).

(** What one [StatCard] renders: its label key, value, colour, and either
    the spinner ([None]) or the icon. *)
Record StatCardView := mkStatCardView {
  card_label : string;
  card_value : Z;
  card_color : string;
  card_icon : option LucideIcon;
}.

Definition statCard (label : string) (value : Z) (type : string) (isAnimated : bool)
    : StatCardView :=
  mkStatCardView label value (getStatsColor type)
    (if isAnimated then None else Some (getStatsIcon type)).

Record StatusPanel := mkStatusPanel {
  cards : list StatCardView;
  progressShown : bool;
  successRateShown : bool;
  totalShown : Z;
}.

(** The body of [StatusStats]: [None] is the "add accounts" hint. *)
Definition statusPanel (accounts_ : list Account) (processingRemaining_ : option Z)
    : option StatusPanel :=
  let stats := calculateAccountStats accounts_ in
  let disp := statusDisplay accounts_ processingRemaining_ in
  if Nat.eqb (st_total stats) 0 then None
  else Some (mkStatusPanel
    [statCard "status.verified" (Z.of_nat (st_validated stats)) "validated" false;
     statCard "status.processing" (processingDisplay disp) "processing"
       (Z.ltb 0 (processingDisplay disp));
     statCard "status.success" (Z.of_nat (st_success stats)) "success" false;
     statCard "status.error" (Z.of_nat (st_error stats)) "error" false]
    (Nat.ltb 0 (st_processing stats) || Nat.ltb 0 (st_success stats) ||
     Nat.ltb 0 (st_error stats))
    (Nat.ltb 0 (st_validated stats))
    (Z.of_nat (st_total stats))).

(** ** Theorems *)

(** The [default] branch of the statistic tables. *)
Definition defaultCard (c : StatCardView) : Prop :=
  card_color c = "text-gray-600" \/ card_icon c = Some Clock.

(** C30: [StatusStats] shows the "add accounts" hint exactly for an empty
    registry.  Otherwise it shows the registry's size as the total and
    four cards: verified, processing, success and error, each with the
    count of accounts of that kind (the processing card with the figure of
    [statusDisplay]); none of them falls to the grey clock of the
    [default] branch of the tables, and the only card whose icon spins is
    the processing card, when its figure is positive. *)
Theorem statusPanel_cards_handled l r :
  (statusPanel l r = None <-> l = []) /\
  forall p, statusPanel l r = Some p ->
    totalShown p = Z.of_nat (length l) /\
    List.map (fun c => (card_label c, card_value c)) (cards p) =
      [("status.verified", Z.of_nat (countWhere isValidated l));
       ("status.processing", processingDisplay (statusDisplay l r));
       ("status.success", Z.of_nat (countWhere (hasStatus success) l));
       ("status.error", Z.of_nat (countWhere (hasStatus error) l))] /\
    Forall (fun c => ~ defaultCard c) (cards p) /\
    (forall c, In c (cards p) -> card_icon c = None ->
       card_label c = "status.processing" /\ (0 < card_value c)%Z).
Proof.
  unfold statusPanel. simpl st_total.
  destruct (Nat.eqb_spec (length l) 0) as [E|E].
  - split; [split; [intros _; by apply length_zero_iff_nil|done]|discriminate].
  - split; [split; [discriminate|by intros ->]|]. intros p [= <-]. simpl.
    split; [done|split; [done|split]].
    + unfold defaultCard.
      repeat constructor; simpl; try destruct (Z.ltb _ _); intros [H|H]; discriminate H.
    + intros c Hc Hi. repeat destruct Hc as [<-|Hc]; try discriminate Hi; [|done].
      simpl in *. destruct (Z.ltb_spec 0 (processingDisplay (statusDisplay l r)));
        [done|discriminate].
Qed.

(** The icon of an account spins exactly for the two busy statuses, which
    are also the two sharing the [Loader2] icon. *)
Example accountStatusIcon_spins :
  List.map accountStatusIcon [idle; processing; success; error; validating] =
  [(Clock, "text-gray-400", false); (Loader2, "text-orange-400", true);
   (CheckCircle2, "text-green-400", false); (XCircle, "text-red-400", false);
   (Loader2, "text-blue-400", true)].
Proof. reflexivity. Qed.
