(* ===== verification/Alert.v ===== *)
(** * Alert: the alert banner of [useAlert] (src/src/hooks/useAlert.ts) and Alert.tsx

    [useAlert] keeps one [AlertState].  [showAlert] replaces it with a
    visible alert and schedules, 3000 ms later, a callback that hides
    whatever alert is current then; [hideAlert] hides it at once.  The
    other files record the alerts the program raises as a log (the
    [alerts] field of [HookState]); this file models what the banner
    shows over time.  [AlertSys] adds to the state the due times of the
    pending [setTimeout] callbacks; [alertRun] plays a timed list of user
    events and fires each callback when its time comes.  [alertBox] is what
    Alert.tsx renders of the state: nothing unless it is visible, else the
    box with the style and icon of the alert's type. *)

From Stdlib Require Import List ZArith String Bool Lia Sorted.
From stdpp Require Import base list.
From S2P Require Import Prelude Types.
Import ListNotations.
Open Scope Z_scope.
Open Scope list_scope.

(** [interface AlertState] *)
Record AlertState := mkAlertState {
  message : Text;
  atype : AlertType;
  isVisible : bool;
}.

Definition initialAlert : AlertState := mkAlertState (Lit "") alert_info false.

(** [(prev) => ({ ...prev, isVisible: false })] *)
Definition setInvisible (prev : AlertState) : AlertState :=
  mkAlertState (message prev) (atype prev) false.

Record AlertSys := mkAlertSys {
  alert : AlertState;
  pending : list Z;  (* due times of the scheduled hide callbacks *)
}.

Definition initialAlertSys : AlertSys := mkAlertSys initialAlert [].

Definition showAlert (m : Text) (ty : AlertType) (now : Z) (s : AlertSys) : AlertSys :=
  mkAlertSys (mkAlertState m ty true) (pending s ++ [now + 3000]).

Definition hideAlert (s : AlertSys) : AlertSys := mkAlertSys (setInvisible (alert s)) (pending s).

Definition showSuccess (m : Text) := showAlert m alert_success.
Definition showError (m : Text) := showAlert m alert_error.
Definition showWarning (m : Text) := showAlert m alert_warning.
Definition showInfo (m : Text) := showAlert m alert_info.

(** Fire, in order, the callbacks whose due time satisfies [due]. *)
Fixpoint fireDue (due : Z -> bool) (ps : list Z) (a : AlertState) : AlertState * list Z :=
  match ps with
  | d :: rest => if due d then fireDue due rest (setInvisible a) else (a, ps)
  | [] => (a, [])
  end.

Inductive AEvent :=
| EvShow (m : Text) (ty : AlertType) (t : Z)
| EvHide (t : Z).

Definition ev_time (e : AEvent) : Z := match e with EvShow _ _ t | EvHide t => t end.

Definition applyEvent (e : AEvent) (s : AlertSys) : AlertSys :=
  match e with
  | EvShow m ty t => showAlert m ty t s
  | EvHide _ => hideAlert s
  end.

(** The banner at time [t], the events being in time order; a callback
    due strictly before an event runs before it. *)
Fixpoint alertRun (evs : list AEvent) (s : AlertSys) (t : Z) : AlertState :=
  match evs with
  | [] => fst (fireDue (fun d => Z.leb d t) (pending s) (alert s))
  | e :: rest =>
      if Z.ltb t (ev_time e) then fst (fireDue (fun d => Z.leb d t) (pending s) (alert s))
      else
        let '(a, ps) := fireDue (fun d => Z.ltb d (ev_time e)) (pending s) (alert s) in
        alertRun rest (applyEvent e (mkAlertSys a ps)) t
  end.

(** ** The banner component (src/src/components/Alert.tsx) *)

(** The two lucide-react glyphs the banner uses. *)
Inductive AlertGlyph := GlyphX | GlyphAlertTriangle.

(** [getAlertStyles] *)
Definition getAlertStyles (ty : AlertType) : string :=
  match ty with
  | alert_error => "bg-red-900/90 border-red-600 text-red-100"
  | alert_warning => "bg-yellow-900/90 border-yellow-600 text-yellow-100"
  | alert_success => "bg-green-900/90 border-green-600 text-green-100"
  | alert_info => "bg-blue-900/90 border-blue-600 text-blue-100"
  end%string.

(** [getIcon]: the glyph and its class. *)
Definition getIcon (ty : AlertType) : AlertGlyph * string :=
  match ty with
  | alert_error => (GlyphX, "w-5 h-5 text-red-400")
  | alert_warning => (GlyphAlertTriangle, "w-5 h-5 text-yellow-400")
  | alert_success => (GlyphX, "w-5 h-5 text-green-400")
  | alert_info => (GlyphAlertTriangle, "w-5 h-5 text-blue-400")
  end%string.

(** What [Alert] renders: the box's style, its icon and the message;
    both of its buttons call [onClose], which App binds to [hideAlert]. *)
Record AlertBox := mkAlertBox {
  box_style : string;
  box_icon : AlertGlyph * string;
  box_message : Text;
}.

(** [if (!isVisible) return null], else the box for the current alert. *)
Definition alertBox (a : AlertState) : option AlertBox :=
  if isVisible a then Some (mkAlertBox (getAlertStyles (atype a)) (getIcon (atype a)) (message a))
  else None.

(** ** Lemmas *)

Lemma fireDue_message due ps a :
  message (fst (fireDue due ps a)) = message a /\ atype (fst (fireDue due ps a)) = atype a.
Proof.
  revert a. induction ps as [|d ps IH]; intros a; simpl; [done|].
  destruct (due d); [exact (IH (setInvisible a))|done].
Qed.

Lemma fireDue_suffix due ps a : exists pre, ps = pre ++ snd (fireDue due ps a).
Proof.
  revert a. induction ps as [|d ps IH]; intros a; simpl; [by exists []|].
  destruct (due d); [|by exists []]. destruct (IH (setInvisible a)) as [pre E].
  exists (d :: pre). simpl. by f_equal.
Qed.

(** A banner still visible after firing means nothing fired. *)
Lemma fireDue_visible due ps a :
  isVisible (fst (fireDue due ps a)) = true -> fireDue due ps a = (a, ps).
Proof.
  revert a. induction ps as [|d ps IH]; intros a; simpl; [by destruct a|].
  destruct (due d); [|done]. intros H. specialize (IH _ H). rewrite IH in H. discriminate.
Qed.

Lemma fireDue_all due ps a :
  Forall (fun d => due d = true) ps -> ps <> [] -> isVisible (fst (fireDue due ps a)) = false.
Proof.
  intros Hf Hne. destruct (isVisible (fst (fireDue due ps a))) eqn:E; [|done].
  apply fireDue_visible in E as E'. rewrite E' in E. simpl in E.
  destruct ps as [|d ps]; [done|]. inversion Hf; subst. simpl in E'.
  rewrite H1 in E'.
  assert (Hv : isVisible (fst (fireDue due ps (setInvisible a))) = true) by (by rewrite E').
  apply fireDue_visible in Hv. rewrite Hv in E'. injection E' as Ea _.
  rewrite <- Ea in E. discriminate.
Qed.

(** Every pending callback is due by [T + 3000], and a visible banner has
    one pending. *)
Definition alert_inv (T : Z) (s : AlertSys) : Prop :=
  (isVisible (alert s) = true -> pending s <> []) /\ Forall (fun d => d <= T + 3000) (pending s).

Lemma fireDue_inv T due s :
  alert_inv T s -> let r := fireDue due (pending s) (alert s) in alert_inv T (mkAlertSys (fst r) (snd r)).
Proof.
  intros [Hv Hf]. simpl. destruct (fireDue_suffix due (pending s) (alert s)) as [pre Hp]. split.
  - intros E. apply fireDue_visible in E as E'. rewrite E' in E |- *. by apply Hv.
  - rewrite Hp in Hf. by apply Forall_app in Hf as [_ ?].
Qed.

Lemma applyEvent_inv T e s : ev_time e <= T -> alert_inv T s -> alert_inv T (applyEvent e s).
Proof.
  intros Ht [Hv Hf]. destruct e as [m ty te|te]; simpl in *; unfold alert_inv; simpl.
  - split; [intros _; by destruct (pending s)|]. apply Forall_app. split; [done|].
    constructor; [lia|done].
  - split; [done|done].
Qed.

Lemma alertRun_end T t s :
  T + 3000 <= t -> alert_inv T s ->
  isVisible (fst (fireDue (fun d => Z.leb d t) (pending s) (alert s))) = false.
Proof.
  intros Ht [Hv Hf]. destruct (pending s) as [|d ps] eqn:Ep; rewrite ?Ep in Hf, Hv.
  - simpl. destruct (isVisible (alert s)) eqn:E; [by specialize (Hv eq_refl)|done].
  - apply fireDue_all; [|done]. eapply Forall_impl; [exact Hf|]. intros x Hx. cbv beta in Hx. apply Z.leb_le. lia.
Qed.

Lemma alertRun_hidden evs s t :
  Forall (fun e => ev_time e + 3000 <= t) evs -> alert_inv (t - 3000) s ->
  isVisible (alertRun evs s t) = false.
Proof.
  revert s. induction evs as [|e evs IH]; intros s Hf Hi; simpl.
  - apply (alertRun_end (t - 3000)); [lia|done].
  - inversion Hf as [|? ? He Hf']; subst.
    destruct (Z.ltb t (ev_time e)); [apply (alertRun_end (t - 3000)); [lia|done]|].
    pose proof (fireDue_inv (t - 3000) (fun d => Z.ltb d (ev_time e)) s Hi) as Hi'.
    destruct (fireDue _ _ _) as [a ps]. apply IH; [done|]. apply applyEvent_inv; [lia|done].
Qed.

(** The text the last [showAlert] set. *)
Definition lastShown (evs : list AEvent) (m0 : Text) : Text :=
  fold_left (fun m e => match e with EvShow m' _ _ => m' | EvHide _ => m end) evs m0.

(** ** Theorems *)

(** C37: the banner never stays up: once 3000 ms have passed since the
    last user event, it is hidden, whatever the events were. *)
Theorem alert_hides_within_3s evs t :
  Forall (fun e => ev_time e + 3000 <= t) evs ->
  isVisible (alertRun evs initialAlertSys t) = false.
Proof. intros H. apply alertRun_hidden; [done|]. split; [done|constructor]. Qed.

(** The hide callbacks and [hideAlert] only hide: the banner's text
    is always the one of the last [showAlert]. *)
Theorem alert_message_last evs s t :
  Forall (fun e => ev_time e <= t) evs ->
  message (alertRun evs s t) = lastShown evs (message (alert s)).
Proof.
  revert s. induction evs as [|e evs IH]; intros s Hf; simpl.
  - apply fireDue_message.
  - inversion Hf as [|? ? He Hf']; subst.
    replace (Z.ltb t (ev_time e)) with false by (symmetry; apply Z.ltb_ge; lia).
    pose proof (proj1 (fireDue_message (fun d => Z.ltb d (ev_time e)) (pending s) (alert s))) as Hm.
    destruct (fireDue _ _ _) as [a ps]. simpl in Hm. rewrite IH by done.
    destruct e; simpl; [done|by rewrite Hm].
Qed.

(** C38: the callback of an earlier [showAlert] hides a later alert: when
    a second alert is shown [t2 - t1 < 3000] ms after a first one, it is
    visible from [t2] only until [t1 + 3000], when the first alert's
    callback hides it, so it stays up [t1 + 3000 - t2] ms instead of the
    3000 ms its own call scheduled. *)
Theorem alert_cut_short m1 ty1 t1 m2 ty2 t2 :
  t1 <= t2 < t1 + 3000 ->
  let evs := [EvShow m1 ty1 t1; EvShow m2 ty2 t2] in
  (forall t, t2 <= t < t1 + 3000 -> alertRun evs initialAlertSys t = mkAlertState m2 ty2 true) /\
  alertRun evs initialAlertSys (t1 + 3000) = mkAlertState m2 ty2 false.
Proof.
  intros Ht evs. split; [intros t Hu|];
    repeat (simpl; match goal with
    | |- context [Z.ltb ?a ?b] => destruct (Z.ltb_spec a b); try lia
    | |- context [Z.leb ?a ?b] => destruct (Z.leb_spec a b); try lia
    end); reflexivity.
Qed.

Lemma alert_hides_within_3s_witness :
  Forall (fun e => ev_time e + 3000 <= 5000) [EvShow (Lit "a") alert_info 0; EvHide 1000; EvShow (Lit "b") alert_info 2000] /\
  isVisible (alertRun [EvShow (Lit "a") alert_info 0; EvHide 1000; EvShow (Lit "b") alert_info 2000]
               initialAlertSys 5000) = false.
Proof.
  assert (H : Forall (fun e => ev_time e + 3000 <= 5000)
                [EvShow (Lit "a") alert_info 0; EvHide 1000; EvShow (Lit "b") alert_info 2000])
    by (repeat constructor; simpl; lia).
  split; [exact H|]. exact (alert_hides_within_3s _ 5000 H).
Defined.

Lemma alert_cut_short_witness :
  (0 <= 2000 < 0 + 3000) /\
  alertRun [EvShow (Lit "first") alert_warning 0; EvShow (Lit "second") alert_error 2000]
    initialAlertSys (0 + 3000) = mkAlertState (Lit "second") alert_error false.
Proof.
  assert (H : 0 <= 2000 < 0 + 3000) by lia.
  split; [exact H|exact (proj2 (alert_cut_short (Lit "first") alert_warning 0 (Lit "second")
                                   alert_error 2000 H))].
Defined.

Lemma alert_message_last_witness :
  Forall (fun e => ev_time e <= 2500) [EvShow (Lit "a") alert_info 0; EvHide 1000] /\
  message (alertRun [EvShow (Lit "a") alert_info 0; EvHide 1000] initialAlertSys 2500) = Lit "a".
Proof.
  assert (H : Forall (fun e => ev_time e <= 2500) [EvShow (Lit "a") alert_info 0; EvHide 1000])
    by (repeat constructor; simpl; lia).
  split; [exact H|]. exact (alert_message_last _ initialAlertSys 2500 H).
Defined.

(** ** The rendered banner *)

(** The box and its icon use the same colour for every alert type. *)
Lemma alertBox_colours ty :
  exists c, getAlertStyles ty =
              ("bg-" ++ c ++ "-900/90 border-" ++ c ++ "-600 text-" ++ c ++ "-100")%string /\
            snd (getIcon ty) = ("w-5 h-5 text-" ++ c ++ "-400")%string.
Proof.
  destruct ty; [exists "red"%string|exists "yellow"%string|exists "blue"%string
               |exists "green"%string]; split; reflexivity.
Qed.

(** Once 3000 ms have passed since the last event, [Alert] renders
    nothing. *)
Lemma alertBox_gone evs t :
  Forall (fun e => ev_time e + 3000 <= t) evs -> alertBox (alertRun evs initialAlertSys t) = None.
Proof.
  intros Hf. unfold alertBox. rewrite alertRun_hidden; [done|done|].
  split; [done|constructor].
Qed.

(** A success is shown with the same cross glyph as an error. *)
Lemma alert_success_cross : fst (getIcon alert_success) = fst (getIcon alert_error).
Proof. reflexivity. Qed.
