(* ===== verification/Persistence.v ===== *)
(** * Persistence: localStorage, [accountStorage] and App's two effects

    [storage] and [accountStorage] (src/src/utils/storageUtils.ts) over a
    [localStorage] modelled as a finite map from keys to the stored value.
    The only value stored is the account array, kept decoded: what
    [JSON.stringify] writes for these plain records [JSON.parse] reads
    back, fields left [undefined] being dropped and read back as
    [undefined] ([None]).  The [try]/[catch] around the browser calls
    (quota, privacy mode, malformed JSON) are not modelled; [storage.clear]
    empties the map, and [storage.isAvailable] writes and removes its test
    key (the test value is any value of the map's type: only the key
    matters).

    App.tsx persists the registry with two effects: on mount it loads the
    saved accounts into the hook ([appInit]), and whenever [accounts]
    changes after initialisation it saves their sanitized projection
    ([autoSave], with [PersistedAccount] from Types.v).  [appMount] is
    the first two commits: the save effect of the first render sees
    [isInitializing = true] and does nothing; the state set by the load
    effect is rendered, and the save effect saves it. *)

From Stdlib Require Import List ZArith String Bool Lia.
From stdpp Require Import base gmap strings list.
From S2P Require Import Prelude Types Registry Samples.
Import ListNotations.
Open Scope string_scope.

(** [STORAGE_KEYS.ACCOUNTS] *)
Definition ACCOUNTS_KEY : string := "kingshot-gift-code-accounts".

Abbreviation Storage := (gmap string (list Account)).

Definition storage_set (key : string) (data : list Account) (st : Storage) : Storage :=
  <[key := data]> st.

(** [item === null ? defaultValue : JSON.parse(item)] *)
Definition storage_get (key : string) (defaultValue : list Account) (st : Storage) : list Account :=
  match st !! key with Some v => v | None => defaultValue end.

Definition storage_remove (key : string) (st : Storage) : Storage := delete key st.

(** [storage.clear] *)
Definition storage_clear (_ : Storage) : Storage := ∅.

(** [storage.isAvailable]: write ["test"] under ["__test__"], remove it,
    answer [true] (the [catch] of a failing browser call is not
    modelled).  The value written is never read back, so any value of the
    map stands for the string. *)
Definition storage_isAvailable (testValue : list Account) (st : Storage) : bool * Storage :=
  (true, storage_remove "__test__" (storage_set "__test__" testValue st)).

Definition saveAccounts (accounts_ : list Account) (st : Storage) : Storage :=
  storage_set ACCOUNTS_KEY accounts_ st.

Definition loadAccounts (st : Storage) : list Account := storage_get ACCOUNTS_KEY [] st.

Definition clearAccounts (st : Storage) : Storage := storage_remove ACCOUNTS_KEY st.

(** [accountStorage.addAccount]: push and save unless the number is there. *)
Definition storage_addAccount (account : Account) (st : Storage) : Storage :=
  let accs := loadAccounts st in
  if existsb (fun acc => String.eqb (accountNumber acc) (accountNumber account)) accs then st
  else saveAccounts (accs ++ [account]) st.

(** [Partial<Account>]: [Some v] for a field present in [updates]. *)
Record AccountPatch := mkPatch {
  u_id : option string;
  u_accountNumber : option string;
  u_status : option AccountStatus;
  u_lastResult : option (option Text);
  u_playerInfo : option (option PlayerInfo);
  u_isValidated : option bool;
}.

Definition patchField {A} (o : option A) (v : A) : A := match o with Some x => x | None => v end.

(** [{ ...accounts[index], ...updates }] *)
Definition applyPatch (a : Account) (u : AccountPatch) : Account :=
  {| id := patchField (u_id u) (id a);
     accountNumber := patchField (u_accountNumber u) (accountNumber a);
     status := patchField (u_status u) (status a);
     lastResult := patchField (u_lastResult u) (lastResult a);
     playerInfo := patchField (u_playerInfo u) (playerInfo a);
     isValidated := patchField (u_isValidated u) (isValidated a) |}.

(** [accounts.findIndex((acc) => acc.id === accountId)], [None] for -1. *)
Fixpoint findIndexById (accountId : string) (l : list Account) : option nat :=
  match l with
  | [] => None
  | a :: rest =>
      if String.eqb (id a) accountId then Some 0
      else option_map S (findIndexById accountId rest)
  end.

Definition storage_updateAccount (accountId : string) (updates : AccountPatch) (st : Storage)
    : Storage :=
  let accs := loadAccounts st in
  match findIndexById accountId accs with
  | Some index =>
      match accs !! index with
      | Some a => saveAccounts (<[index := applyPatch a updates]> accs) st
      | None => st
      end
  | None => st
  end.

Definition storage_deleteAccount (accountId : string) (st : Storage) : Storage :=
  saveAccounts (List.filter (fun acc => negb (String.eqb (id acc) accountId)) (loadAccounts st)) st.

(** ** App.tsx *)

(** The [sanitized] projection of the save effect. *)
Definition sanitize (a : Account) : PersistedAccount :=
  mkPersisted (id a) (accountNumber a) idle (isValidated a) (playerInfo a).

(** A persisted record read back as [Account] ([lastResult] absent). *)
Definition fromPersisted (p : PersistedAccount) : Account :=
  mkAccount (p_id p) (p_accountNumber p) (p_status p) None (p_playerInfo p) (p_isValidated p).

Definition persistAccount (a : Account) : Account := fromPersisted (sanitize a).

Record AppState := mkAppState {
  app_hook : HookState;
  store : Storage;
  isInitializing : bool;
}.

(** The load effect. *)
Definition appInit (st : AppState) : AppState :=
  let savedAccounts := loadAccounts (store st) in
  mkAppState (if Nat.ltb 0 (length savedAccounts)
              then setAccounts (fun _ => savedAccounts) (app_hook st) else app_hook st)
             (store st) false.

(** The save effect. *)
Definition autoSave (st : AppState) : AppState :=
  if isInitializing st then st
  else mkAppState (app_hook st)
         (saveAccounts (List.map persistAccount (accounts (app_hook st))) (store st))
         (isInitializing st).

Definition appMount (st : AppState) : AppState := autoSave (appInit (autoSave st)).

(** A fresh page over the storage [s]. *)
Definition freshApp (s : Storage) : AppState := mkAppState (emptyHook []) s true.

(** ** Lemmas *)

Lemma loadAccounts_save l st : loadAccounts (saveAccounts l st) = l.
Proof.
  unfold loadAccounts, storage_get, saveAccounts, storage_set.
  by rewrite lookup_insert_eq.
Qed.

Lemma persistAccount_idem a : persistAccount (persistAccount a) = persistAccount a.
Proof. reflexivity. Qed.

Lemma map_persist_idem l : List.map persistAccount (List.map persistAccount l) = List.map persistAccount l.
Proof. rewrite List.map_map. apply List.map_ext. apply persistAccount_idem. Qed.

Lemma persistAccount_rewrite : acc_rewrite persistAccount.
Proof. intros a. repeat split; auto. Qed.

Lemma appMount_accounts s :
  accounts (app_hook (appMount (freshApp s))) = loadAccounts s /\
  store (appMount (freshApp s)) = saveAccounts (List.map persistAccount (loadAccounts s)) s.
Proof.
  unfold appMount, appInit, freshApp. simpl.
  destruct (Nat.ltb_spec 0 (length (loadAccounts s))); unfold autoSave; simpl; [done|].
  destruct (loadAccounts s); [done|simpl in *; lia].
Qed.

(** The availability probe leaves every other key as it was, and erases
    a value the application had stored under ["__test__"]. *)
Lemma storage_isAvailable_effect v st : snd (storage_isAvailable v st) = delete "__test__" st.
Proof. unfold storage_isAvailable, storage_remove, storage_set. simpl. apply delete_insert_eq. Qed.

Lemma storage_clear_load st : loadAccounts (storage_clear st) = [].
Proof. reflexivity. Qed.

(** ** Theorems *)

(** C39: closing the page and opening it again restores the registry
    as the save effect stored it: the same accounts in the same order,
    each [idle] with no last result, and the storage then holds the same
    array again. *)
Theorem session_restore h s :
  let saved := store (autoSave (mkAppState h s false)) in
  let st := appMount (freshApp saved) in
  accounts (app_hook st) = List.map persistAccount (accounts h) /\
  loadAccounts (store st) = List.map persistAccount (accounts h).
Proof.
  assert (E : store (autoSave (mkAppState h s false)) =
              saveAccounts (List.map persistAccount (accounts h)) s) by reflexivity.
  cbv zeta. rewrite E.
  destruct (appMount_accounts (saveAccounts (List.map persistAccount (accounts h)) s)) as [Ha Hs].
  rewrite Ha, Hs, !loadAccounts_save. split; [done|]. apply map_persist_idem.
Qed.

(** C40: the restored registry keeps the registry invariant (unique
    numbers and ids, validated accounts with a profile), and every
    restored account is [idle] with no last result. *)
Theorem restore_wf l :
  registry_wf l ->
  registry_wf (List.map persistAccount l) /\
  Forall (fun a => status a = idle /\ lastResult a = None) (List.map persistAccount l).
Proof.
  intros W. split; [by apply map_rewrite_wf; [apply persistAccount_rewrite|]|].
  apply Forall_map, List.Forall_forall. by intros a _.
Qed.

(** [accountStorage.addAccount] keeps the stored account numbers
    distinct, and the number is stored afterwards. *)
Theorem storage_addAccount_nodup a st :
  NoDup (numbers (loadAccounts st)) ->
  NoDup (numbers (loadAccounts (storage_addAccount a st))) /\
  accountNumber a ∈ numbers (loadAccounts (storage_addAccount a st)).
Proof.
  intros Hnd. unfold storage_addAccount.
  destruct (existsb _ _) eqn:E.
  - split; [done|]. apply existsb_exists in E as (b & Hb & Hn). apply String.eqb_eq in Hn.
    rewrite <- Hn. apply list_elem_of_In, in_map. done.
  - rewrite loadAccounts_save. unfold numbers. rewrite map_app. simpl.
    assert (Hnot : accountNumber a ∉ List.map accountNumber (loadAccounts st)).
    { intros Hin. apply list_elem_of_In, in_map_iff in Hin as (b & Hb & Hin).
      assert (existsb (fun acc => String.eqb (accountNumber acc) (accountNumber a))
                (loadAccounts st) = true) by (apply existsb_exists; exists b;
                                                split; [done|by apply String.eqb_eq]).
      congruence. }
    split; [by apply NoDup_app; repeat split; [done| |apply NoDup_singleton]; set_solver|].
    apply elem_of_app. right. by left.
Qed.

Lemma session_restore_wf_witness :
  registry_wf twoValidated /\
  registry_wf (List.map persistAccount twoValidated) /\
  Forall (fun a => status a = idle /\ lastResult a = None) (List.map persistAccount twoValidated).
Proof.
  assert (W : registry_wf twoValidated).
  { split; [|split]; [apply NoDup_ListNoDup; repeat constructor; simpl; intuition discriminate
                     |apply NoDup_ListNoDup; repeat constructor; simpl; intuition discriminate
                     |repeat constructor; by eexists]. }
  split; [exact W|]. exact (restore_wf twoValidated W).
Defined.

Lemma storage_addAccount_nodup_witness :
  NoDup (numbers (loadAccounts (saveAccounts [val1] ∅))) /\
  NoDup (numbers (loadAccounts (storage_addAccount val2 (saveAccounts [val1] ∅)))) /\
  accountNumber val2 ∈ numbers (loadAccounts (storage_addAccount val2 (saveAccounts [val1] ∅))).
Proof.
  assert (H : NoDup (numbers (loadAccounts (saveAccounts [val1] ∅))))
    by (rewrite loadAccounts_save; apply NoDup_singleton).
  split; [exact H|]. exact (storage_addAccount_nodup val2 _ H).
Defined.

(** [updateAccount] patches the first account with the id only, where
    the hook's [updateAccountStatus] rewrites every account with it. *)
Example storage_update_first_only :
  let l := [freshAccount "7" "1001"; freshAccount "7" "1002"] in
  List.map status (loadAccounts (storage_updateAccount "7"
     (mkPatch None None (Some error) None None None) (saveAccounts l ∅))) = [error; idle] /\
  List.map status (updateAccountStatus "7" error None None l) = [error; error].
Proof. split; reflexivity. Qed.
