(* ===== verification/Autosave.v ===== *)
(** * Autosave: [createAutoSave] of storageUtils.ts

    [createAutoSave(key, data, debounceMs = 1000)] schedules
    [storage.set(key, data)] after [debounceMs] and returns the cleanup
    [() => clearTimeout(timeoutId)].  Nothing in the application calls it
    (App.tsx saves in its own effect, Persistence.v); it is meant to be
    returned from an effect, so that React runs the previous cleanup
    before the next effect and only the last data is written.

    [Timers] is the storage, the pending timers (id, due time, key, data)
    in creation order, the next timer id, and the log of the writes made
    ([storage.set] calls).  [fireWhere] runs the pending timers whose due
    time satisfies a test, earliest first.  [autosaveRun] plays the
    changes of the data and the passing of time for such an effect. *)

From Stdlib Require Import List ZArith String Bool Lia.
From stdpp Require Import base gmap strings list sorting.
From S2P Require Import Prelude Types Registry Persistence Samples.
Import ListNotations.
Open Scope Z_scope.

Record SaveTimer := mkSaveTimer {
  t_id : nat;
  t_due : Z;
  t_key : string;
  t_data : list Account;
}.

Record Timers := mkTimers {
  ts_store : Storage;
  ts_pending : list SaveTimer;
  ts_nextId : nat;
  ts_writes : list (string * list Account);
}.

(** [createAutoSave(key, data, debounceMs)] called at [now]: the cleanup
    (the id of the timer) and the timers.  A negative delay waits 0 ms. *)
Definition createAutoSave (key : string) (data : list Account) (debounceMs now : Z)
    (s : Timers) : nat * Timers :=
  let tid := ts_nextId s in
  (tid, mkTimers (ts_store s)
          (ts_pending s ++ [mkSaveTimer tid (now + Z.max debounceMs 0) key data])
          (S tid) (ts_writes s)).

(** The returned cleanup: [clearTimeout(timeoutId)]. *)
Definition clearTimeout (tid : nat) (s : Timers) : Timers :=
  mkTimers (ts_store s) (List.filter (fun t => negb (Nat.eqb (t_id t) tid)) (ts_pending s))
    (ts_nextId s) (ts_writes s).

(** A timer fires: [storage.set(key, data)]. *)
Definition fireTimer (s : Timers) (t : SaveTimer) : Timers :=
  mkTimers (storage_set (t_key t) (t_data t) (ts_store s)) (ts_pending s) (ts_nextId s)
    (ts_writes s ++ [(t_key t, t_data t)]).

(** The timers whose due time passes [due] fire, earliest first. *)
Definition fireWhere (due : Z -> bool) (s : Timers) : Timers :=
  let ready := merge_sort (fun a b => Z.leb (t_due a) (t_due b))
                 (List.filter (fun t => due (t_due t)) (ts_pending s)) in
  fold_left fireTimer ready
    (mkTimers (ts_store s) (List.filter (fun t => negb (due (t_due t))) (ts_pending s))
       (ts_nextId s) (ts_writes s)).

(** ** An effect that returns [createAutoSave] as its cleanup *)

Inductive SaveEvent :=
| SChange (data : list Account) (t : Z)   (** the effect's dependency changes *)
| STick (t : Z).                          (** time passes *)

(** On a change at [t]: the timers due before [t] fire, React runs the
    previous cleanup, then the effect schedules the new save. *)
Fixpoint autosaveRun (key : string) (ms : Z) (evs : list SaveEvent) (cleanup : option nat)
    (s : Timers) : option nat * Timers :=
  match evs with
  | [] => (cleanup, s)
  | SChange d t :: rest =>
      let s1 := fireWhere (fun due => Z.ltb due t) s in
      let s2 := match cleanup with Some c => clearTimeout c s1 | None => s1 end in
      let '(c, s3) := createAutoSave key d ms t s2 in
      autosaveRun key ms rest (Some c) s3
  | STick t :: rest => autosaveRun key ms rest cleanup (fireWhere (fun due => Z.leb due t) s)
  end.

(** The data of the last change, if any. *)
Definition lastChange (evs : list SaveEvent) : option (list Account) :=
  fold_left (fun o e => match e with SChange d _ => Some d | STick _ => o end) evs None.

(** With the cleanup discipline, at most one save is pending, for the last
    data; once it has fired, the last data is stored. *)
Definition as_inv (key : string) (last : option (list Account)) (cleanup : option nat)
    (s : Timers) : Prop :=
  match last with
  | None => ts_pending s = [] /\ cleanup = None
  | Some d =>
      exists c, cleanup = Some c /\
        ((exists due, ts_pending s = [mkSaveTimer c due key d]) \/
         (ts_pending s = [] /\ ts_store s !! key = Some d))
  end.

(** ** Lemmas *)

Lemma fireWhere_nil p s :
  ts_pending s = [] -> ts_pending (fireWhere p s) = [] /\ ts_store (fireWhere p s) = ts_store s.
Proof. intros E. unfold fireWhere. by rewrite E. Qed.

Lemma fireWhere_one p s x :
  ts_pending s = [x] ->
  fireWhere p s =
  if p (t_due x) then fireTimer (mkTimers (ts_store s) [] (ts_nextId s) (ts_writes s)) x
  else mkTimers (ts_store s) [x] (ts_nextId s) (ts_writes s).
Proof. intros E. unfold fireWhere. rewrite E. simpl. by destruct (p (t_due x)). Qed.

(** Timers fire without breaking the invariant. *)
Lemma fireWhere_inv key last c p s : as_inv key last c s -> as_inv key last c (fireWhere p s).
Proof.
  destruct last as [d|]; simpl.
  - intros (c' & -> & H). exists c'. split; [done|]. destruct H as [[due E]|[E Hs]].
    + rewrite (fireWhere_one _ _ _ E). simpl. destruct (p due); simpl.
      * right. split; [done|]. unfold storage_set. apply lookup_insert_eq.
      * left. by exists due.
    + right. destruct (fireWhere_nil p s E) as [-> ->]. done.
  - intros [E ->]. split; [apply (fireWhere_nil p s E)|done].
Qed.

(** The previous cleanup leaves nothing pending. *)
Lemma cleanup_clears key last c s :
  as_inv key last c s ->
  ts_pending (match c with Some c' => clearTimeout c' s | None => s end) = [].
Proof.
  destruct last as [d|]; simpl.
  - intros (c' & -> & [[due E]|[E _]]); simpl; rewrite E; simpl; [by rewrite Nat.eqb_refl|done].
  - by intros [E ->].
Qed.

Lemma autosave_step key ms e last c s :
  as_inv key last c s ->
  let r := autosaveRun key ms [e] c s in
  as_inv key (match e with SChange d _ => Some d | STick _ => last end) (fst r) (snd r).
Proof.
  intros Hinv. destruct e as [d t|t]; simpl.
  - pose proof (cleanup_clears key last c _ (fireWhere_inv key last c (fun due => Z.ltb due t) s Hinv))
      as Hc.
    destruct (match c with Some c' => clearTimeout c' _ | None => _ end) as [st p n w]. simpl in *.
    subst p. simpl. eexists; split; [done|left]. by eexists.
  - by apply fireWhere_inv.
Qed.

Lemma autosaveRun_app key ms evs1 evs2 c s :
  autosaveRun key ms (evs1 ++ evs2) c s =
  let '(c1, s1) := autosaveRun key ms evs1 c s in autosaveRun key ms evs2 c1 s1.
Proof.
  revert c s. induction evs1 as [|[d t|t] evs1 IH]; intros c s; simpl; [done|apply IH..].
Qed.

Lemma lastChange_snoc evs e :
  lastChange (evs ++ [e]) = match e with SChange d _ => Some d | STick _ => lastChange evs end.
Proof. unfold lastChange. rewrite fold_left_app. by destruct e. Qed.

(** ** Theorems *)

(** C23: [createAutoSave] debounces when its cleanup is run before each new
    call, as an effect returning it does: whatever the changes of the data
    and the passing of time, at most one save is pending, and it is the
    save of the last data (an earlier save still pending is cancelled);
    once the time of that save has come, the last data is what the storage
    holds under the key. *)
Theorem autosave_debounce key ms evs s :
  ts_pending s = [] ->
  let r := autosaveRun key ms evs None s in
  as_inv key (lastChange evs) (fst r) (snd r) /\
  (forall d, lastChange evs = Some d ->
   ts_store (fireWhere (fun _ => true) (snd r)) !! key = Some d).
Proof.
  intros E0. cbv zeta.
  assert (Hinv : as_inv key (lastChange evs) (fst (autosaveRun key ms evs None s))
                   (snd (autosaveRun key ms evs None s))).
  { induction evs as [|e evs IH] using rev_ind; [by split|].
    rewrite autosaveRun_app, lastChange_snoc.
    destruct (autosaveRun key ms evs None s) as [c1 s1] eqn:Er. simpl in IH.
    by apply (autosave_step key ms e _ c1 s1). }
  split; [done|]. intros d Hd. rewrite Hd in Hinv.
  destruct Hinv as (c & _ & [[due E]|[E Hs]]).
  - rewrite (fireWhere_one _ _ _ E). simpl. unfold storage_set. apply lookup_insert_eq.
  - by rewrite (proj2 (fireWhere_nil _ _ E)).
Qed.

(** Three changes 100 ms apart with the default 1000 ms delay: one write,
    of the last data, 1000 ms after the last change; the first two saves
    are cancelled by their cleanups. *)
Lemma autosave_burst :
  let d i := [freshAccount i "n"] in
  let r := autosaveRun "k" 1000 [SChange (d "1") 0; SChange (d "2") 100; SChange (d "3") 200;
                                STick 1199; STick 1200] None (mkTimers ∅ [] 0 []) in
  ts_writes (snd r) = [("k", d "3")] /\ ts_pending (snd r) = [] /\ ts_store (snd r) !! "k" = Some (d "3").
Proof. vm_compute. auto. Qed.

Lemma autosave_debounce_witness :
  let d i := [freshAccount i "n"] in
  let evs := [SChange (d "1") 0; SChange (d "2") 100; SChange (d "3") 200] in
  ts_pending (mkTimers ∅ [] 0 []) = [] /\
  ts_store (fireWhere (fun _ => true) (snd (autosaveRun "k" 1000 evs None (mkTimers ∅ [] 0 []))))
    !! "k" = Some (d "3").
Proof.
  intros d evs. assert (H : ts_pending (mkTimers ∅ [] 0 []) = []) by reflexivity.
  split; [exact H|].
  exact (proj2 (autosave_debounce "k" 1000 evs _ H) (d "3") eq_refl).
Defined.
