(* ===== verification/Refinement.v ===== *)
(** * Refinement: the account list implements a registry keyed by id

    The hook keeps its accounts in an array and changes it with the
    primitives of Registry.v.  What its clients rely on is less: a finite
    map from account ids to accounts.  [RegistryOps] is that interface
    (update one account, update a batch, remove, append, reset the round's
    results, look up by id).  [list_registry] is the code, [map_registry]
    the abstract specification over stdpp's [gmap]: update is [alter],
    removal [delete], appending [insert], the reset and the batch are maps
    over the values.  [absR] sends a list to the map of its accounts by id.

    A client is written once against the interface ([reg_run] plays a
    sequence of operations); the refinement theorem says that, as long as
    every appended account has a fresh id (the precondition [ops_ok], stated
    on the abstract side), running the list and abstracting gives the map
    run, ids stay unique, and every lookup agrees. *)

From Stdlib Require Import List String Bool.
From stdpp Require Import base gmap list strings.
From S2P Require Import Prelude Types Registry Samples.
Import ListNotations.
Open Scope string_scope.

Class RegistryOps (R : Type) := {
  reg_update : string -> AccountStatus -> option Text -> option PlayerInfo -> R -> R;
  reg_batch : list StatusUpdate -> R -> R;
  reg_remove : string -> R -> R;
  reg_append : Account -> R -> R;
  reg_reset : R -> R;
  reg_find : string -> R -> option Account;
}.

(** The code: the primitives of Registry.v. *)
#[export] Instance list_registry : RegistryOps (list Account) := {|
  reg_update := updateAccountStatus;
  reg_batch := updateAccountStatusBatch;
  reg_remove := removeAccount;
  reg_append := appendAccount;
  reg_reset := resetRoundResults;
  reg_find := findAccount;
|}.

(** The specification: a finite map from ids to accounts. *)
Abbreviation AbsRegistry := (gmap string Account).

#[export] Instance map_registry : RegistryOps AbsRegistry := {|
  reg_update aid st lr pi m := alter (fun a => applyStatusUpdate a st lr pi) aid m;
  reg_batch us m := map_imap (fun k a => Some (batchAt us k a)) m;
  reg_remove aid m := delete aid m;
  reg_append a m := <[id a := a]> m;
  reg_reset m := resetOne <$> m;
  reg_find aid m := m !! aid;
|}.

(** The abstraction function. *)
Definition absR (l : list Account) : AbsRegistry :=
  list_to_map (List.map (fun a => (id a, a)) l).

Inductive RegOp :=
| OpUpdate (aid : string) (st : AccountStatus) (lr : option Text) (pi : option PlayerInfo)
| OpBatch (updates : list StatusUpdate)
| OpRemove (aid : string)
| OpAppend (a : Account)
| OpReset.

Definition reg_step {R} `{RegistryOps R} (op : RegOp) (r : R) : R :=
  match op with
  | OpUpdate aid st lr pi => reg_update aid st lr pi r
  | OpBatch us => reg_batch us r
  | OpRemove aid => reg_remove aid r
  | OpAppend a => reg_append a r
  | OpReset => reg_reset r
  end.

(** A client of the interface: the operations in order. *)
Fixpoint reg_run {R} `{RegistryOps R} (ops : list RegOp) (r : R) : R :=
  match ops with
  | [] => r
  | op :: rest => reg_run rest (reg_step op r)
  end.

(** The precondition, on the abstract side: every appended id is fresh. *)
Fixpoint ops_ok (ops : list RegOp) (m : AbsRegistry) : Prop :=
  match ops with
  | [] => True
  | OpAppend a :: rest => m !! id a = None /\ ops_ok rest (reg_step (OpAppend a) m)
  | op :: rest => ops_ok rest (reg_step op m)
  end.

(** Every key maps to the account with that id. *)
Definition keyed (m : AbsRegistry) : Prop := map_Forall (fun k a => id a = k) m.

(** ** The abstraction, operation by operation *)

Lemma absR_cons a l : absR (a :: l) = <[id a := a]> (absR l).
Proof. reflexivity. Qed.

Lemma absR_keyed l : keyed (absR l).
Proof.
  induction l as [|a l IH]; [apply map_Forall_empty|].
  rewrite absR_cons. by apply map_Forall_insert_2.
Qed.

Lemma absR_None l k : absR l !! k = None <-> k ∉ ids l.
Proof.
  induction l as [|a l IH]; [split; [intros _; apply not_elem_of_nil|done]|].
  rewrite absR_cons, lookup_insert_None, IH. unfold ids. simpl.
  rewrite not_elem_of_cons. naive_solver.
Qed.

(** A rewrite that keeps ids is a map over the values. *)
Lemma absR_map f l : (forall a, id (f a) = id a) -> absR (List.map f l) = f <$> absR l.
Proof.
  intros Hf. induction l as [|a l IH]; [symmetry; apply fmap_empty|].
  simpl List.map. rewrite !absR_cons, IH, Hf. by rewrite fmap_insert.
Qed.

Lemma keyed_fmap_alter (g h : Account -> Account) aid m :
  keyed m -> (forall a, g a = if String.eqb (id a) aid then h a else a) ->
  g <$> m = alter h aid m.
Proof.
  intros Hk Hg. apply map_eq. intros k. rewrite lookup_fmap, lookup_alter.
  destruct (m !! k) as [a|] eqn:E; simpl; case_decide; subst; rewrite ?E; try done.
  - rewrite Hg, (Hk _ _ E), String.eqb_refl. done.
  - rewrite Hg, (Hk _ _ E). by rewrite (proj2 (String.eqb_neq _ _)) by congruence.
Qed.

Lemma keyed_fmap_imap (g : string -> Account -> Account) m :
  keyed m -> (fun a => g (id a) a) <$> m = map_imap (fun k a => Some (g k a)) m.
Proof.
  intros Hk. apply map_eq. intros k. rewrite lookup_fmap, map_lookup_imap.
  destruct (m !! k) as [a|] eqn:E; simpl; [by rewrite (Hk _ _ E)|done].
Qed.

Lemma absR_remove aid l : absR (removeAccount aid l) = delete aid (absR l).
Proof.
  induction l as [|a l IH]; [symmetry; apply delete_empty|].
  unfold removeAccount. simpl. rewrite absR_cons.
  destruct (String.eqb_spec (id a) aid) as [<-|Hne]; simpl.
  - by rewrite delete_insert_eq.
  - rewrite absR_cons, delete_insert_ne by congruence. by f_equal.
Qed.

Lemma absR_append a l : absR l !! id a = None ->
  absR (appendAccount a l) = <[id a := a]> (absR l).
Proof.
  unfold appendAccount. induction l as [|b l IH]; intros Hn; [done|].
  simpl. rewrite !absR_cons. rewrite absR_cons in Hn.
  destruct (decide (id b = id a)) as [E|Hne]; [by rewrite E, lookup_insert_eq in Hn|].
  rewrite lookup_insert_ne in Hn by done. rewrite IH by done. by apply insert_insert_ne.
Qed.

Lemma findAccount_absR x l : NoDup (ids l) -> findAccount x l = absR l !! x.
Proof.
  induction l as [|a l IH]; intros Hnd; [done|].
  unfold ids in Hnd. simpl in Hnd. apply NoDup_cons in Hnd as [_ Hnd].
  unfold findAccount. simpl. rewrite absR_cons.
  destruct (String.eqb_spec (id a) x) as [<-|Hne]; [by rewrite lookup_insert_eq|].
  rewrite lookup_insert_ne by done. by apply IH.
Qed.

(** One operation: the abstraction commutes with it and ids stay unique. *)
Lemma reg_step_refines op l :
  NoDup (ids l) -> (forall a, op = OpAppend a -> absR l !! id a = None) ->
  absR (reg_step op l) = reg_step op (absR l) /\ NoDup (ids (reg_step op l)).
Proof.
  intros Hnd Hfresh. destruct op as [aid st lr pi|us|aid|a|]; simpl.
  - rewrite updateAccountStatus_as_map. split.
    + rewrite absR_map by (intros b; by destruct (negb _)).
      apply keyed_fmap_alter; [apply absR_keyed|]. intros b. by destruct (String.eqb _ _).
    + by rewrite <- updateAccountStatus_as_map, updateAccountStatus_ids.
  - unfold updateAccountStatusBatch. split.
    + rewrite absR_map by (intros b; apply acc_rewrite_batch).
      apply (keyed_fmap_imap (batchAt us)), absR_keyed.
    + by rewrite map_rewrite_ids by apply acc_rewrite_batch.
  - split; [apply absR_remove|]. by apply NoDup_map_filter.
  - specialize (Hfresh a eq_refl). split; [by apply absR_append|].
    apply NoDup_map_snoc; [done|]. by apply absR_None.
  - unfold resetRoundResults. split; [apply absR_map; intros b; apply acc_rewrite_reset|].
    by rewrite map_rewrite_ids by apply acc_rewrite_reset.
Qed.

(** ** Theorems *)

(** C12: the account list refines the registry specification: for any
    sequence of updates, batches, removals, appends and resets in which
    every appended account has a fresh id, running the list primitives
    and abstracting gives the run of the map specification, ids stay
    unique, and looking an id up gives the same account on both sides. *)
Theorem registry_refinement ops l :
  NoDup (ids l) -> ops_ok ops (absR l) ->
  absR (reg_run ops l) = reg_run ops (absR l) /\ NoDup (ids (reg_run ops l)) /\
  (forall x, reg_find x (reg_run ops l) = reg_find x (reg_run ops (absR l))).
Proof.
  revert l. induction ops as [|op ops IH]; intros l Hnd Hok.
  - split; [done|split; [done|]]. intros x. by apply findAccount_absR.
  - assert (Hfresh : forall a, op = OpAppend a -> absR l !! id a = None)
      by (intros a ->; exact (proj1 Hok)).
    destruct (reg_step_refines op l Hnd Hfresh) as [Habs Hnd'].
    assert (Hok' : ops_ok ops (absR (reg_step op l))).
    { rewrite Habs. by destruct op; [..|apply Hok|]. }
    destruct (IH _ Hnd' Hok') as (H1 & H2 & H3). simpl. rewrite <- Habs. auto.
Qed.

Lemma registry_refinement_witness :
  NoDup (ids sample_registry) /\
  ops_ok [OpUpdate "1" success None None; OpAppend acc3; OpRemove "2"; OpReset]
    (absR sample_registry) /\
  reg_find "3" (reg_run [OpUpdate "1" success None None; OpAppend acc3; OpRemove "2"; OpReset]
                  sample_registry) = Some acc3.
Proof.
  assert (H1 : NoDup (ids sample_registry))
    by (apply NoDup_ListNoDup; repeat constructor; simpl; intuition discriminate).
  assert (H2 : ops_ok [OpUpdate "1" success None None; OpAppend acc3; OpRemove "2"; OpReset]
                 (absR sample_registry)) by (vm_compute; split; [reflexivity|done]).
  split; [exact H1|split; [exact H2|]].
  rewrite (proj2 (proj2 (registry_refinement _ _ H1 H2))). vm_compute. reflexivity.
Defined.
