(* ===== verification/AppShell.v ===== *)
(** * AppShell: App.tsx wiring the gift-code form, the roster and the hook

    App.tsx passes the hook's [isProcessing] to GiftCodeInput as
    [disabled] and [accounts.length > 0] as [hasAccounts]; the form then
    calls App's [handleGiftCodeSubmit], which awaits
    [submitGiftCodeToAccounts(code)].  Account rows (AccountManager.tsx)
    call [onDeleteAccount], disabled while the account is processing or
    validating; the add field calls App's [handleAddAccount].

    [AppSession] is the hook state, the text of the gift-code input, and the
    calls in flight: every round started ([app_rounds], with the snapshot
    of validated accounts, the code, and the round's program counter
    [Redemption.RPc]) and every manual addition ([app_adds], with
    [AddAccount.APc]).  [AppEvent] lists what can happen next: the user
    types, submits, deletes or adds, or one pending call resumes with the
    outcome of its remote call (for a round: [Redemption.r_resume] with
    the lookup and redemption outcomes).  [appRun] plays a list of events;
    any interleaving of the user's actions with the calls' resumptions is
    such a list. *)

From Stdlib Require Import List ZArith String Bool Lia.
From stdpp Require Import base gmap strings list.
From S2P Require Import Prelude Types Api Registry Samples FileUtils Signing AddAccount Redemption Import Stats StatusView.
Import ListNotations.
Open Scope string_scope.

(** ** GiftCodeInput *)

(** [disabled={!giftCode.trim() || disabled || !hasAccounts}] *)
Definition submitDisabled (giftCode : string) (disabled hasAccounts : bool) : bool :=
  String.eqb (trim giftCode) "" || disabled || negb hasAccounts.

(** The button's text. *)
Definition submitLabel (disabled hasAccounts : bool) : Text :=
  if disabled then Tr "giftCode.processing" []
  else if negb hasAccounts then Tr "giftCode.needAccounts" []
  else Tr "giftCode.startAll" [].

(** A submission of the form reaches [handleSubmit] only through its
    button: a disabled submit button takes no click and blocks the
    implicit submission by Enter. *)
Definition giftCodeFormSubmit (giftCode : string) (disabled hasAccounts : bool)
    : option string :=
  if submitDisabled giftCode disabled hasAccounts then None
  else handleGiftCodeSubmit giftCode.

(** The input's [onChange]; the input is [disabled={disabled}]. *)
Definition giftCodeInputChange (value : string) (disabled : bool) (giftCode : string) : string :=
  if disabled then giftCode else value.

(** ** AccountManager's row buttons *)

(** [disabled={account.status === "processing" || account.status === "validating"}] *)
Definition deleteEnabled (a : Account) : bool :=
  negb (status_eqb (status a) processing || status_eqb (status a) validating).

(** ** App *)

Record AppSession := mkApp {
  app_hook : HookState;
  app_giftCode : string;
  app_rounds : list (list Account * string * RPc);
  app_adds : list APc;
}.

Inductive AppEvent :=
| EvType (value : string)
| EvSubmit
| EvDelete (aid : string)
| EvAdd (input : string) (now : N)
| EvAddResume (k : nat) (o : FetchOutcome PlayerInfoResponse)
| EvRound (k : nat) (lookup : nat -> Account -> FetchOutcome PlayerInfoResponse)
    (redeem : string -> string -> FetchOutcome GiftCodeResponse).

Definition hasAccounts (a : AppSession) : bool := Nat.ltb 0 (length (accounts (app_hook a))).

(** App's [handleGiftCodeSubmit]: start [submitGiftCodeToAccounts(code)]
    on the current registry, up to its first suspension. *)
Definition appGiftCodeSubmit (code : string) (a : AppSession) : AppSession :=
  let snapshot := accounts (app_hook a) in
  let '(h, pc) := submitGiftCodeToAccounts snapshot (app_hook a) in
  mkApp h (app_giftCode a) (app_rounds a ++ [(validatedOf snapshot, code, pc)]) (app_adds a).

(** App's [handleDeleteAccount], from the row of the account. *)
Definition appDelete (aid : string) (a : AppSession) : AppSession :=
  match List.find (fun acc => String.eqb (id acc) aid) (accounts (app_hook a)) with
  | Some acc =>
      if deleteEnabled acc
      then mkApp (deleteAccount aid (app_hook a)) (app_giftCode a) (app_rounds a) (app_adds a)
      else a
  | None => a
  end.

(** AccountManager's [handleAddAccount] then App's [handleAddAccount]. *)
Definition appAdd (input : string) (now : N) (a : AppSession) : AppSession :=
  match handleAddAccountInput input with
  | Some n =>
      let '(h, pc) := appHandleAddAccount (accounts (app_hook a)) n now (app_hook a) in
      mkApp h (app_giftCode a) (app_rounds a) (app_adds a ++ [pc])
  | None => a
  end.

Definition appAddResume (k : nat) (o : FetchOutcome PlayerInfoResponse) (a : AppSession)
    : AppSession :=
  match app_adds a !! k with
  | Some (AFetch tid n silent) =>
      let '(h, pc) := add_after_fetch tid n silent o (app_hook a) in
      mkApp h (app_giftCode a) (app_rounds a) (<[k := pc]> (app_adds a))
  | _ => a
  end.

Definition appRound (k : nat) lookup redeem (a : AppSession) : AppSession :=
  match app_rounds a !! k with
  | Some (vs, code, pc) =>
      let '(h, pc') := r_resume vs code lookup redeem pc (app_hook a) in
      mkApp h (app_giftCode a) (<[k := (vs, code, pc')]> (app_rounds a)) (app_adds a)
  | None => a
  end.

Definition app_event (ev : AppEvent) (a : AppSession) : AppSession :=
  match ev with
  | EvType value =>
      mkApp (app_hook a)
        (giftCodeInputChange value (isProcessing (app_hook a)) (app_giftCode a))
        (app_rounds a) (app_adds a)
  | EvSubmit =>
      match giftCodeFormSubmit (app_giftCode a) (isProcessing (app_hook a)) (hasAccounts a) with
      | Some code => appGiftCodeSubmit code a
      | None => a
      end
  | EvDelete aid => appDelete aid a
  | EvAdd input now => appAdd input now a
  | EvAddResume k o => appAddResume k o a
  | EvRound k lookup redeem => appRound k lookup redeem a
  end.

Fixpoint appRun (evs : list AppEvent) (a : AppSession) : AppSession :=
  match evs with
  | [] => a
  | ev :: rest => appRun rest (app_event ev a)
  end.

(** The rounds still in their loop. *)
Definition loopCount (rs : list (list Account * string * RPc)) : nat :=
  length (List.filter (fun r => r_looping (snd r)) rs).

(** At most one round is in its loop, and [isProcessing] says whether one is. *)
Definition app_inv (a : AppSession) : Prop :=
  loopCount (app_rounds a) <= 1 /\
  isProcessing (app_hook a) = Nat.ltb 0 (loopCount (app_rounds a)).

(** ** The flag [isProcessing] through one call *)

Lemma r_head_flag vs i s :
  isProcessing (fst (r_head vs i s)) = isProcessing s && r_looping (snd (r_head vs i s)).
Proof.
  unfold r_head. destruct (nth_error vs i); simpl;
    [by rewrite andb_true_r|by rewrite andb_false_r].
Qed.

Lemma r_next_flag vs i s :
  isProcessing (fst (r_next vs i s)) = isProcessing s && r_looping (snd (r_next vs i s)).
Proof.
  unfold r_next. destruct (Nat.ltb _ _); [simpl; by rewrite andb_true_r|apply r_head_flag].
Qed.

Lemma r_settle_flag vs i acc r s :
  isProcessing (fst (r_settle vs i acc r s)) =
  isProcessing s && r_looping (snd (r_settle vs i acc r s)).
Proof. unfold r_settle. rewrite r_next_flag. by destruct r. Qed.

(** A resumption clears the flag exactly when it leaves the loop, and a
    round out of its loop stays out. *)
Lemma r_resume_flag vs code lookup redeem pc s :
  let r := r_resume vs code lookup redeem pc s in
  isProcessing (fst r) =
    (if r_looping pc then isProcessing s && r_looping (snd r) else isProcessing s) /\
  (r_looping pc = false -> r_looping (snd r) = false).
Proof.
  destruct pc as [i acc|i acc|i| |]; simpl;
    (split; [|intros H; try discriminate H; reflexivity]).
  - unfold r_after_fetch. destruct (fetchPlayerInfo _); [|by rewrite r_next_flag].
    destruct (negb _); [by rewrite r_settle_flag|simpl; by rewrite andb_true_r].
  - apply r_settle_flag.
  - apply r_head_flag.
  - reflexivity.
  - reflexivity.
Qed.

(** Started with the flag clear, a round sets it exactly when it enters
    its loop. *)
Lemma submit_flag snapshot s :
  isProcessing s = false ->
  isProcessing (fst (submitGiftCodeToAccounts snapshot s)) =
  r_looping (snd (submitGiftCodeToAccounts snapshot s)).
Proof.
  intros H. unfold submitGiftCodeToAccounts.
  destruct (Nat.eqb _ 0); [done|]. destruct (Nat.eqb _ 0); [done|].
  by rewrite r_head_flag.
Qed.

Lemma addAccount_flag snapshot n silent now s :
  isProcessing (fst (addAccount snapshot n silent now s)) = isProcessing s.
Proof. unfold addAccount. destruct (existsb _ _); [destruct silent|]; reflexivity. Qed.

Lemma add_after_fetch_flag tid n silent o s :
  isProcessing (fst (add_after_fetch tid n silent o s)) = isProcessing s.
Proof. unfold add_after_fetch. destruct (fetchPlayerInfo o); [|destruct silent]; reflexivity. Qed.

Lemma giftCodeFormSubmit_enabled g d h c : giftCodeFormSubmit g d h = Some c -> d = false.
Proof.
  unfold giftCodeFormSubmit, submitDisabled. destruct d; [|done].
  by rewrite orb_true_r.
Qed.

(** ** Counting the rounds in their loop *)

Lemma loopCount_snoc rs r :
  loopCount (rs ++ [r]) = loopCount rs + (if r_looping (snd r) then 1 else 0).
Proof.
  unfold loopCount. rewrite List.filter_app, length_app. simpl.
  by destruct (r_looping _).
Qed.

Lemma loopCount_insert rs k r r' :
  rs !! k = Some r' ->
  loopCount (<[k := r]> rs) + (if r_looping (snd r') then 1 else 0) =
  loopCount rs + (if r_looping (snd r) then 1 else 0).
Proof.
  unfold loopCount. revert k. induction rs as [|x rs IH]; intros [|k] Hk; simplify_eq/=.
  - destruct (r_looping (snd r)), (r_looping (snd r')); simpl; lia.
  - specialize (IH k Hk). destruct (r_looping (snd x)); simpl; lia.
Qed.

Lemma loopCount_lookup rs k r :
  rs !! k = Some r -> (if r_looping (snd r) then 1 else 0) <= loopCount rs.
Proof.
  unfold loopCount. revert k. induction rs as [|x rs IH]; intros [|k] Hk; simplify_eq/=.
  - destruct (r_looping (snd r)); simpl; lia.
  - specialize (IH k Hk). destruct (r_looping (snd x)); simpl; lia.
Qed.

(** ** The invariant through one event *)

Lemma app_inv_hook a h rs :
  isProcessing h = isProcessing (app_hook a) -> rs = app_rounds a -> app_inv a ->
  forall g ads, app_inv (mkApp h g rs ads).
Proof. intros Hh -> [Hc Hp] g ads. split; [done|]. simpl. by rewrite Hh. Qed.

Lemma appRound_inv k lookup redeem a : app_inv a -> app_inv (appRound k lookup redeem a).
Proof.
  intros [Hc Hp]. unfold appRound.
  destruct (app_rounds a !! k) as [[[vs code] pc]|] eqn:E; [|by split].
  destruct (r_resume_flag vs code lookup redeem pc (app_hook a)) as [Hf Hl].
  pose proof (loopCount_insert (app_rounds a) k (vs, code, snd (r_resume vs code lookup redeem pc (app_hook a))) _ E) as Hi.
  pose proof (loopCount_lookup _ _ _ E) as Hle.
  destruct (r_resume _ _ _ _ _ _) as [h pc']. unfold app_inv. simpl in *.
  destruct (r_looping pc) eqn:Lp.
  - assert (loopCount (app_rounds a) = 1) as H1 by lia.
    rewrite H1 in Hp. simpl in Hp. rewrite Hp in Hf. simpl in Hf. rewrite Hf.
    destruct (r_looping pc'); simpl in *; split; try lia; symmetry;
      [apply Nat.ltb_lt|apply Nat.ltb_ge]; lia.
  - rewrite Hl in Hi by done. split; [lia|]. rewrite Hf, Hp. f_equal. lia.
Qed.

Lemma app_event_inv ev a : app_inv a -> app_inv (app_event ev a).
Proof.
  intros Hinv. destruct ev as [value| |aid|input now|k o|k lookup redeem]; simpl.
  - by apply (app_inv_hook a).
  - destruct (giftCodeFormSubmit _ _ _) as [code|] eqn:E; [|done].
    apply giftCodeFormSubmit_enabled in E. unfold appGiftCodeSubmit.
    pose proof (submit_flag (accounts (app_hook a)) (app_hook a) E) as Hf.
    destruct Hinv as [Hc Hp]. rewrite E in Hp.
    assert (loopCount (app_rounds a) = 0) as H0 by (symmetry in Hp; apply Nat.ltb_ge in Hp; lia).
    destruct (submitGiftCodeToAccounts _ _) as [h pc]. unfold app_inv. simpl in *.
    rewrite loopCount_snoc, H0. simpl. rewrite Hf.
    destruct (r_looping pc); split; (lia || reflexivity).
  - unfold appDelete. by destruct (List.find _ _); [destruct (deleteEnabled _)|].
  - unfold appAdd. destruct (handleAddAccountInput input); [|done].
    unfold appHandleAddAccount.
    pose proof (addAccount_flag (accounts (app_hook a)) s false now (app_hook a)) as Hf.
    destruct (addAccount _ _ _ _ _). by apply (app_inv_hook a).
  - unfold appAddResume. destruct (app_adds a !! k) as [[tid n sil|]|]; try done.
    pose proof (add_after_fetch_flag tid n sil o (app_hook a)) as Hf.
    destruct (add_after_fetch _ _ _ _ _). by apply (app_inv_hook a).
  - by apply appRound_inv.
Qed.

(** ** The two progress indicators *)

(** During a round the flag is set exactly while accounts remain. *)
Lemma r_inv_flag_remaining n pc s :
  r_inv n (pc, s) ->
  processingRemaining s = Some (Z.of_nat (n - r_completed n pc)) /\
  (isProcessing s = true <-> (0 < n - r_completed n pc)%nat).
Proof.
  intros (Hok & Hr & Hp). split; [done|]. rewrite Hp.
  destruct pc; simpl in *; split; intros H; try lia; try discriminate H; reflexivity.
Qed.

Lemma statusPanel_some l r : l <> [] -> exists p, statusPanel l r = Some p.
Proof.
  intros Hne. unfold statusPanel. simpl st_total.
  destruct (Nat.eqb_spec (length l) 0) as [E|_]; [by apply length_zero_iff_nil in E|eauto].
Qed.

(** The processing card of the panel spins exactly when its figure is
    positive. *)
Lemma statusPanel_processing_card l r p :
  statusPanel l r = Some p ->
  (exists v, In (statCard "status.processing" v "processing" true) (cards p)) <->
  Z.ltb 0 (processingDisplay (statusDisplay l r)) = true.
Proof.
  unfold statusPanel. destruct (Nat.eqb _ 0); [discriminate|]. intros [= <-]. simpl. split.
  - intros [v Hin]. unfold statCard in Hin.
    repeat destruct Hin as [Hin|Hin]; try done; injection Hin; intros;
      by destruct (Z.ltb _ _).
  - intros H. eexists. right; left. by rewrite H.
Qed.

(** ** Theorems *)

(** C13: the form serialises the gift-code rounds: from a state where
    the invariant holds (no round running and the flag clear, say), after
    any interleaving of typing, submissions, deletions, additions and
    resumptions of the pending calls, at most one round is in its loop,
    [isProcessing] is true exactly when one is, and while one is a
    further submission of the form changes nothing. *)
Theorem app_rounds_serialised evs a :
  app_inv a ->
  app_inv (appRun evs a) /\
  (0 < loopCount (app_rounds (appRun evs a)) ->
   app_event EvSubmit (appRun evs a) = appRun evs a).
Proof.
  intros H.
  assert (Hr : app_inv (appRun evs a)).
  { revert a H. induction evs as [|ev evs IH]; intros a H; [done|].
    apply IH, app_event_inv, H. }
  split; [done|]. intros Hpos. destruct Hr as [_ Hp].
  apply Nat.ltb_lt in Hpos. rewrite Hpos in Hp. simpl. rewrite Hp.
  unfold giftCodeFormSubmit, submitDisabled. by rewrite orb_true_r.
Qed.

Definition sampleApp : AppSession := mkApp (emptyHook twoValidated) "" [] [].

Definition sampleEvents : list AppEvent :=
  [EvType "CODE"; EvSubmit; EvType "OTHER"; EvSubmit;
   EvRound 0 (fun _ _ => profileFound (sampleInfo 1)) (fun _ _ => redeemOk)].

Lemma app_rounds_serialised_witness :
  app_inv sampleApp /\ app_inv (appRun sampleEvents sampleApp) /\
  loopCount (app_rounds (appRun sampleEvents sampleApp)) = 1 /\
  app_event EvSubmit (appRun sampleEvents sampleApp) = appRun sampleEvents sampleApp.
Proof.
  assert (H : app_inv sampleApp) by (split; [unfold loopCount; simpl; lia|reflexivity]).
  destruct (app_rounds_serialised sampleEvents sampleApp H) as [H1 H2].
  split; [exact H|split; [exact H1|]].
  assert (Hc : loopCount (app_rounds (appRun sampleEvents sampleApp)) = 1) by (vm_compute; reflexivity).
  split; [exact Hc|apply H2; lia].
Defined.

(** The indicators agree at every suspension where the round's invariant
    holds. *)
Lemma indicators_agree_inv (vs : list Account) pc s :
  r_inv (length vs) (pc, s) -> accounts s <> [] ->
  exists p, statusPanel (accounts s) (processingRemaining s) = Some p /\
    (submitLabel (isProcessing s) true = Tr "giftCode.processing" [] <->
     exists v, In (statCard "status.processing" v "processing" true) (cards p)).
Proof.
  intros Hinv Hne. destruct (r_inv_flag_remaining _ _ _ Hinv) as [Hr Hf].
  destruct (statusPanel_some (accounts s) (processingRemaining s) Hne) as [p E].
  exists p. split; [done|]. rewrite (statusPanel_processing_card _ _ _ E), Hr.
  unfold statusDisplay.
  destruct (Z.leb_spec 0 (Z.of_nat (length vs - r_completed (length vs) pc))) as [_|Hneg]; [|lia].
  simpl. rewrite Z.ltb_lt.
  destruct (isProcessing s); simpl.
  - split; [intros _; specialize (proj1 Hf eq_refl); lia|done].
  - split; [intros H; discriminate H|intros H; assert (false = true) by (apply Hf; lia); done].
Qed.

(** C32: while a gift-code round runs on its own, the two progress
    indicators of the page agree: in every state the round reaches from
    its start, whatever the lookups and redemptions return and whatever
    the user deletes meanwhile, with accounts left in the registry, the
    gift-code button reads "processing" exactly when the processing card
    of [StatusStats] shows its spinner.  (A second round started before
    the first one's final tick breaks this: [stale_tick_race] below.) *)
Theorem progress_indicators_agree snapshot s pc s' :
  validatedOf snapshot <> [] ->
  star (r_step (validatedOf snapshot))
    (snd (submitGiftCodeToAccounts snapshot s), fst (submitGiftCodeToAccounts snapshot s))
    (pc, s') ->
  accounts s' <> [] ->
  exists p, statusPanel (accounts s') (processingRemaining s') = Some p /\
    (submitLabel (isProcessing s') true = Tr "giftCode.processing" [] <->
     exists v, In (statCard "status.processing" v "processing" true) (cards p)).
Proof.
  intros Hne Hrun Hacc. apply (indicators_agree_inv (validatedOf snapshot) pc); [|done].
  destruct (submitGiftCodeToAccounts_started snapshot s Hne) as [[Hinv0 _] _].
  eapply star_invariant; [apply r_step_inv|exact Hrun|exact Hinv0].
Qed.

Definition sampleRoundStart : HookState * RPc :=
  submitGiftCodeToAccounts twoValidated (emptyHook twoValidated).

Lemma progress_indicators_agree_witness :
  validatedOf twoValidated <> [] /\
  accounts (fst sampleRoundStart) <> [] /\
  exists p, statusPanel (accounts (fst sampleRoundStart))
              (processingRemaining (fst sampleRoundStart)) = Some p /\
    (submitLabel (isProcessing (fst sampleRoundStart)) true = Tr "giftCode.processing" [] <->
     exists v, In (statCard "status.processing" v "processing" true) (cards p)).
Proof.
  assert (H1 : validatedOf twoValidated <> []) by (vm_compute; discriminate).
  assert (H2 : accounts (fst sampleRoundStart) <> []) by (vm_compute; discriminate).
  split; [exact H1|split; [exact H2|]].
  exact (progress_indicators_agree twoValidated (emptyHook twoValidated) _ _ H1 (star_refl _ _) H2).
Defined.

(** ** The final tick of a round

    [submitGiftCodeToAccounts] ends with [setIsProcessing(false)] and then
    [setTimeout(() => setProcessingRemaining(0), 0)].  The form is enabled
    again as soon as the flag is clear, so nothing orders a new submission
    before that callback: if the user starts a second round first, the
    callback of the first one zeroes the counter of the second. *)

Definition okLookup : nat -> Account -> FetchOutcome PlayerInfoResponse :=
  fun _ _ => profileFound (sampleInfo 1).

Definition raceEvents : list AppEvent :=
  [EvType "CODE"; EvSubmit] ++
  repeat (EvRound 0 okLookup (fun _ _ => redeemOk)) 5 ++
  [EvSubmit; EvRound 0 okLookup (fun _ _ => redeemOk)].

Lemma stale_tick_race :
  let a := appRun raceEvents sampleApp in
  app_inv sampleApp /\
  isProcessing (app_hook a) = true /\ loopCount (app_rounds a) = 1 /\
  processingRemaining (app_hook a) = Some 0%Z /\
  submitLabel (isProcessing (app_hook a)) (hasAccounts a) = Tr "giftCode.processing" [] /\
  forall p, statusPanel (accounts (app_hook a)) (processingRemaining (app_hook a)) = Some p ->
    ~ exists v, In (statCard "status.processing" v "processing" true) (cards p).
Proof.
  simpl. split; [split; [unfold loopCount; simpl; lia|reflexivity]|].
  split; [vm_compute; reflexivity|]. split; [vm_compute; reflexivity|].
  split; [vm_compute; reflexivity|]. split; [vm_compute; reflexivity|].
  intros p E. rewrite (statusPanel_processing_card _ _ _ E). vm_compute. discriminate.
Qed.
