(* ===== verification/Roster.v ===== *)
(** * Roster: the account panel of AccountManager.tsx

    Besides the import handler (Import.v) the panel has the add field, the
    export button, the list of account rows and a scrolling effect.

    - The add field is the state [newAccount]/[isAdding] ([AddForm]).  Its
      [onChange] keeps only the digits of what was typed
      ([value.replace(/\D/g, "")]); Enter and the confirm button call
      [handleAddAccount], which passes the trimmed number to
      [onAddAccount] when it is a non-empty string of digits and then
      closes the field; Escape and the cancel button close it.  The field
      only exists while [isAdding]; the button that opens it is disabled
      during an import.  [formRun] plays a list of such events and
      collects the numbers passed to [onAddAccount].
    - [handleExportAccounts] warns when the list is empty, else writes
      [exportContent] (FileUtils.v) to a file named after the date and
      reports the count.  The date is [new Date().toISOString()], a
      parameter.
    - Each row ([accountRow]) shows the avatar or the row number, the
      profile or the bare number, the last result in the status colour,
      the status icon, and the delete button with its guard.
    - The effect on [accounts] scrolls to the bottom when the list grew. *)

From Stdlib Require Import List ZArith String Ascii Bool Lia.
From stdpp Require Import base strings list pretty.
From S2P Require Import Prelude Types Registry FileUtils Import StatusView AppShell.
Import ListNotations.
Open Scope string_scope.

(** ** The add field *)

Record AddForm := mkAddForm {
  newAccount : string;
  isAdding : bool;
}.

Definition closedForm : AddForm := mkAddForm "" false.

(** [e.target.value.replace(/\D/g, "")] *)
Definition digitsOnly (value : string) : string :=
  string_of_list_ascii (List.filter isDigit (list_ascii_of_string value)).

(** [handleAddAccount]: the number passed to [onAddAccount], if any, and
    the field afterwards. *)
Definition handleAddAccountForm (f : AddForm) : option string * AddForm :=
  match handleAddAccountInput (newAccount f) with
  | Some n => (Some n, closedForm)
  | None => (None, f)
  end.

(** [handleKeyPress] *)
Definition handleKeyPress (key : string) (f : AddForm) : option string * AddForm :=
  if String.eqb key "Enter" then handleAddAccountForm f
  else if String.eqb key "Escape" then (None, closedForm)
  else (None, f).

Inductive FormEvent :=
| FOpen                   (** the dashed add button *)
| FChange (value : string) (** the input's [onChange] *)
| FKey (key : string)     (** the input's [onKeyPress] *)
| FConfirm                (** the confirm button *)
| FCancel.                (** the cancel button *)

(** One event; the input and its two buttons exist only while [isAdding],
    the add button only while not, and it is disabled during an import. *)
Definition form_event (isImporting_ : bool) (ev : FormEvent) (f : AddForm)
    : option string * AddForm :=
  if isAdding f then
    match ev with
    | FOpen => (None, f)
    | FChange value => (None, mkAddForm (digitsOnly value) (isAdding f))
    | FKey key => handleKeyPress key f
    | FConfirm => handleAddAccountForm f
    | FCancel => (None, closedForm)
    end
  else
    match ev with
    | FOpen => if isImporting_ then (None, f) else (None, mkAddForm (newAccount f) true)
    | _ => (None, f)
    end.

(** The numbers passed to [onAddAccount], in order, and the final field. *)
Fixpoint formRun (isImporting_ : bool) (evs : list FormEvent) (f : AddForm)
    : list string * AddForm :=
  match evs with
  | [] => ([], f)
  | ev :: rest =>
      let '(o, f1) := form_event isImporting_ ev f in
      let '(ns, f2) := formRun isImporting_ rest f1 in
      (match o with Some n => n :: ns | None => ns end, f2)
  end.

(** The field holds digits only. *)
Definition form_inv (f : AddForm) : Prop :=
  forallb isDigit (list_ascii_of_string (newAccount f)) = true.

(** ** The export button *)

(** [`kingshot-accounts-${new Date().toISOString().slice(0, 10)}.txt`] *)
Definition exportFilename (isoDate : string) : string :=
  "kingshot-accounts-" ++ substring 0 10 isoDate ++ ".txt".

(** [handleExportAccounts]: the file written (name and content), if any,
    and the alert shown. *)
Definition handleExportAccounts (accounts_ : list Account) (isoDate : string)
    : option (string * string) * (Text * AlertType) :=
  if Nat.eqb (length accounts_) 0 then
    (None, (Tr "accountManager.noAccountsToExport" [], alert_warning))
  else
    (Some (exportFilename isoDate, exportContent accounts_ false),
     (Tr "messages.exportSuccess" [("count", Num (Z.of_nat (length accounts_)))], alert_success)).

(** ** The list *)

Inductive Avatar := AvatarImage (url : string) | AvatarIndex (n : nat).

(** The castle level: its picture, or the number. *)
Inductive CastleLevel := CastleImage (url : string) | CastleNumber (lv : Z).

Record RowProfile := mkRowProfile {
  rp_nickname : string;
  rp_kingdom : Text;
  rp_castle : CastleLevel;
}.

(** What one row shows. *)
Record RowView := mkRowView {
  row_bg : string;
  row_avatar : Avatar;
  row_profile : option RowProfile;
  row_number : string;
  row_result : option (Text * string);
  row_icon : LucideIcon * string * bool;
  row_deleteEnabled : bool;
}.

Definition accountRow (index : nat) (account : Account) : RowView :=
  mkRowView
    (getStatusBgColor (status account))
    (match playerInfo account with
     | Some p => if String.eqb (avatar_image p) "" then AvatarIndex (S index)
                 else AvatarImage (avatar_image p)
     | None => AvatarIndex (S index)
     end)
    (match playerInfo account with
     | Some p =>
         Some (mkRowProfile (nickname p) (Tr "accountManager.kingdom" [("kid", Num (kid p))])
                 (if String.eqb (stove_lv_content p) "" then CastleNumber (stove_lv p)
                  else CastleImage (stove_lv_content p)))
     | None => None
     end)
    (accountNumber account)
    (match lastResult account with
     | Some r => Some (r, getStatusColor (status account))
     | None => None
     end)
    (accountStatusIcon (status account))
    (deleteEnabled account).

(** The list: the empty text, or the rows in order. *)
Definition accountList (accounts_ : list Account) : Text + list RowView :=
  match accounts_ with
  | [] => inl (Tr "accountManager.empty" [])
  | _ => inr (imap accountRow accounts_)
  end.

(** The header: [t("accountManager.count", { count: accounts.length })]. *)
Definition accountCount (accounts_ : list Account) : Text :=
  Tr "accountManager.count" [("count", Num (Z.of_nat (length accounts_)))].

(** The dashed add button's text. *)
Definition addButtonLabel (u : ImportUI) : Text :=
  if isImporting u then
    if Z.ltb 0 (importTotal u) then
      Tr "accountManager.importProgress"
        [("remaining", Num (importRemaining u)); ("total", Num (importTotal u))]
    else Tr "accountManager.importing" []
  else Tr "accountManager.add" [].

(** The effect on [accounts]: scroll when the list grew, then remember
    its length in [prevCountRef]. *)
Definition scrollEffect (prevCount : nat) (accounts_ : list Account) : bool * nat :=
  (Nat.ltb prevCount (length accounts_), length accounts_).

(** ** Lemmas *)

Lemma digitsOnly_inv value : forallb isDigit (list_ascii_of_string (digitsOnly value)) = true.
Proof.
  unfold digitsOnly. rewrite list_ascii_of_string_of_list_ascii.
  induction (list_ascii_of_string value) as [|c l IH]; [done|]. simpl.
  destruct (isDigit c) eqn:E; simpl; [by rewrite E, IH|done].
Qed.

Lemma isDigit_accountChar c : isDigit c = true -> accountChar c = true.
Proof. unfold accountChar, isDigit. intros ->. by rewrite orb_true_r. Qed.

Lemma forallb_digits_account l : forallb isDigit l = true -> forallb accountChar l = true.
Proof.
  induction l as [|c l IH]; [done|]. simpl. rewrite !andb_true_iff.
  intros [Hc Hl]. split; [by apply isDigit_accountChar|by apply IH].
Qed.

(** A non-empty string of digits passes [handleAddAccount] unchanged. *)
Lemma handleAddAccountInput_digits s :
  forallb isDigit (list_ascii_of_string s) = true -> s <> "" -> handleAddAccountInput s = Some s.
Proof.
  intros Hd Hne. pose proof (forallb_digits_account _ Hd) as Ha.
  destruct (accountChars_trim s Ha) as (Hl & Hr & _).
  unfold handleAddAccountInput. assert (Ht : trim s = s) by (unfold trim; by rewrite Hl, Hr).
  rewrite Ht. unfold accountRegexTest. rewrite (proj2 (String.eqb_neq s "") Hne), Ha, Hd.
  reflexivity.
Qed.

Lemma handleAddAccountForm_inv f :
  form_inv f ->
  handleAddAccountForm f =
  if String.eqb (newAccount f) "" then (None, f) else (Some (newAccount f), closedForm).
Proof.
  intros Hf. unfold handleAddAccountForm.
  destruct (String.eqb_spec (newAccount f) "") as [E|E]; [by rewrite E|].
  by rewrite handleAddAccountInput_digits.
Qed.

Lemma form_event_inv imp ev f : form_inv f -> form_inv (snd (form_event imp ev f)).
Proof.
  intros Hf. unfold form_event. destruct (isAdding f).
  - destruct ev as [|value|key| |]; simpl; try done.
    + apply digitsOnly_inv.
    + unfold handleKeyPress. destruct (String.eqb key "Enter");
        [|by destruct (String.eqb key "Escape")].
      unfold handleAddAccountForm. by destruct (handleAddAccountInput _).
    + unfold handleAddAccountForm. by destruct (handleAddAccountInput _).
  - destruct ev; simpl; try done. by destruct imp.
Qed.

Lemma handleAddAccountForm_some f n f1 :
  handleAddAccountForm f = (Some n, f1) -> handleAddAccountInput (newAccount f) = Some n.
Proof. unfold handleAddAccountForm. destruct (handleAddAccountInput _); congruence. Qed.

(** A number is emitted only by [handleAddAccount]. *)
Lemma form_event_some imp ev f n f1 :
  form_event imp ev f = (Some n, f1) -> handleAddAccountInput (newAccount f) = Some n.
Proof.
  unfold form_event. destruct (isAdding f).
  - destruct ev as [|value|key| |]; try discriminate; [|apply handleAddAccountForm_some].
    unfold handleKeyPress. destruct (String.eqb key "Enter"); [apply handleAddAccountForm_some|].
    by destruct (String.eqb key "Escape").
  - destruct ev; try discriminate. by destruct imp.
Qed.

(** Every number passed to [onAddAccount] is a non-empty string of digits. *)
Lemma formRun_emits imp evs f :
  Forall (fun n => n <> "" /\ forallb isDigit (list_ascii_of_string n) = true)
    (fst (formRun imp evs f)).
Proof.
  revert f. induction evs as [|ev evs IH]; intros f; simpl; [constructor|].
  destruct (form_event imp ev f) as [o f1] eqn:E.
  specialize (IH f1). destruct (formRun imp evs f1) as [ns f2]. simpl in *.
  destruct o as [n|]; [|done]. constructor; [|done].
  apply form_event_some in E as Hn.
  unfold handleAddAccountInput in Hn. case_match; simplify_eq.
  apply andb_true_iff in H as [H Hd]. apply andb_true_iff in H as [Hne _].
  split; [by apply String.eqb_neq, negb_true_iff|done].
Qed.

(** The delete button of a row is disabled exactly while its icon spins. *)
Lemma row_delete_spin i a : row_deleteEnabled (accountRow i a) = negb (snd (accountStatusIcon (status a))).
Proof. unfold accountRow, deleteEnabled, accountStatusIcon. by destruct (status a). Qed.

(** Appending an account makes the list scroll. *)
Lemma scrollEffect_append a l : scrollEffect (length l) (appendAccount a l) = (true, S (length l)).
Proof.
  unfold scrollEffect, appendAccount. rewrite length_app. simpl.
  rewrite Nat.add_1_r. by rewrite (proj2 (Nat.ltb_lt _ _)) by lia.
Qed.

(** ** Theorems *)

(** C15: the add field holds digits only after every event, so a
    confirmation (the button or Enter) never silently drops what the user
    sees: a non-empty field is passed unchanged to [onAddAccount] and the
    field closes; an empty one does nothing. *)
Theorem add_form_confirms_exactly imp ev f :
  form_inv f ->
  form_inv (snd (form_event imp ev f)) /\
  (isAdding f = true -> ev = FConfirm \/ ev = FKey "Enter" ->
   form_event imp ev f =
   if String.eqb (newAccount f) "" then (None, f) else (Some (newAccount f), closedForm)).
Proof.
  intros Hf. split; [by apply form_event_inv|].
  intros Ha [-> | ->]; unfold form_event; rewrite Ha; [|unfold handleKeyPress; simpl];
    by apply handleAddAccountForm_inv.
Qed.

Definition typedForm : AddForm := snd (form_event false (FChange " 12a3 4") (mkAddForm "" true)).

Lemma add_form_confirms_exactly_witness :
  form_inv typedForm /\ isAdding typedForm = true /\
  form_event false (FKey "Enter") typedForm = (Some "1234", closedForm).
Proof.
  assert (H : form_inv typedForm) by reflexivity.
  split; [exact H|split; [reflexivity|]].
  destruct (add_form_confirms_exactly false (FKey "Enter") typedForm H) as [_ H2].
  rewrite H2; [reflexivity|reflexivity|right; reflexivity].
Defined.
