(* ===== verification/AppView.v ===== *)
(** * AppView: what App.tsx renders from its state

    The JSX of [App] composes the views of the other files: the title, the
    LanguageSwitcher ([Settings.languageButtons]), the interval select
    showing [delayMs], the loading line while [isInitializing], the
    account panel ([Roster.accountCount], [Roster.accountList],
    [Roster.addButtonLabel]), the statistics ([StatusView.statusPanel]),
    the gift-code form ([AppShell.submitDisabled], [AppShell.submitLabel])
    with [disabled={isProcessing}] and [hasAccounts={accounts.length > 0}],
    and the alert ([Alert.alertBox]).  [appView] is that tree, given the
    states App reads. *)

From Stdlib Require Import List ZArith String Bool Lia.
From stdpp Require Import base strings list.
From S2P Require Import Prelude Types Registry Stats Import StatusView Alert Settings AppShell Roster.
Import ListNotations.
Open Scope string_scope.

Record AppView := mkAppView {
  av_title : Text * Text;
  av_languages : list (string * string);
  av_delay : JsInt;
  av_loading : option Text;
  av_count : Text;
  av_list : Text + list RowView;
  av_addLabel : Text;
  av_stats : option StatusPanel;
  av_giftDisabled : bool;
  av_giftLabel : Text;
  av_alert : option AlertBox;
}.

(** The tree of [App]'s [return], from [isInitializing], [delayMs],
    i18next's language, the hook's state, AccountManager's import state,
    GiftCodeInput's text and the alert. *)
Definition appView (isInitializing_ : bool) (delayMs : JsInt) (language : string)
    (h : HookState) (ui : ImportUI) (giftCode : string) (a : AlertState) : AppView :=
  let hasAccounts_ := Nat.ltb 0 (length (accounts h)) in
  mkAppView
    (Tr "app.title" [], Tr "app.subtitle" [])
    (languageButtons language)
    delayMs
    (if isInitializing_ then Some (Tr "app.loadingAccounts" []) else None)
    (accountCount (accounts h))
    (accountList (accounts h))
    (addButtonLabel ui)
    (statusPanel (accounts h) (processingRemaining h))
    (submitDisabled giftCode (isProcessing h) hasAccounts_)
    (submitLabel (isProcessing h) hasAccounts_)
    (alertBox a).

(** ** Lemmas *)

(** The three panels agree on an empty registry: the list shows its empty
    text exactly when the statistics show their hint, the gift-code button
    is then disabled, and, outside a round, it asks for accounts exactly
    then. *)
Lemma appView_empty_agree ini d lang h ui g a :
  let v := appView ini d lang h ui g a in
  (accounts h = [] <-> av_stats v = None) /\
  (accounts h = [] <-> av_list v = inl (Tr "accountManager.empty" [])) /\
  (accounts h = [] -> av_giftDisabled v = true) /\
  (isProcessing h = false ->
   (accounts h = [] <-> av_giftLabel v = Tr "giftCode.needAccounts" [])).
Proof.
  simpl. unfold statusPanel, accountList, submitDisabled, submitLabel. simpl st_total.
  destruct (isProcessing h), (accounts h) as [|x l]; simpl;
    repeat split; intros; try done; try discriminate; by rewrite ?orb_true_r.
Qed.
